(** * Verification of the practice checker of Go_Learning

    The development embeds [internal/practice]'s [Checker] (the verification
    pipeline for submitted task solutions) together with the part of
    [internal/content]'s repository it reads from.  Go strings are byte
    strings and are modelled by [string]; [int] and [int64] values are only
    copied and compared, never computed with, and are modelled by [Z].

    Collaborator calls (the runner, the progress repository, the content
    database) are effects of a small free monad, so that one and the same
    embedding of [Check] can be run against any behaviour of the
    collaborators, sequentially or interleaved with another call. *)

From Stdlib Require Import Ascii.
From Stdlib Require String.
From stdpp Require Import base list strings numbers.

Local Open Scope Z_scope.

(** ** The functions of Go's [strings] package used by the checker *)

Module strings.

(** [strings.HasPrefix] *)
Fixpoint HasPrefix (s prefix : string) {struct prefix} : bool :=
  match prefix, s with
  | EmptyString, _ => true
  | String p prefix', String c s' => if Ascii.eqb c p then HasPrefix s' prefix' else false
  | String _ _, EmptyString => false
  end.

(** [strings.Contains]: [substr] occurs in [s] at some byte offset. *)
Fixpoint Contains (s substr : string) : bool :=
  if HasPrefix s substr then true
  else match s with
       | EmptyString => false
       | String _ s' => Contains s' substr
       end.

(** [strings.Split] for a non-empty separator (the checker splits on a line
    feed and on a bar).  [skip] counts the bytes of a separator that has been
    recognised and is still to be stepped over; the result is the field in
    progress and the fields after it. *)
Fixpoint Split_from (sep : string) (skip : nat) (s : string) : string * list string :=
  match s with
  | EmptyString => (EmptyString, [])
  | String c s' =>
    match skip with
    | S k => Split_from sep k s'
    | O =>
      if HasPrefix s sep
      then (EmptyString, let '(f, r) := Split_from sep (String.length sep - 1) s' in f :: r)
      else let '(f, r) := Split_from sep 0 s' in (String c f, r)
    end
  end.

Definition Split (s sep : string) : list string :=
  let '(f, r) := Split_from sep 0 s in f :: r.

(** [strings.Join] *)
Definition Join (elems : list string) (sep : string) : string :=
  String.concat sep elems.

(** [strings.ReplaceAll] for a non-empty [old]: occurrences are replaced
    from the left and do not overlap. *)
Fixpoint ReplaceAll_from (old new : string) (skip : nat) (s : string) : string :=
  match s with
  | EmptyString => EmptyString
  | String c s' =>
    match skip with
    | S k => ReplaceAll_from old new k s'
    | O =>
      if HasPrefix s old
      then new +:+ ReplaceAll_from old new (String.length old - 1) s'
      else String c (ReplaceAll_from old new 0 s')
    end
  end.

Definition ReplaceAll (s old new : string) : string :=
  ReplaceAll_from old new 0 s.

(** Membership of a byte in a cutset of single-byte characters. *)
Fixpoint in_cutset (c : ascii) (cutset : string) : bool :=
  match cutset with
  | EmptyString => false
  | String d cutset' => Ascii.eqb c d || in_cutset c cutset'
  end.

(** [strings.TrimRight] for a cutset of single-byte characters: trailing
    bytes of the cutset are removed. *)
Fixpoint TrimRight (s cutset : string) : string :=
  match s with
  | EmptyString => EmptyString
  | String c s' =>
    match TrimRight s' cutset with
    | EmptyString => if in_cutset c cutset then EmptyString else String c EmptyString
    | r => String c r
    end
  end.

(** The UTF-8 encodings of the code points for which [unicode.IsSpace]
    holds: tab, line feed, vertical tab, form feed, carriage return, space,
    U+0085, U+00A0, U+1680, U+2000 to U+200A, U+2028, U+2029, U+202F, U+205F
    and U+3000. *)
Definition bytes (l : list nat) : list ascii := map ascii_of_nat l.

Definition space_encodings : list (list ascii) :=
  map bytes
    [ [9]; [10]; [11]; [12]; [13]; [32];
      [194; 133]; [194; 160];
      [225; 154; 128];
      [226; 128; 128]; [226; 128; 129]; [226; 128; 130]; [226; 128; 131];
      [226; 128; 132]; [226; 128; 133]; [226; 128; 134]; [226; 128; 135];
      [226; 128; 136]; [226; 128; 137]; [226; 128; 138];
      [226; 128; 168]; [226; 128; 169]; [226; 128; 175];
      [226; 129; 159];
      [227; 128; 128] ]%nat.

Fixpoint strip_prefix (p s : list ascii) : option (list ascii) :=
  match p, s with
  | [], _ => Some s
  | a :: p', c :: s' => if Ascii.eqb a c then strip_prefix p' s' else None
  | _ :: _, [] => None
  end.

(** The first encoding of [encs] that starts [s] is removed. *)
Fixpoint strip_any (encs : list (list ascii)) (s : list ascii) : option (list ascii) :=
  match encs with
  | [] => None
  | e :: encs' =>
    match strip_prefix e s with
    | Some s' => Some s'
    | None => strip_any encs' s
    end
  end.

(** Leading members of [encs] are removed for as long as there is one; each
    removal shortens the text, so [length s] rounds suffice. *)
Fixpoint strip_all (encs : list (list ascii)) (fuel : nat) (s : list ascii) : list ascii :=
  match fuel with
  | O => s
  | S fuel' =>
    match strip_any encs s with
    | Some s' => strip_all encs fuel' s'
    | None => s
    end
  end.

Definition trim_left_space (s : list ascii) : list ascii :=
  strip_all space_encodings (length s) s.

(** Decoding the last rune finds a white-space rune exactly when the text
    ends with one of the encodings, so trimming on the right is trimming the
    reversed encodings off the reversed text. *)
Definition trim_right_space (s : list ascii) : list ascii :=
  rev (strip_all (map (@rev ascii) space_encodings) (length s) (rev s)).

(** [strings.TrimSpace] *)
Definition TrimSpace (s : string) : string :=
  String.string_of_list_ascii
    (trim_right_space (trim_left_space (String.list_ascii_of_string s))).

End strings.


(** ** Data model *)

(** A Go [error] is represented by its message; [fmt.Errorf("ctx: %w", err)]
    is the message prefixed by its context. *)
Definition error := string.

Inductive result (A : Type) : Type :=
| Ok (a : A)
| Err (err : error).
Arguments Ok {A} a.
Arguments Err {A} err.

(** [content.Task] *)
Module Task.
Record t := mk {
  ID : Z;
  LessonID : Z;
  Title : string;
  PromptMD : string;
  Criteria : string;
  Hints : string;
  StarterCode : string;
  TestsGo : string;
  ExpectedOutput : string;
  RequiredPatterns : string;
  Mode : string;
  Points : Z;
  OrderIndex : Z
}.
End Task.

(** Modelled from the spec: [progress.Submission], whose declaration is not
    among the sources.  The fields are those [Check] assigns, the identifier
    the ledger hands out, and no time stamps. *)
Module Submission.
Record t := mk {
  ID : Z;
  TaskID : Z;
  Code : string;
  Status : string;
  Stdout : string;
  Stderr : string
}.
Definition set_ID (v : Z) (s : t) : t :=
  mk v (TaskID s) (Code s) (Status s) (Stdout s) (Stderr s).
Definition set_Status (v : string) (s : t) : t :=
  mk (ID s) (TaskID s) (Code s) v (Stdout s) (Stderr s).
Definition set_Stdout (v : string) (s : t) : t :=
  mk (ID s) (TaskID s) (Code s) (Status s) v (Stderr s).
Definition set_Stderr (v : string) (s : t) : t :=
  mk (ID s) (TaskID s) (Code s) (Status s) (Stdout s) v.
End Submission.

(** Modelled from the spec: [practice.RunResult], declared next to the
    [Runner] interface, which is not among the sources: a success flag, the
    two output streams and the error string. *)
Module RunResult.
Record t := mk {
  Success : bool;
  Stdout : string;
  Stderr : string;
  Error : string
}.
End RunResult.

(** [practice.CheckResult].  A nil slice and an empty slice of hints are both
    the empty list. *)
Module CheckResult.
Record t := mk {
  Success : bool;
  Output : string;
  Expected : string;
  Error : string;
  Hints : list string;
  PointsAwarded : Z
}.
Definition set_Success (v : bool) (r : t) : t :=
  mk v (Output r) (Expected r) (Error r) (Hints r) (PointsAwarded r).
Definition set_Output (v : string) (r : t) : t :=
  mk (Success r) v (Expected r) (Error r) (Hints r) (PointsAwarded r).
Definition set_Expected (v : string) (r : t) : t :=
  mk (Success r) (Output r) v (Error r) (Hints r) (PointsAwarded r).
Definition set_Error (v : string) (r : t) : t :=
  mk (Success r) (Output r) (Expected r) v (Hints r) (PointsAwarded r).
Definition set_Hints (v : list string) (r : t) : t :=
  mk (Success r) (Output r) (Expected r) (Error r) v (PointsAwarded r).
Definition set_PointsAwarded (v : Z) (r : t) : t :=
  mk (Success r) (Output r) (Expected r) (Error r) (Hints r) v.
End CheckResult.

(** ** Collaborator calls as effects *)

(** What [QueryRow(...).Scan(...)] on the [tasks] table yields. *)
Inductive ScanResult : Type :=
| Scanned (row : Task.t)
| ErrNoRows
| ScanErr (err : error).

(** One constructor per call that leaves the checker.  A Go method that is
    handed a pointer may write through it: [CreateSubmission] answers with
    the submission as the ledger left it.  The answers to the calls of the
    progress repository follow their use in [Check]: an error, a flag with an
    error, and for [UpdateSubmission] a value that [Check] drops. *)
Inductive Op : Type -> Type :=
| QueryTaskRow (id : Z) : Op ScanResult
| CreateSubmission (s : Submission.t) : Op (option error * Submission.t)
| UpdateSubmission (s : Submission.t) : Op (option error)
| IsTaskSolvedSuccessfully (taskID : Z) : Op (bool * option error)
| SetPracticeDone (lessonID points : Z) : Op (option error)
| RunnerRun (code : string) : Op (result RunResult.t)
| RunnerCheck (code testCode : string) : Op (result RunResult.t).

Inductive Prog (A : Type) : Type :=
| Ret (a : A)
| Call {X : Type} (op : Op X) (k : X -> Prog A).
Arguments Ret {A} a.
Arguments Call {A X} op k.

Fixpoint bind {A B : Type} (p : Prog A) (f : A -> Prog B) : Prog B :=
  match p with
  | Ret a => f a
  | Call op k => Call op (fun x => bind (k x) f)
  end.

Definition call {X : Type} (op : Op X) : Prog X := Call op Ret.

#[global] Instance Prog_ret : MRet Prog := @Ret.
#[global] Instance Prog_bind : MBind Prog := fun A B f p => bind p f.

(** The calls a run makes, in order, each with its arguments and its
    answer. *)
Inductive Event : Type :=
| EvQueryTaskRow (id : Z) (ans : ScanResult)
| EvCreateSubmission (s : Submission.t) (ans : option error * Submission.t)
| EvUpdateSubmission (s : Submission.t) (ans : option error)
| EvIsTaskSolvedSuccessfully (taskID : Z) (ans : bool * option error)
| EvSetPracticeDone (lessonID points : Z) (ans : option error)
| EvRunnerRun (code : string) (ans : result RunResult.t)
| EvRunnerCheck (code testCode : string) (ans : result RunResult.t).

Definition event_of {X : Type} (op : Op X) : X -> Event :=
  match op with
  | QueryTaskRow id => EvQueryTaskRow id
  | CreateSubmission s => EvCreateSubmission s
  | UpdateSubmission s => EvUpdateSubmission s
  | IsTaskSolvedSuccessfully taskID => EvIsTaskSolvedSuccessfully taskID
  | SetPracticeDone lessonID points => EvSetPracticeDone lessonID points
  | RunnerRun code => EvRunnerRun code
  | RunnerCheck code testCode => EvRunnerCheck code testCode
  end.

Definition is_runner_event (e : Event) : bool :=
  match e with
  | EvRunnerRun _ _ | EvRunnerCheck _ _ _ => true
  | _ => false
  end.

Definition is_update_event (e : Event) : bool :=
  match e with
  | EvUpdateSubmission _ _ => true
  | _ => false
  end.

(** The calls that write to the ledger. *)
Definition is_ledger_write (e : Event) : bool :=
  match e with
  | EvCreateSubmission _ _ | EvUpdateSubmission _ _ | EvSetPracticeDone _ _ _ => true
  | _ => false
  end.

(** A handler answers every call against a state of the collaborators. *)
Definition Handler (St : Type) : Type := forall X : Type, Op X -> St -> X * St.

(** A sequential run: the result, the trace of calls and the final state. *)
Fixpoint run {St A : Type} (h : Handler St) (p : Prog A) (s : St) : A * list Event * St :=
  match p with
  | Ret a => (a, [], s)
  | Call op k =>
    let '(x, s1) := h _ op s in
    let '(a, tr, s2) := run h (k x) s1 in
    (a, event_of op x :: tr, s2)
  end.

(** ** [content.Repository.GetTaskByID] *)

(** The row with the given identifier is read; no row is not an error but a
    nil task. *)
Definition GetTaskByID (id : Z) : Prog (result (option Task.t)) :=
  scan ← call (QueryTaskRow id);
  match scan with
  | ErrNoRows => mret (Ok None)
  | ScanErr err => mret (Err ("get task by id: " +:+ err))
  | Scanned t => mret (Ok (Some t))
  end.

(** ** [practice.Checker] *)

Definition LF : string := String (ascii_of_nat 10) EmptyString.
Definition CRLF : string := String (ascii_of_nat 13) LF.
Definition SPACE_TAB : string := String (ascii_of_nat 32) (String (ascii_of_nat 9) EmptyString).

(** [normalizeOutput]: Windows line ends become Unix ones, then every line
    is overwritten in place by itself without trailing spaces and tabs. *)
Definition normalizeOutput (s : string) : string :=
  let s := strings.ReplaceAll s CRLF LF in
  let lines := strings.Split s LF in
  let lines :=
    foldl (fun (lines : list string) (i : nat) =>
             match lines !! i with
             | Some line => <[i := strings.TrimRight line SPACE_TAB]> lines
             | None => lines
             end)
          lines (seq 0 (length lines)) in
  strings.Join lines LF.

(** [nonEmptyLines]: the lines that are not blank, appended one by one. *)
Definition nonEmptyLines (s : string) : list string :=
  let lines := strings.Split s LF in
  foldl (fun (result : list string) (line : string) =>
           if negb (String.eqb (strings.TrimSpace line) "")
           then result ++ [line] else result)
        [] lines.

(** The loop of [compareOutput] over the indices of [actualLines]: the first
    pair of lines that differ after trimming ends it with false.  It is only
    entered with as many expected lines as actual ones; indexing a shorter
    [expectedLines] would panic, and is false here. *)
Fixpoint linesMatch (actualLines expectedLines : list string) : bool :=
  match actualLines, expectedLines with
  | [], _ => true
  | a :: actualLines', e :: expectedLines' =>
    if negb (String.eqb (strings.TrimSpace a) (strings.TrimSpace e)) then false
    else linesMatch actualLines' expectedLines'
  | _ :: _, [] => false
  end.

(** [compareOutput] *)
Definition compareOutput (actual expected : string) : bool :=
  let actual := normalizeOutput actual in
  let expected := normalizeOutput expected in
  if String.eqb actual expected then true
  else
    let actualLines := nonEmptyLines actual in
    let expectedLines := nonEmptyLines expected in
    if negb (length actualLines =? length expectedLines)%nat then false
    else linesMatch actualLines expectedLines.

(** The loop of step 1 of [Check]: the trimmed, non-empty patterns that the
    code does not contain, in the order of the task's pattern list. *)
Definition missingPatternsOf (requiredPatterns code : string) : list string :=
  let patterns := strings.Split requiredPatterns "|" in
  foldl (fun (missingPatterns : list string) (pattern : string) =>
           let pattern := strings.TrimSpace pattern in
           if negb (String.eqb pattern "") && negb (strings.Contains code pattern)
           then missingPatterns ++ [pattern] else missingPatterns)
        [] patterns.

Definition notFoundResult : CheckResult.t :=
  {| CheckResult.Success := false;
     CheckResult.Output := "";
     CheckResult.Expected := "";
     CheckResult.Error := "Задание не найдено";
     CheckResult.Hints := [];
     CheckResult.PointsAwarded := 0 |}.

Definition manualResult : CheckResult.t :=
  {| CheckResult.Success := false;
     CheckResult.Output := "";
     CheckResult.Expected := "";
     CheckResult.Error := "Это ручное задание. Выполните его в IDE и нажмите «Отметить выполненным».";
     CheckResult.Hints := [];
     CheckResult.PointsAwarded := 0 |}.

(** [Check], from its end to its start.  Every part takes the task, the
    submission and the result as the statements before it left them. *)

(** The tail of [Check]: all checks passed. *)
Definition Check_score (taskID : Z) (task : Task.t)
    (submission : Submission.t) (checkResult : CheckResult.t)
  : Prog (result CheckResult.t) :=
  let checkResult := CheckResult.set_Success true checkResult in
  let submission := Submission.set_Status "success" submission in
  '(alreadySolved, _) ← call (IsTaskSolvedSuccessfully taskID);
  checkResult ←
    (if negb alreadySolved then
       let checkResult := CheckResult.set_PointsAwarded (Task.Points task) checkResult in
       _ ← call (SetPracticeDone (Task.LessonID task) (Task.Points task));
       mret checkResult
     else mret checkResult);
  _ ← call (UpdateSubmission submission);
  mret (Ok checkResult).

(** Step 4: the task's tests, when it has any. *)
Definition Check_tests (taskID : Z) (task : Task.t) (code : string)
    (submission : Submission.t) (checkResult : CheckResult.t)
  : Prog (result CheckResult.t) :=
  if negb (String.eqb (Task.TestsGo task) "") then
    r ← call (RunnerCheck code (Task.TestsGo task));
    match r with
    | Err err =>
      let submission := Submission.set_Status "error" submission in
      let submission := Submission.set_Stderr err submission in
      _ ← call (UpdateSubmission submission);
      mret (Err ("run tests: " +:+ err))
    | Ok testResult =>
      if negb (RunResult.Success testResult) then
        let submission := Submission.set_Status "error" submission in
        let submission := Submission.set_Stderr (RunResult.Error testResult) submission in
        let checkResult := CheckResult.set_Success false checkResult in
        let checkResult := CheckResult.set_Error "Тесты не пройдены" checkResult in
        let checkResult :=
          if negb (String.eqb (RunResult.Error testResult) "")
          then CheckResult.set_Hints
                 (CheckResult.Hints checkResult ++ [RunResult.Error testResult]) checkResult
          else checkResult in
        _ ← call (UpdateSubmission submission);
        mret (Ok checkResult)
      else Check_score taskID task submission checkResult
    end
  else Check_score taskID task submission checkResult.

(** Step 3: the expected output, when the task has one. *)
Definition Check_output (taskID : Z) (task : Task.t) (code : string)
    (runResult : RunResult.t)
    (submission : Submission.t) (checkResult : CheckResult.t)
  : Prog (result CheckResult.t) :=
  if negb (String.eqb (Task.ExpectedOutput task) "") then
    let actualOutput := strings.TrimSpace (RunResult.Stdout runResult) in
    let expectedOutput := strings.TrimSpace (Task.ExpectedOutput task) in
    let checkResult := CheckResult.set_Expected expectedOutput checkResult in
    if negb (compareOutput actualOutput expectedOutput) then
      let submission := Submission.set_Status "error" submission in
      let checkResult := CheckResult.set_Success false checkResult in
      let checkResult :=
        CheckResult.set_Error "Вывод программы не соответствует ожидаемому" checkResult in
      let checkResult :=
        CheckResult.set_Hints
          (CheckResult.Hints checkResult ++ ["Ожидалось:" +:+ LF +:+ expectedOutput])
          checkResult in
      _ ← call (UpdateSubmission submission);
      mret (Ok checkResult)
    else Check_tests taskID task code submission checkResult
  else Check_tests taskID task code submission checkResult.

(** Step 2: the code is run. *)
Definition Check_execute (taskID : Z) (task : Task.t) (code : string)
    (submission : Submission.t) (checkResult : CheckResult.t)
  : Prog (result CheckResult.t) :=
  r ← call (RunnerRun code);
  match r with
  | Err err =>
    let submission := Submission.set_Status "error" submission in
    let submission := Submission.set_Stderr err submission in
    _ ← call (UpdateSubmission submission);
    mret (Err ("run code: " +:+ err))
  | Ok runResult =>
    if negb (RunResult.Success runResult) then
      let submission := Submission.set_Status "error" submission in
      let submission := Submission.set_Stderr (RunResult.Error runResult) submission in
      let checkResult := CheckResult.set_Success false checkResult in
      let checkResult := CheckResult.set_Output (RunResult.Stdout runResult) checkResult in
      let checkResult := CheckResult.set_Error (RunResult.Error runResult) checkResult in
      _ ← call (UpdateSubmission submission);
      mret (Ok checkResult)
    else
      let submission := Submission.set_Stdout (RunResult.Stdout runResult) submission in
      let checkResult := CheckResult.set_Output (RunResult.Stdout runResult) checkResult in
      Check_output taskID task code runResult submission checkResult
  end.

(** Step 1: the required patterns, when the task has any. *)
Definition Check_patterns (taskID : Z) (task : Task.t) (code : string)
    (submission : Submission.t) (checkResult : CheckResult.t)
  : Prog (result CheckResult.t) :=
  if negb (String.eqb (Task.RequiredPatterns task) "") then
    let missingPatterns := missingPatternsOf (Task.RequiredPatterns task) code in
    if (0 <? length missingPatterns)%nat then
      let submission := Submission.set_Status "error" submission in
      let checkResult := CheckResult.set_Success false checkResult in
      let checkResult :=
        CheckResult.set_Error "В коде отсутствуют необходимые конструкции" checkResult in
      let checkResult :=
        CheckResult.set_Hints
          (CheckResult.Hints checkResult
             ++ ["Используйте: " +:+ strings.Join missingPatterns ", "])
          checkResult in
      _ ← call (UpdateSubmission submission);
      mret (Ok checkResult)
    else Check_execute taskID task code submission checkResult
  else Check_execute taskID task code submission checkResult.

(** The submission [Check] opens: pending, with no identifier and no output
    yet. *)
Definition pendingSubmission (taskID : Z) (code : string) : Submission.t :=
  {| Submission.ID := 0;
     Submission.TaskID := taskID;
     Submission.Code := code;
     Submission.Status := "pending";
     Submission.Stdout := "";
     Submission.Stderr := "" |}.

Definition emptyResult : CheckResult.t :=
  {| CheckResult.Success := false;
     CheckResult.Output := "";
     CheckResult.Expected := "";
     CheckResult.Error := "";
     CheckResult.Hints := [];
     CheckResult.PointsAwarded := 0 |}.

(** [Checker.Check] *)
Definition Check (taskID : Z) (code : string) : Prog (result CheckResult.t) :=
  r ← GetTaskByID taskID;
  match r with
  | Err err => mret (Err ("get task: " +:+ err))
  | Ok None => mret (Ok notFoundResult)
  | Ok (Some task) =>
    if String.eqb (strings.TrimSpace (Task.Mode task)) "manual" then
      mret (Ok manualResult)
    else
      '(err, submission) ← call (CreateSubmission (pendingSubmission taskID code));
      match err with
      | Some err => mret (Err ("create submission: " +:+ err))
      | None => Check_patterns taskID task code submission emptyResult
      end
  end.

(** ** The collaborators *)

(** What the collaborators do during one call of [Check]: the runner's
    answers, and for each storage call the error it fails with, if any.
    [Check] makes each of these calls at most once. *)
Record Env := mkEnv {
  Run : string -> result RunResult.t;
  RunTests : string -> string -> result RunResult.t;
  tasks_error : option error;
  create_error : option error;
  update_error : option error;
  solved_error : option error;
  credit_error : option error
}.

(** The stored state: the [tasks] table of the content database, and the
    ledger. *)
Record World := mkWorld {
  tasks : list Task.t;
  submissions : list Submission.t;
  credits : list (Z * Z)
}.

(** The [SELECT ... FROM tasks WHERE id = ?] of [GetTaskByID]. *)
Definition query_task_row (env : Env) (id : Z) (w : World) : ScanResult :=
  match tasks_error env with
  | Some err => ScanErr err
  | None =>
    match find (fun t => Task.ID t =? id) (tasks w) with
    | Some t => Scanned t
    | None => ErrNoRows
    end
  end.

(** Modelled from the spec: the progress repository (the submission ledger),
    which is not among the sources.  Submissions are rows numbered from 1 in
    the order of their creation; creating one appends it and hands out its
    number; updating one writes status and captured output to the row of that
    number; a task is solved when a row of it has status success; crediting
    appends to the list of credits.  A call that fails changes nothing, and
    the query that fails answers false next to its error. *)
Definition create_submission (env : Env) (s : Submission.t) (w : World)
  : (option error * Submission.t) * World :=
  match create_error env with
  | Some err => ((Some err, s), w)
  | None =>
    let s' := Submission.set_ID (Z.of_nat (length (submissions w)) + 1) s in
    ((None, s'), mkWorld (tasks w) (submissions w ++ [s']) (credits w))
  end.

Definition write_terminal (s row : Submission.t) : Submission.t :=
  Submission.set_Stderr (Submission.Stderr s)
    (Submission.set_Stdout (Submission.Stdout s)
       (Submission.set_Status (Submission.Status s) row)).

Definition update_submission (env : Env) (s : Submission.t) (w : World)
  : option error * World :=
  match update_error env with
  | Some err => (Some err, w)
  | None =>
    (None,
     mkWorld (tasks w)
       (if 1 <=? Submission.ID s
        then alter (write_terminal s) (Z.to_nat (Submission.ID s - 1)) (submissions w)
        else submissions w)
       (credits w))
  end.

Definition has_success (taskID : Z) (rows : list Submission.t) : bool :=
  existsb (fun row => (Submission.TaskID row =? taskID)
                      && String.eqb (Submission.Status row) "success") rows.

Definition is_task_solved_successfully (env : Env) (taskID : Z) (w : World)
  : bool * option error :=
  match solved_error env with
  | Some err => (false, Some err)
  | None => (has_success taskID (submissions w), None)
  end.

Definition set_practice_done (env : Env) (lessonID points : Z) (w : World)
  : option error * World :=
  match credit_error env with
  | Some err => (Some err, w)
  | None => (None, mkWorld (tasks w) (submissions w) (credits w ++ [(lessonID, points)]))
  end.

Definition world_handler (env : Env) : Handler World :=
  fun X op =>
    match op in Op X return World -> X * World with
    | QueryTaskRow id => fun w => (query_task_row env id w, w)
    | CreateSubmission s => create_submission env s
    | UpdateSubmission s => update_submission env s
    | IsTaskSolvedSuccessfully taskID => fun w => (is_task_solved_successfully env taskID w, w)
    | SetPracticeDone lessonID points => set_practice_done env lessonID points
    | RunnerRun code => fun w => (Run env code, w)
    | RunnerCheck code testCode => fun w => (RunTests env code testCode, w)
    end.

(** *** Requests served one after the other *)

Record Request := mkRequest {
  req_env : Env;
  req_taskID : Z;
  req_code : string
}.

Definition serve (r : Request) (w : World) : result CheckResult.t * list Event * World :=
  run (world_handler (req_env r)) (Check (req_taskID r) (req_code r)) w.

Fixpoint serve_all (rs : list Request) (w : World)
  : list (Request * result CheckResult.t) * World :=
  match rs with
  | [] => ([], w)
  | r :: rs' =>
    let '(out, _, w1) := serve r w in
    let '(outs, w2) := serve_all rs' w1 in
    ((r, out) :: outs, w2)
  end.

(** A served request that verified a solution of the task. *)
Definition succeeded_for (taskID : Z) (ro : Request * result CheckResult.t) : bool :=
  match ro with
  | (r, Ok cr) => (req_taskID r =? taskID) && CheckResult.Success cr
  | (_, Err _) => false
  end.

(** No storage call of the ledger fails. *)
Definition ledger_sound (env : Env) : Prop :=
  create_error env = None /\ update_error env = None /\
  solved_error env = None /\ credit_error env = None.

(** *** Two requests served concurrently *)

(** Requests are served by goroutines; the calls of the collaborators are
    the points at which their runs interleave.  One step performs the next
    call of a run. *)
Definition step {St A : Type} (h : Handler St) (p : Prog A) (s : St) : Prog A * St :=
  match p with
  | Ret a => (Ret a, s)
  | Call op k => let '(x, s1) := h _ op s in (k x, s1)
  end.

(** A schedule says which of the two runs makes the next step: [true] the
    first, [false] the second. *)
Fixpoint interleave {St A : Type} (h1 h2 : Handler St) (schedule : list bool)
    (p1 p2 : Prog A) (s : St) : Prog A * Prog A * St :=
  match schedule with
  | [] => (p1, p2, s)
  | true :: schedule' =>
    let '(p1', s1) := step h1 p1 s in interleave h1 h2 schedule' p1' p2 s1
  | false :: schedule' =>
    let '(p2', s1) := step h2 p2 s in interleave h1 h2 schedule' p1 p2' s1
  end.

(** ** The words of the specification *)

(** A pattern occurs in the code as a literal substring. *)
Definition occurs_in (pattern code : string) : Prop :=
  ∃ before after : string, code = before +:+ pattern +:+ after.

(** The non-empty, trimmed entries of a task's pattern list. *)
Definition pattern_entries (requiredPatterns : string) : list string :=
  filter (λ p, p ≠ "") (map strings.TrimSpace (strings.Split requiredPatterns "|")).

(** Normalisation: line ends in one form, no spaces or tabs at the end of a
    line. *)
Definition normalized (s : string) : string :=
  strings.Join
    (map (λ line, strings.TrimRight line SPACE_TAB)
         (strings.Split (strings.ReplaceAll s CRLF LF) LF))
    LF.

(** The lines of a text with its blank lines discarded. *)
Definition non_blank_lines (s : string) : list string :=
  filter (λ line, strings.TrimSpace line ≠ "") (strings.Split s LF).

(** The two-tier comparison: equal after normalisation, or else as many
    non-blank lines on both sides, equal pair by pair after trimming. *)
Definition outputs_agree (actual expected : string) : Prop :=
  normalized actual = normalized expected
  ∨ (length (non_blank_lines (normalized actual))
       = length (non_blank_lines (normalized expected))
     ∧ Forall2 (λ a e, strings.TrimSpace a = strings.TrimSpace e)
         (non_blank_lines (normalized actual))
         (non_blank_lines (normalized expected))).

(** The classes of outcome the caller of [Check] can tell apart by the shape
    of what is returned: an error in place of a result, or a result with its
    success flag. *)
Definition is_system_error (out : result CheckResult.t) : bool :=
  match out with
  | Err _ => true
  | Ok _ => false
  end.

Definition is_failed_result (out : result CheckResult.t) : bool :=
  match out with
  | Ok cr => negb (CheckResult.Success cr)
  | Err _ => false
  end.

Definition is_success_result (out : result CheckResult.t) : bool :=
  match out with
  | Ok cr => CheckResult.Success cr
  | Err _ => false
  end.

(** ** Sample inputs *)

Definition passing_run : RunResult.t :=
  {| RunResult.Success := true;
     RunResult.Stdout := "hi" +:+ LF;
     RunResult.Stderr := "";
     RunResult.Error := "" |}.

Definition failing_run : RunResult.t :=
  {| RunResult.Success := false;
     RunResult.Stdout := "";
     RunResult.Stderr := "panic: index out of range";
     RunResult.Error := "exit status 2" |}.

(** A runner that runs every program with success, and storage that does not
    fail. *)
Definition sound_env : Env :=
  {| Run := λ _, Ok passing_run;
     RunTests := λ _ _, Ok passing_run;
     tasks_error := None;
     create_error := None;
     update_error := None;
     solved_error := None;
     credit_error := None |}.

(** The sandbox cannot be started. *)
Definition infra_env : Env :=
  {| Run := λ _, Err "sandbox unavailable";
     RunTests := λ _ _, Err "sandbox unavailable";
     tasks_error := None;
     create_error := None;
     update_error := None;
     solved_error := None;
     credit_error := None |}.

(** Every program panics. *)
Definition crash_env : Env :=
  {| Run := λ _, Ok failing_run;
     RunTests := λ _ _, Ok failing_run;
     tasks_error := None;
     create_error := None;
     update_error := None;
     solved_error := None;
     credit_error := None |}.

(** The query whether a task is solved fails. *)
Definition query_failing_env : Env :=
  {| Run := λ _, Ok passing_run;
     RunTests := λ _ _, Ok passing_run;
     tasks_error := None;
     create_error := None;
     update_error := None;
     solved_error := Some "database is locked";
     credit_error := None |}.

(** Crediting points fails. *)
Definition credit_failing_env : Env :=
  {| Run := λ _, Ok passing_run;
     RunTests := λ _ _, Ok passing_run;
     tasks_error := None;
     create_error := None;
     update_error := None;
     solved_error := None;
     credit_error := Some "database is locked" |}.

Definition loop_task : Task.t :=
  {| Task.ID := 1; Task.LessonID := 7; Task.Title := "Loop";
     Task.PromptMD := ""; Task.Criteria := ""; Task.Hints := "";
     Task.StarterCode := ""; Task.TestsGo := "";
     Task.ExpectedOutput := "hi";
     Task.RequiredPatterns := "for | fmt.Println";
     Task.Mode := "auto"; Task.Points := 10; Task.OrderIndex := 0 |}.

(** A task worth no points. *)
Definition free_task : Task.t :=
  {| Task.ID := 2; Task.LessonID := 7; Task.Title := "Warm-up";
     Task.PromptMD := ""; Task.Criteria := ""; Task.Hints := "";
     Task.StarterCode := ""; Task.TestsGo := "";
     Task.ExpectedOutput := "";
     Task.RequiredPatterns := "";
     Task.Mode := "auto"; Task.Points := 0; Task.OrderIndex := 1 |}.

Definition manual_task : Task.t :=
  {| Task.ID := 3; Task.LessonID := 8; Task.Title := "Project";
     Task.PromptMD := ""; Task.Criteria := ""; Task.Hints := "";
     Task.StarterCode := ""; Task.TestsGo := "";
     Task.ExpectedOutput := "";
     Task.RequiredPatterns := "";
     Task.Mode := "manual"; Task.Points := 20; Task.OrderIndex := 0 |}.

(** Three tasks and an empty ledger. *)
Definition sample_world : World :=
  {| tasks := [loop_task; free_task; manual_task];
     submissions := [];
     credits := [] |}.

Definition loop_code : string :=
  "package main; func main() { for i := 0; i < 1; i++ { fmt.Println(1) } }".

Definition plain_code : string := "package main; func main() {}".

(** The first submission of the sample ledger, as created for a task. *)
Definition first_submission (taskID : Z) (code : string) : Submission.t :=
  Submission.set_ID 1 (pendingSubmission taskID code).

(** Both requests run up to their query whether the task is solved, then
    both go on to the end. *)
Definition racing_schedule : list bool :=
  [true; true; true; true; false; false; false; false; true; true; false; false].

Definition loop_request : Request := mkRequest sound_env 1 loop_code.
Definition lazy_request : Request := mkRequest sound_env 1 plain_code.
Definition infra_request : Request := mkRequest infra_env 1 loop_code.
Definition crash_request : Request := mkRequest crash_env 1 loop_code.
Definition query_failing_request : Request := mkRequest query_failing_env 1 loop_code.
Definition credit_failing_request : Request := mkRequest credit_failing_env 1 loop_code.
Definition free_request : Request := mkRequest sound_env 2 plain_code.
Definition manual_request : Request := mkRequest sound_env 3 loop_code.
Definition unknown_request : Request := mkRequest sound_env 4 loop_code.

(** ** More of the events *)

(** The call that credits points. *)
Definition is_credit_event (e : Event) : bool :=
  match e with
  | EvSetPracticeDone _ _ _ => true
  | _ => false
  end.

(** ** [strconv] in base 10 with 64 bits *)

Module strconv.

Definition digit (c : ascii) : option Z :=
  let n := Z.of_nat (nat_of_ascii c) in
  if (48 <=? n) && (n <=? 57) then Some (n - 48) else None.

(** What [strconv] reports: a text that is no number, or a number out of
    range. *)
Inductive NumError : Type := ErrSyntax | ErrRange.

(** The number that a run of digits stands for after [acc], whatever its
    size; [None] when a byte is no digit. *)
Fixpoint digits (acc : Z) (s : string) : option Z :=
  match s with
  | EmptyString => Some acc
  | String c s' =>
    match digit c with
    | Some d => digits (acc * 10 + d) s'
    | None => None
    end
  end.

(** The loop of [strconv.ParseUint(s, 10, 64)] over the bytes of [s], with
    [n] the number read so far.  It returns at the first byte that is no
    digit, with a syntax error, or at the first digit with which the number
    no longer fits 64 bits, with a range error and the largest such
    number. *)
Fixpoint ParseUint_from (n : Z) (s : string) : Z * option NumError :=
  match s with
  | EmptyString => (n, None)
  | String c s' =>
    match digit c with
    | None => (0, Some ErrSyntax)
    | Some d =>
      if 2 ^ 64 - 1 <? n * 10 + d then (2 ^ 64 - 1, Some ErrRange)
      else ParseUint_from (n * 10 + d) s'
    end
  end.

(** [strconv.ParseUint(s, 10, 64)] *)
Definition ParseUint (s : string) : Z * option NumError :=
  match s with
  | EmptyString => (0, Some ErrSyntax)
  | String _ _ => ParseUint_from 0 s
  end.

(** [strconv.ParseInt(s, 10, 64)]: the value and the error.  With a syntax
    error the value is zero; with a range error it is the bound that was
    passed. *)
Definition ParseInt (s : string) : Z * option NumError :=
  match s with
  | EmptyString => (0, Some ErrSyntax)
  | String c s' =>
    let '(neg, s1) :=
      if Ascii.eqb c "+" then (false, s')
      else if Ascii.eqb c "-" then (true, s')
      else (false, s) in
    let '(un, err) := ParseUint s1 in
    match err with
    | Some ErrSyntax => (0, Some ErrSyntax)
    | _ =>
      if negb neg && (2 ^ 63 <=? un) then (2 ^ 63 - 1, Some ErrRange)
      else if neg && (2 ^ 63 <? un) then (- 2 ^ 63, Some ErrRange)
      else (if neg then - un else un, None)
    end
  end.

(** [strconv.Atoi] where [int] has 64 bits. *)
Definition Atoi (s : string) : Z * option NumError := ParseInt s.

End strconv.

(** ** The handlers of [internal/web] that run and check code *)

(** What a handler writes: [http.Error] with status 400, [http.NotFound],
    [serverError] (the error goes to the log, the body is a fixed text with
    status 500), or [jsonResponse] of a value. *)
Inductive Response : Type :=
| BadRequest (msg : string)
| NotFound
| InternalServerError (logged : error)
| JSONRunResult (result : RunResult.t)
| JSONCheckResult (result : CheckResult.t)
| JSONCompleted (success : bool) (points_awarded : Z).

(** [Checker.Run] *)
Definition Checker_Run (code : string) : Prog (result RunResult.t) :=
  call (RunnerRun code).

(** [handleRun].  The body is what the JSON decoder made of the request:
    [None] when it failed, else the field [code]. *)
Definition handleRun (body : option string) : Prog Response :=
  match body with
  | None => mret (BadRequest "Invalid JSON")
  | Some Code =>
    if String.eqb (strings.TrimSpace Code) "" then mret (BadRequest "Code is empty")
    else
      r ← Checker_Run Code;
      match r with
      | Err err => mret (InternalServerError err)
      | Ok result => mret (JSONRunResult result)
      end
  end.

(** [handleCheck].  The body is [None] when decoding failed, else the fields
    [task_id] and [code]. *)
Definition handleCheck (body : option (Z * string)) : Prog Response :=
  match body with
  | None => mret (BadRequest "Invalid JSON")
  | Some (TaskID, Code) =>
    if TaskID =? 0 then mret (BadRequest "Task ID is required")
    else if String.eqb (strings.TrimSpace Code) "" then mret (BadRequest "Code is empty")
    else
      r ← Check TaskID Code;
      match r with
      | Err err => mret (InternalServerError err)
      | Ok result => mret (JSONCheckResult result)
      end
  end.

(** The submission [handleCompleteTask] records for a manual task. *)
Definition manualSubmission (taskID : Z) : Submission.t :=
  {| Submission.ID := 0;
     Submission.TaskID := taskID;
     Submission.Code := "[manual]";
     Submission.Status := "success";
     Submission.Stdout := "";
     Submission.Stderr := "" |}.

(** [handleCompleteTask], given the URL parameter [id]. *)
Definition handleCompleteTask (idStr : string) : Prog Response :=
  let '(taskID, err) := strconv.ParseInt idStr in
  match err with
  | Some _ => mret (BadRequest "Invalid task ID")
  | None =>
    if taskID <=? 0 then mret (BadRequest "Invalid task ID")
    else
      r ← GetTaskByID taskID;
      match r with
      | Err err => mret (InternalServerError err)
      | Ok None => mret NotFound
      | Ok (Some task) =>
        if negb (String.eqb (strings.TrimSpace (Task.Mode task)) "manual") then
          mret (BadRequest "Task is not manual")
        else
          '(alreadySolved, err) ← call (IsTaskSolvedSuccessfully taskID);
          match err with
          | Some err => mret (InternalServerError err)
          | None =>
            if negb alreadySolved then
              '(err, _) ← call (CreateSubmission (manualSubmission taskID));
              match err with
              | Some err => mret (InternalServerError err)
              | None =>
                err ← call (SetPracticeDone (Task.LessonID task) (Task.Points task));
                match err with
                | Some err => mret (InternalServerError err)
                | None => mret (JSONCompleted true (Task.Points task))
                end
              end
            else mret (JSONCompleted true 0)
          end
      end
  end.

(** ** [MDXImporter.generateCriteria] *)

(** The acceptance criteria generated for a task that states none. *)
Definition generateCriteria (expectedOutput requiredPatterns : string) : string :=
  let criteria : list string := [] in
  let criteria := criteria ++ ["- Программа компилируется без ошибок"] in
  let criteria :=
    if negb (String.eqb expectedOutput "")
    then criteria ++ ["- Вывод программы точно соответствует ожидаемому результату"]
    else criteria in
  let criteria :=
    if negb (String.eqb requiredPatterns "") then
      let patterns := strings.Split requiredPatterns "|" in
      match patterns with
      | [p] =>
        criteria ++ ["- В коде используется: `" +:+ strings.TrimSpace p +:+ "`"]
      | _ =>
        let patternList :=
          foldl (fun (patternList : list string) (p : string) =>
                   patternList ++ ["`" +:+ strings.TrimSpace p +:+ "`"])
                [] patterns in
        criteria ++ ["- В коде используются: " +:+ strings.Join patternList ", "]
      end
    else criteria in
  let criteria := criteria ++ ["- Код соответствует стандартам Go (gofmt)"] in
  strings.Join criteria LF.

(** ** [content.Repository.CreateTask] *)

Definition Task_set_ID (v : Z) (t : Task.t) : Task.t :=
  Task.mk v (Task.LessonID t) (Task.Title t) (Task.PromptMD t) (Task.Criteria t)
    (Task.Hints t) (Task.StarterCode t) (Task.TestsGo t) (Task.ExpectedOutput t)
    (Task.RequiredPatterns t) (Task.Mode t) (Task.Points t) (Task.OrderIndex t).

Definition Task_set_Mode (v : string) (t : Task.t) : Task.t :=
  Task.mk (Task.ID t) (Task.LessonID t) (Task.Title t) (Task.PromptMD t)
    (Task.Criteria t) (Task.Hints t) (Task.StarterCode t) (Task.TestsGo t)
    (Task.ExpectedOutput t) (Task.RequiredPatterns t) v (Task.Points t)
    (Task.OrderIndex t).

(** A blank mode becomes auto, then the row is inserted.  [exec_error] is the
    error of the INSERT, if any, and [lastInsertID] the identifier the
    database gives the new row.  The answer is the error and the task as the
    caller's pointer holds it afterwards. *)
Definition CreateTask (exec_error : option error) (lastInsertID : Z)
    (t : Task.t) (w : World) : option error * Task.t * World :=
  let t :=
    if String.eqb (strings.TrimSpace (Task.Mode t)) "" then Task_set_Mode "auto" t
    else t in
  match exec_error with
  | Some err => (Some ("insert task: " +:+ err), t, w)
  | None =>
    let t := Task_set_ID lastInsertID t in
    (None, t, mkWorld (tasks w ++ [t]) (submissions w) (credits w))
  end.

(** ** More of Go's library, as the importer uses it *)

(** Further functions of [strings]. *)
Module strings'.

(** [strings.TrimLeft] for a cutset of single-byte characters. *)
Fixpoint TrimLeft (s cutset : string) : string :=
  match s with
  | EmptyString => EmptyString
  | String c s' => if strings.in_cutset c cutset then TrimLeft s' cutset else s
  end.

(** [strings.Trim] for a cutset of single-byte characters. *)
Definition Trim (s cutset : string) : string :=
  TrimLeft (strings.TrimRight s cutset) cutset.

Definition byte (c : ascii) : Z := Z.of_nat (nat_of_ascii c).

Definition isASCII (s : string) : bool :=
  forallb (λ c, byte c <? 128) (String.list_ascii_of_string s).

Definition lower_byte (c : ascii) : ascii :=
  if (65 <=? byte c) && (byte c <=? 90)
  then ascii_of_nat (nat_of_ascii c + 32)
  else c.

(** The letters from A to Z made small. *)
Definition lower_ascii (s : string) : string :=
  String.string_of_list_ascii (map lower_byte (String.list_ascii_of_string s)).

Section ToLower.

(** [strings.Map(unicode.ToLower, s)], which [strings.ToLower] falls back on
    for text that is not ASCII.  Unicode's case tables are not part of this
    development, so this branch is left open. *)
Variable Map_ToLower : string → string.

(** [strings.ToLower] *)
Definition ToLower (s : string) : string :=
  if isASCII s then lower_ascii s else Map_ToLower s.

End ToLower.

End strings'.

(** [unicode/utf8]: the runes that [for _, r := range s] yields. *)
Module utf8.

Definition RuneError : Z := 65533.

Definition byte (c : ascii) : Z := Z.of_nat (nat_of_ascii c).

(** The size of the encoding that a first byte announces and the range its
    second byte has to be in; [None] for a byte that starts no encoding. *)
Definition first (b0 : Z) : option (nat * Z * Z) :=
  if (194 <=? b0) && (b0 <=? 223) then Some (2%nat, 128, 191)
  else if b0 =? 224 then Some (3%nat, 160, 191)
  else if (225 <=? b0) && (b0 <=? 236) then Some (3%nat, 128, 191)
  else if b0 =? 237 then Some (3%nat, 128, 159)
  else if (238 <=? b0) && (b0 <=? 239) then Some (3%nat, 128, 191)
  else if b0 =? 240 then Some (4%nat, 144, 191)
  else if (241 <=? b0) && (b0 <=? 243) then Some (4%nat, 128, 191)
  else if b0 =? 244 then Some (4%nat, 128, 143)
  else None.

Definition between (lo hi : Z) (c : ascii) : bool :=
  (lo <=? byte c) && (byte c <=? hi).

(** A byte that is no start of a well-formed encoding yields [RuneError]
    and is stepped over alone. *)
Fixpoint runes (s : string) : list Z :=
  match s with
  | EmptyString => []
  | String c0 s1 =>
    let b0 := byte c0 in
    if b0 <? 128 then b0 :: runes s1
    else
      match first b0, s1 with
      | Some (2%nat, lo, hi), String c1 s2 =>
        if between lo hi c1
        then Z.lor (Z.shiftl (Z.land b0 31) 6) (Z.land (byte c1) 63) :: runes s2
        else RuneError :: runes s1
      | Some (3%nat, lo, hi), String c1 (String c2 s3) =>
        if between lo hi c1 && between 128 191 c2
        then Z.lor (Z.shiftl (Z.land b0 15) 12)
               (Z.lor (Z.shiftl (Z.land (byte c1) 63) 6) (Z.land (byte c2) 63))
             :: runes s3
        else RuneError :: runes s1
      | Some (4%nat, lo, hi), String c1 (String c2 (String c3 s4)) =>
        if between lo hi c1 && between 128 191 c2 && between 128 191 c3
        then Z.lor (Z.shiftl (Z.land b0 7) 18)
               (Z.lor (Z.shiftl (Z.land (byte c1) 63) 12)
                  (Z.lor (Z.shiftl (Z.land (byte c2) 63) 6) (Z.land (byte c3) 63)))
             :: runes s4
        else RuneError :: runes s1
      | _, _ => RuneError :: runes s1
      end
  end.

(** The rune of a rune literal, given as its text. *)
Definition rune (c : string) : Z :=
  match runes c with
  | r :: _ => r
  | [] => RuneError
  end.

End utf8.

(** ** [MDXImporter.parseNumberedName] and [MDXImporter.slugify]

    [MarkdownImporter] has the same two functions. *)

Definition is_digit (c : ascii) : bool :=
  (48 <=? utf8.byte c) && (utf8.byte c <=? 57).

(** The longest run of digits that starts [s], and what follows it. *)
Fixpoint span_digits (s : string) : string * string :=
  match s with
  | EmptyString => (EmptyString, EmptyString)
  | String c s' =>
    if is_digit c then let '(ds, rest) := span_digits s' in (String c ds, rest)
    else (EmptyString, s)
  end.

(** The submatches of the regular expression [^(\d+)_(.+)$] on [name].  The
    digits are matched greedily and no digit is an underscore, so the first
    group is the longest run of digits; the second is all that follows the
    underscore, and the dot matches any character but a line feed. *)
Definition match_numbered (name : string) : option (string * string) :=
  let '(ds, rest) := span_digits name in
  match ds, rest with
  | String _ _, String c (String _ _ as title) =>
    if Ascii.eqb c "_" && negb (strings.Contains title LF) then Some (ds, title)
    else None
  | _, _ => None
  end.

(** What is left of [s] after the prefix, if it starts with it. *)
Fixpoint cut_prefix (s prefix : string) {struct prefix} : option string :=
  match prefix, s with
  | EmptyString, _ => Some s
  | String p prefix', String c s' => if Ascii.eqb c p then cut_prefix s' prefix' else None
  | String _ _, EmptyString => None
  end.

(** The submatches of [^Глава_(\d+)_(.+)$]. *)
Definition match_chapter (name : string) : option (string * string) :=
  match cut_prefix name "Глава_" with
  | Some numbered => match_numbered numbered
  | None => None
  end.

Definition parseNumberedName (name : string) : Z * string :=
  match match_numbered name with
  | Some (digits, rest) =>
    let order := (strconv.Atoi digits).1 in
    let title := strings.ReplaceAll rest "_" " " in
    (order, title)
  | None =>
    match match_chapter name with
    | Some (digits, rest) =>
      let order := (strconv.Atoi digits).1 in
      let title := strings.ReplaceAll rest "_" " " in
      (order, title)
    | None =>
      let title := strings.ReplaceAll name "_" " " in
      (0, title)
    end
  end.

Definition translit : list (string * string) :=
  [ ("а", "a"); ("б", "b"); ("в", "v"); ("г", "g"); ("д", "d"); ("е", "e"); ("ё", "yo");
    ("ж", "zh"); ("з", "z"); ("и", "i"); ("й", "y"); ("к", "k"); ("л", "l"); ("м", "m");
    ("н", "n"); ("о", "o"); ("п", "p"); ("р", "r"); ("с", "s"); ("т", "t"); ("у", "u");
    ("ф", "f"); ("х", "h"); ("ц", "ts"); ("ч", "ch"); ("ш", "sh"); ("щ", "sch");
    ("ъ", ""); ("ы", "y"); ("ь", ""); ("э", "e"); ("ю", "yu"); ("я", "ya");
    ("А", "a"); ("Б", "b"); ("В", "v"); ("Г", "g"); ("Д", "d"); ("Е", "e"); ("Ё", "yo");
    ("Ж", "zh"); ("З", "z"); ("И", "i"); ("Й", "y"); ("К", "k"); ("Л", "l"); ("М", "m");
    ("Н", "n"); ("О", "o"); ("П", "p"); ("Р", "r"); ("С", "s"); ("Т", "t"); ("У", "u");
    ("Ф", "f"); ("Х", "h"); ("Ц", "ts"); ("Ч", "ch"); ("Ш", "sh"); ("Щ", "sch");
    ("Ъ", ""); ("Ы", "y"); ("Ь", ""); ("Э", "e"); ("Ю", "yu"); ("Я", "ya") ].

(** [translit[r]] *)
Definition translit_lookup (r : Z) : option string :=
  snd <$> find (λ kv, utf8.rune kv.1 =? r) translit.

(** What the loop of [slugify] writes for one rune. *)
Definition slugify_rune (r : Z) : string :=
  match translit_lookup r with
  | Some t => t
  | None =>
    if ((utf8.rune "a" <=? r) && (r <=? utf8.rune "z"))
       || ((utf8.rune "A" <=? r) && (r <=? utf8.rune "Z"))
       || ((utf8.rune "0" <=? r) && (r <=? utf8.rune "9"))
    then String (ascii_of_nat (Z.to_nat r)) EmptyString
    else if (r =? utf8.rune " ") || (r =? utf8.rune "-") || (r =? utf8.rune "_")
    then "-"
    else EmptyString
  end.

(** [for strings.Contains(slug, "--") { slug = strings.ReplaceAll(slug, "--", "-") }],
    for at most [fuel] rounds. *)
Fixpoint collapse_hyphens (fuel : nat) (slug : string) : string :=
  match fuel with
  | O => slug
  | S fuel' =>
    if strings.Contains slug "--"
    then collapse_hyphens fuel' (strings.ReplaceAll slug "--" "-")
    else slug
  end.

Section slugify.

Variable Map_ToLower : string → string.

(** Every round of the loop shortens the slug, so as many rounds as it has
    bytes suffice. *)
Definition slugify (s : string) : string :=
  let result := foldl (λ result r, result +:+ slugify_rune r) EmptyString (utf8.runes s) in
  let slug := result in
  let slug := collapse_hyphens (String.length slug) slug in
  let slug := strings'.Trim slug "-" in
  let slug := strings'.ToLower Map_ToLower slug in
  slug.

End slugify.

(** ** The words for slugs *)

(** A small letter, a digit or a hyphen. *)
Definition slug_byte (c : ascii) : bool :=
  let b := utf8.byte c in
  ((97 <=? b) && (b <=? 122)) || ((48 <=? b) && (b <=? 57)) || (b =? 45).

(** What the loop of [slugify] writes: a letter, a digit or a hyphen. *)
Definition builder_byte (c : ascii) : bool :=
  let b := utf8.byte c in
  ((97 <=? b) && (b <=? 122)) || ((65 <=? b) && (b <=? 90))
  || ((48 <=? b) && (b <=? 57)) || (b =? 45).

(** ** More sample inputs *)

(** A run that prints something else than the sample tasks expect. *)
Definition wrong_run : RunResult.t :=
  {| RunResult.Success := true;
     RunResult.Stdout := "bye" +:+ LF;
     RunResult.Stderr := "";
     RunResult.Error := "" |}.

Definition failing_tests : RunResult.t :=
  {| RunResult.Success := false;
     RunResult.Stdout := "";
     RunResult.Stderr := "";
     RunResult.Error := "--- FAIL: TestMain" |}.

(** The content database cannot be read. *)
Definition storage_down_env : Env :=
  {| Run := λ _, Ok passing_run;
     RunTests := λ _ _, Ok passing_run;
     tasks_error := Some "database is locked";
     create_error := None;
     update_error := None;
     solved_error := None;
     credit_error := None |}.

(** No submission can be created. *)
Definition create_failing_env : Env :=
  {| Run := λ _, Ok passing_run;
     RunTests := λ _ _, Ok passing_run;
     tasks_error := None;
     create_error := Some "disk full";
     update_error := None;
     solved_error := None;
     credit_error := None |}.

(** Every program runs and prints the wrong text. *)
Definition wrong_output_env : Env :=
  {| Run := λ _, Ok wrong_run;
     RunTests := λ _ _, Ok passing_run;
     tasks_error := None;
     create_error := None;
     update_error := None;
     solved_error := None;
     credit_error := None |}.

(** Every program runs, and fails the tests. *)
Definition tests_failing_env : Env :=
  {| Run := λ _, Ok passing_run;
     RunTests := λ _ _, Ok failing_tests;
     tasks_error := None;
     create_error := None;
     update_error := None;
     solved_error := None;
     credit_error := None |}.

(** Every program runs, and the sandbox is gone when the tests start. *)
Definition tests_infra_env : Env :=
  {| Run := λ _, Ok passing_run;
     RunTests := λ _ _, Err "sandbox unavailable";
     tasks_error := None;
     create_error := None;
     update_error := None;
     solved_error := None;
     credit_error := None |}.

(** A task with tests. *)
Definition tested_task : Task.t :=
  {| Task.ID := 5; Task.LessonID := 9; Task.Title := "Greeting";
     Task.PromptMD := ""; Task.Criteria := ""; Task.Hints := "";
     Task.StarterCode := "";
     Task.TestsGo := "func TestMain(t *testing.T) {}";
     Task.ExpectedOutput := "hi";
     Task.RequiredPatterns := "";
     Task.Mode := "auto"; Task.Points := 5; Task.OrderIndex := 0 |}.

Definition exam_world : World :=
  {| tasks := [tested_task];
     submissions := [];
     credits := [] |}.

(** What [Check] answers to a first correct solution of the task with
    tests. *)
Definition exam_result : CheckResult.t :=
  {| CheckResult.Success := true;
     CheckResult.Output := "hi" +:+ LF;
     CheckResult.Expected := "hi";
     CheckResult.Error := "";
     CheckResult.Hints := [];
     CheckResult.PointsAwarded := 5 |}.

(** A task as an importer hands it to [CreateTask]: no identifier yet, and a
    blank mode. *)
Definition draft_task : Task.t :=
  {| Task.ID := 0; Task.LessonID := 7; Task.Title := "Slices";
     Task.PromptMD := ""; Task.Criteria := ""; Task.Hints := "";
     Task.StarterCode := ""; Task.TestsGo := "";
     Task.ExpectedOutput := "";
     Task.RequiredPatterns := "";
     Task.Mode := "  "; Task.Points := 15; Task.OrderIndex := 2 |}.

Definition storage_down_request : Request := mkRequest storage_down_env 1 loop_code.
Definition create_failing_request : Request := mkRequest create_failing_env 1 loop_code.
Definition wrong_output_request : Request := mkRequest wrong_output_env 1 loop_code.
Definition exam_request : Request := mkRequest sound_env 5 plain_code.
Definition tests_failing_request : Request := mkRequest tests_failing_env 5 plain_code.
Definition tests_infra_request : Request := mkRequest tests_infra_env 5 plain_code.

(** A run that fails without output and with the message of the not-found
    result as its error. *)
Definition lookalike_run : RunResult.t :=
  {| RunResult.Success := false;
     RunResult.Stdout := "";
     RunResult.Stderr := "";
     RunResult.Error := "Задание не найдено" |}.

(** Every program fails in that way. *)
Definition lookalike_env : Env :=
  {| Run := λ _, Ok lookalike_run;
     RunTests := λ _ _, Ok lookalike_run;
     tasks_error := None;
     create_error := None;
     update_error := None;
     solved_error := None;
     credit_error := None |}.

Definition lookalike_request : Request := mkRequest lookalike_env 1 loop_code.
Definition lookalike_unknown_request : Request := mkRequest lookalike_env 4 loop_code.

(** * Properties *)

(** ** Strings *)

Section string_facts.

Lemma append_String (a : ascii) (s1 s2 : string) :
  String a s1 +:+ s2 = String a (s1 +:+ s2).
Proof. reflexivity. Qed.

Lemma append_empty (s : string) : "" +:+ s = s.
Proof. reflexivity. Qed.

Lemma HasPrefix_spec (s p : string) :
  strings.HasPrefix s p = true ↔ ∃ after, s = p +:+ after.
Proof.
  revert s. induction p as [|a p IH]; intros s; simpl.
  - split; [eauto | done].
  - destruct s as [|c s]; simpl.
    + split; [done | intros [? ?]; done].
    + destruct (Ascii.eqb_spec c a) as [->|Hne].
      * rewrite IH. split; intros [x Hx]; exists x;
          rewrite append_String in *; congruence.
      * split; [done | intros [x Hx]; rewrite append_String in Hx; congruence].
Qed.

Lemma Contains_spec (s p : string) :
  strings.Contains s p = true ↔ occurs_in p s.
Proof.
  unfold occurs_in. split.
  - induction s as [|c s IH]; simpl.
    + destruct (strings.HasPrefix "" p) eqn:Hp; [|done].
      apply HasPrefix_spec in Hp as [x Hx]. intros _. by exists "", x.
    + destruct (strings.HasPrefix (String c s) p) eqn:Hp.
      * apply HasPrefix_spec in Hp as [x Hx]. intros _. by exists "", x.
      * intros [b [a Ha]]%IH. exists (String c b), a.
        by rewrite append_String, Ha.
  - intros (b & a & ->). induction b as [|c b IH].
    + rewrite append_empty.
      assert (strings.HasPrefix (p +:+ a) p = true) as Hp
        by (apply HasPrefix_spec; eauto).
      destruct (p +:+ a); simpl in *; by rewrite Hp.
    + rewrite append_String. simpl. by destruct (strings.HasPrefix _ p).
Qed.

Lemma eqb_empty_false (s : string) : negb (String.eqb s "") = true ↔ s ≠ "".
Proof. destruct (String.eqb_spec s ""); simpl; intuition congruence. Qed.

(** A loop that overwrites every element of a slice in place is a map. *)
Lemma foldl_overwrite {A : Type} (f : A → A) (done todo : list A) :
  foldl (λ (ls : list A) (i : nat),
           match ls !! i with Some x => <[i := f x]> ls | None => ls end)
        (map f done ++ todo) (seq (length done) (length todo))
  = map f (done ++ todo).
Proof.
  revert done. induction todo as [|x todo IH]; intros done; simpl.
  - by rewrite !app_nil_r.
  - assert ((map f done ++ x :: todo) !! length done = Some x) as ->
      by (apply list_lookup_middle; by rewrite length_map).
    assert (<[length done := f x]> (map f done ++ x :: todo)
            = map f done ++ f x :: todo) as ->.
    { replace (length done) with (length (map f done) + 0)%nat
        by (rewrite length_map; lia).
      by rewrite insert_app_r. }
    specialize (IH (done ++ [x])).
    rewrite length_app, map_app in IH. simpl in IH.
    rewrite Nat.add_1_r, <- !app_assoc in IH. simpl in IH. done.
Qed.

Lemma normalizeOutput_normalized (s : string) : normalizeOutput s = normalized s.
Proof.
  unfold normalizeOutput, normalized. f_equal.
  apply (foldl_overwrite _ []).
Qed.

(** A loop that appends the elements passing a test is a filter. *)
Lemma foldl_append_filter {A : Type} (pb : A → bool) (P : A → Prop)
    `{!∀ x, Decision (P x)} (acc l : list A) :
  (∀ x, pb x = true ↔ P x) →
  foldl (λ (acc : list A) (x : A), if pb x then acc ++ [x] else acc) acc l
  = acc ++ filter P l.
Proof.
  intros Hpb. revert acc. induction l as [|x l IH]; intros acc; simpl.
  - by rewrite app_nil_r.
  - rewrite IH. destruct (pb x) eqn:Hx.
    + rewrite filter_cons_True by by apply Hpb.
      by rewrite <- app_assoc.
    + rewrite filter_cons_False; [done|]. rewrite <- Hpb. congruence.
Qed.

Lemma nonEmptyLines_non_blank (s : string) : nonEmptyLines s = non_blank_lines s.
Proof.
  unfold nonEmptyLines, non_blank_lines.
  apply (foldl_append_filter
           (λ line, negb (String.eqb (strings.TrimSpace line) ""))
           (λ line, strings.TrimSpace line ≠ "") []).
  intros x. apply eqb_empty_false.
Qed.

Lemma linesMatch_Forall2 (a e : list string) :
  length a = length e →
  linesMatch a e = true
  ↔ Forall2 (λ x y, strings.TrimSpace x = strings.TrimSpace y) a e.
Proof.
  revert e. induction a as [|x a IH]; intros [|y e] Hlen; simplify_eq/=.
  - split; [constructor | done].
  - destruct (String.eqb_spec (strings.TrimSpace x) (strings.TrimSpace y)) as [Heq|Hne];
      simpl.
    + rewrite IH by done. split; [by constructor | by inversion 1].
    + split; [done | by inversion 1].
Qed.

Lemma strip_prefix_length (p s s' : list ascii) :
  strings.strip_prefix p s = Some s' → length s = (length p + length s')%nat.
Proof.
  revert s. induction p as [|a p IH]; intros [|c s] Hs; simplify_eq/=; [done..|].
  destruct (Ascii.eqb a c); [|done]. by rewrite (IH _ Hs).
Qed.

Lemma strip_any_shorter (encs : list (list ascii)) (s s' : list ascii) :
  Forall (λ e, e ≠ []) encs →
  strings.strip_any encs s = Some s' → (length s' < length s)%nat.
Proof.
  induction 1 as [|e encs He _ IH]; simpl; [done|].
  destruct (strings.strip_prefix e s) as [s''|] eqn:Hs; [|done].
  intros [= ->]. apply strip_prefix_length in Hs. destruct e; [done|]. simpl in Hs. lia.
Qed.

(** The rounds of [strip_all] suffice: what it returns starts with none of
    the encodings. *)
Lemma strip_all_done (encs : list (list ascii)) (fuel : nat) (s : list ascii) :
  Forall (λ e, e ≠ []) encs →
  (length s ≤ fuel)%nat →
  strings.strip_any encs (strings.strip_all encs fuel s) = None.
Proof.
  intros Hencs. revert s. induction fuel as [|fuel IH]; intros s Hlen; simpl.
  - destruct s; [|simpl in Hlen; lia].
    clear Hlen. induction Hencs as [|e encs He _ IH]; simpl; [done|].
    by destruct e.
  - destruct (strings.strip_any encs s) as [s'|] eqn:Hs; [|done].
    apply IH. apply strip_any_shorter in Hs; [lia|done].
Qed.

Lemma trim_left_space_done (s : list ascii) :
  strings.strip_any strings.space_encodings (strings.trim_left_space s) = None.
Proof. apply strip_all_done; [by repeat constructor | done]. Qed.

Lemma trim_right_space_done (s : list ascii) :
  strings.strip_any (map (@rev ascii) strings.space_encodings)
    (rev (strings.trim_right_space s)) = None.
Proof.
  unfold strings.trim_right_space. rewrite rev_involutive.
  apply strip_all_done; [by repeat constructor | by rewrite length_rev].
Qed.

End string_facts.

(** ** Output comparison *)

(** C4: [compareOutput] holds exactly when the two texts are equal after
    normalisation (line ends unified, trailing spaces and tabs of every line
    removed) or else their non-blank lines are equally many and equal pair by
    pair after trimming; the three comparisons the specification lists come
    out as it says. *)
Theorem compareOutput_two_tier :
  (∀ actual expected : string,
     compareOutput actual expected = true ↔ outputs_agree actual expected)
  ∧ compareOutput ("a" +:+ LF +:+ "b" +:+ LF) ("a" +:+ LF +:+ LF +:+ "b") = true
  ∧ compareOutput ("a" +:+ LF +:+ "b") ("a" +:+ LF +:+ "c") = false
  ∧ compareOutput ("x" +:+ CRLF) ("x" +:+ LF) = true.
Proof.
  split; [|by vm_compute].
  intros actual expected. unfold compareOutput, outputs_agree.
  rewrite !normalizeOutput_normalized, !nonEmptyLines_non_blank.
  destruct (String.eqb_spec (normalized actual) (normalized expected)) as [Heq|Hne].
  { split; [by left | done]. }
  destruct (Nat.eqb_spec (length (non_blank_lines (normalized actual)))
              (length (non_blank_lines (normalized expected)))) as [Hlen|Hlen]; simpl.
  - rewrite linesMatch_Forall2 by done. tauto.
  - split; [done | intros [?|[? _]]; done].
Qed.

(** ** The pattern loop *)

Lemma foldl_append_filter_map {A B : Type} (f : A → B) (pb : B → bool) (P : B → Prop)
    `{!∀ y, Decision (P y)} (acc : list B) (l : list A) :
  (∀ y, pb y = true ↔ P y) →
  foldl (λ (acc : list B) (x : A), let y := f x in if pb y then acc ++ [y] else acc) acc l
  = acc ++ filter P (map f l).
Proof.
  intros Hpb. rewrite <- (foldl_append_filter pb P) by done.
  revert acc. induction l as [|x l IH]; intros acc; simpl; [done|]. apply IH.
Qed.

Lemma missingPatternsOf_filter (requiredPatterns code : string) :
  missingPatternsOf requiredPatterns code
  = filter (λ p, strings.Contains code p = false) (pattern_entries requiredPatterns).
Proof.
  unfold missingPatternsOf, pattern_entries.
  rewrite list_filter_filter.
  apply (foldl_append_filter_map strings.TrimSpace
           (λ p, negb (String.eqb p "") && negb (strings.Contains code p))
           (λ p, strings.Contains code p = false ∧ p ≠ "") []).
  intros p. rewrite andb_true_iff, eqb_empty_false, negb_true_iff. tauto.
Qed.

(** The missing patterns are the entries that do not occur in the code, in
    the order of the task's list. *)
Lemma missingPatternsOf_spec (requiredPatterns code : string) :
  (∀ p, p ∈ missingPatternsOf requiredPatterns code
        ↔ p ∈ pattern_entries requiredPatterns ∧ ¬ occurs_in p code)
  ∧ sublist (missingPatternsOf requiredPatterns code) (pattern_entries requiredPatterns).
Proof.
  rewrite missingPatternsOf_filter. split.
  - intros p. rewrite list_elem_of_filter, <- Contains_spec.
    destruct (strings.Contains code p); intuition congruence.
  - apply sublist_filter.
Qed.

Lemma pattern_entries_empty : pattern_entries "" = [].
Proof. reflexivity. Qed.

(** ** The pipeline against arbitrary collaborators *)

(** The proofs about [Check] follow every path of it: the definitions are
    unfolded, and the run is advanced by a case distinction on whatever it
    waits for, an answer of a collaborator or a test of the code. *)
Ltac unfold_Check :=
  unfold Check, GetTaskByID, Check_patterns, Check_execute, Check_output,
    Check_tests, Check_score, call, mbind, mret, Prog_bind, Prog_ret in *.

Ltac advance h H :=
  match type of H with
  | context [h ?X ?op ?s] => destruct (h X op s) as [? ?] eqn:?
  | context [run _ (match ?x with _ => _ end) _] => destruct x eqn:?
  | context [run _ (bind (match ?x with _ => _ end) _) _] => destruct x eqn:?
  end.

Ltac follow_paths h H :=
  unfold_Check; cbn in H; repeat (advance h H; cbn in H); simplify_eq.

(** Membership in a trace that is written out. *)
Ltac in_trace :=
  repeat match goal with
         | H : _ ∈ _ :: _ |- _ => apply elem_of_cons in H as [H|H]
         | H : _ ∈ [] |- _ => by apply elem_of_nil in H
         end;
  simplify_eq.

(** A trace that is written out, split before its last call. *)
Ltac split_last :=
  match goal with
  | |- ?l = ?tr0 ++ [_] =>
    let l0 := eval cbn in (removelast l) in unify tr0 l0; reflexivity
  end.

Section pipeline.

Context {St : Type} (h : Handler St).
Implicit Types (s : St) (out : result CheckResult.t) (tr : list Event).

(** How a call of [Check] starts: the row of the task is asked for once, and
    unless it is there and the task is not manual, nothing else is done. *)
Lemma Check_load_and_gate s taskID code out tr s' :
  run h (Check taskID code) s = (out, tr, s') →
  ∃ scan tr',
    tr = EvQueryTaskRow taskID scan :: tr'
    ∧ Forall (λ e, ∀ id scan', e ≠ EvQueryTaskRow id scan') tr'
    ∧ match scan with
      | ScanErr err =>
        out = Err ("get task: " +:+ "get task by id: " +:+ err)
        ∧ tr' = [] ∧ s' = (h _ (QueryTaskRow taskID) s).2
      | ErrNoRows =>
        out = Ok notFoundResult ∧ tr' = [] ∧ s' = (h _ (QueryTaskRow taskID) s).2
      | Scanned task =>
        strings.TrimSpace (Task.Mode task) = "manual" →
        out = Ok manualResult ∧ tr' = [] ∧ s' = (h _ (QueryTaskRow taskID) s).2
      end.
Proof.
  intros H. follow_paths h H.
  all: eexists _, _; split; [reflexivity|].
  all: split; [repeat constructor; done|].
  all: try done.
  all: try (intros Hm; rewrite Hm in *; done).
  all: intros _; repeat split; by match goal with H : h _ _ _ = _ |- _ => rewrite H end.
Qed.

(** A successful result carries points according to the answer the query
    whether the task is solved gave, and to nothing else: the task's points
    when the answer was false, none when it was true. *)
Lemma points_follow_the_query (s s' : St) taskID code cr tr :
  run h (Check taskID code) s = (Ok cr, tr, s') →
  CheckResult.Success cr = true →
  ∃ task flag err,
    EvQueryTaskRow taskID (Scanned task) ∈ tr
    ∧ EvIsTaskSolvedSuccessfully taskID (flag, err) ∈ tr
    ∧ CheckResult.PointsAwarded cr = if flag then 0 else Task.Points task.
Proof.
  intros H Hs. follow_paths h H; simplify_eq/=.
  all: try (destruct (negb (String.eqb (RunResult.Error _) "")); done).
  all: eexists _, _, _; split_and!;
    [ repeat first [apply list_elem_of_here | apply list_elem_of_further]
    | repeat first [apply list_elem_of_here | apply list_elem_of_further]
    | match goal with |- _ = if ?b then _ else _ => by destruct b end ].
Qed.

(** C8: for a task whose mode is manual (after trimming, as the code reads
    it), every call of [Check] returns the same result, whatever the code
    submitted: no success, the fixed message, no error; and the only call to a
    collaborator is the one that loaded the task, so no later stage runs. *)
Theorem manual_task_is_never_graded s taskID code out tr s' task :
  run h (Check taskID code) s = (out, tr, s') →
  EvQueryTaskRow taskID (Scanned task) ∈ tr →
  strings.TrimSpace (Task.Mode task) = "manual" →
  out = Ok manualResult
  ∧ CheckResult.Success manualResult = false
  ∧ CheckResult.Error manualResult
    = "Это ручное задание. Выполните его в IDE и нажмите «Отметить выполненным»."
  ∧ tr = [EvQueryTaskRow taskID (Scanned task)].
Proof.
  intros H Hq Hmode.
  destruct (Check_load_and_gate _ _ _ _ _ _ H) as (scan & tr' & -> & Hnoq & Hscan).
  apply elem_of_cons in Hq as [Hq|Hq].
  - simplify_eq. destruct (Hscan Hmode) as (-> & -> & _). done.
  - rewrite list.Forall_forall in Hnoq. by destruct (Hnoq _ Hq taskID (Scanned task)).
Qed.

(** C7, as the code has it: when no row matches the task identifier, [Check]
    returns no error but the fixed result that says the task was not found,
    after the one call that looked for it.  The outcome is not a propagated
    error, and it is not the result for a manual task.  But it is a result
    without success, like that of a failed verification, and its message
    does not set it apart from one: for a task that exists, a run that fails
    without output and with that text as its error gives a result with the
    same success flag, output, expected text, error and points, and with as
    many hints, none.  (Whether a list of no hints is a nil slice is not
    recorded in [CheckResult], so hints are compared by their number.) *)
Theorem unknown_task_outcome s taskID code out tr s' :
  run h (Check taskID code) s = (out, tr, s') →
  EvQueryTaskRow taskID ErrNoRows ∈ tr →
  out = Ok notFoundResult
  ∧ tr = [EvQueryTaskRow taskID ErrNoRows]
  ∧ is_system_error out = false
  ∧ is_failed_result out = true
  ∧ CheckResult.Error notFoundResult = "Задание не найдено"
  ∧ notFoundResult ≠ manualResult
  ∧ (∀ s0 taskID0 code0 out0 tr0 s0' runResult,
       run h (Check taskID0 code0) s0 = (out0, tr0, s0') →
       EvRunnerRun code0 (Ok runResult) ∈ tr0 →
       RunResult.Success runResult = false →
       RunResult.Stdout runResult = "" →
       RunResult.Error runResult = CheckResult.Error notFoundResult →
       ∃ cr task,
         out0 = Ok cr
         ∧ EvQueryTaskRow taskID0 (Scanned task) ∈ tr0
         ∧ is_failed_result out0 = true
         ∧ CheckResult.Success cr = CheckResult.Success notFoundResult
         ∧ CheckResult.Output cr = CheckResult.Output notFoundResult
         ∧ CheckResult.Expected cr = CheckResult.Expected notFoundResult
         ∧ CheckResult.Error cr = CheckResult.Error notFoundResult
         ∧ length (CheckResult.Hints cr) = length (CheckResult.Hints notFoundResult)
         ∧ CheckResult.PointsAwarded cr = CheckResult.PointsAwarded notFoundResult).
Proof.
  intros H Hq.
  destruct (Check_load_and_gate _ _ _ _ _ _ H) as (scan & tr' & -> & Hnoq & Hscan).
  apply elem_of_cons in Hq as [Hq|Hq];
    [|rewrite list.Forall_forall in Hnoq; by destruct (Hnoq _ Hq taskID ErrNoRows)].
  simplify_eq. destruct Hscan as (-> & -> & _). split_and!; [done..|].
  clear. intros s0 taskID0 code0 out0 tr0 s0' runResult H Hrun Hfail Hout Herr.
  follow_paths h H; in_trace; try (rewrite Hfail in *; done).
  all: eexists _, _; split; [reflexivity|]; split; [apply list_elem_of_here|].
  all: by rewrite Hout, Herr.
Qed.

(** C3: once the pending submission has been created, every path through
    [Check] ends with exactly one call of [UpdateSubmission], made last, for
    the submission that was created, with status success when [Check]
    returns a successful result and status error on every other return, an
    unsuccessful result and a propagated error alike; it is never pending. *)
Theorem submission_reaches_terminal_status s taskID code out tr s' sub :
  run h (Check taskID code) s = (out, tr, s') →
  EvCreateSubmission (pendingSubmission taskID code) (None, sub) ∈ tr →
  ∃ tr0 sub' ans,
    tr = tr0 ++ [EvUpdateSubmission sub' ans]
    ∧ Forall (λ e, is_update_event e = false) tr0
    ∧ Submission.ID sub' = Submission.ID sub
    ∧ Submission.TaskID sub' = Submission.TaskID sub
    ∧ Submission.Code sub' = Submission.Code sub
    ∧ Submission.Status sub' = (if is_success_result out then "success" else "error")
    ∧ Submission.Status sub' ≠ "pending".
Proof.
  intros H Hc. follow_paths h H; in_trace.
  all: eexists _, _, _; split; [split_last|].
  all: split; [repeat constructor|].
  all: split_and!; try done.
  all: by destruct (negb (String.eqb (RunResult.Error _) "")).
Qed.

(** C5: when the pattern stage is reached and some non-empty, trimmed entry
    of the task's pattern list does not occur in the code, [Check] returns a
    result without success whose hint joins exactly the entries that do not
    occur, as they are and in the order of the list; the submission is
    updated with status error; and that update is the only call after the
    submission was created, so the runner is not called. *)
Theorem missing_patterns_stop_pipeline s taskID code out tr s' task sub :
  run h (Check taskID code) s = (out, tr, s') →
  EvQueryTaskRow taskID (Scanned task) ∈ tr →
  EvCreateSubmission (pendingSubmission taskID code) (None, sub) ∈ tr →
  (∃ p, p ∈ pattern_entries (Task.RequiredPatterns task) ∧ ¬ occurs_in p code) →
  ∃ missing ans,
    out = Ok {| CheckResult.Success := false;
                CheckResult.Output := "";
                CheckResult.Expected := "";
                CheckResult.Error := "В коде отсутствуют необходимые конструкции";
                CheckResult.Hints := ["Используйте: " +:+ strings.Join missing ", "];
                CheckResult.PointsAwarded := 0 |}
    ∧ (∀ p, p ∈ missing
            ↔ p ∈ pattern_entries (Task.RequiredPatterns task) ∧ ¬ occurs_in p code)
    ∧ sublist missing (pattern_entries (Task.RequiredPatterns task))
    ∧ tr = [EvQueryTaskRow taskID (Scanned task);
            EvCreateSubmission (pendingSubmission taskID code) (None, sub);
            EvUpdateSubmission (Submission.set_Status "error" sub) ans]
    ∧ Forall (λ e, is_runner_event e = false) tr.
Proof.
  intros H Hq Hc (p & Hp & Hocc).
  destruct (missingPatternsOf_spec (Task.RequiredPatterns task) code) as [Hin Hsub].
  assert (negb (String.eqb (Task.RequiredPatterns task) "") = true) as Hrp.
  { apply eqb_empty_false. intros Hrp. rewrite Hrp, pattern_entries_empty in Hp.
    by apply elem_of_nil in Hp. }
  assert ((0 <? length (missingPatternsOf (Task.RequiredPatterns task) code))%nat = true)
    as Hlen.
  { apply Nat.ltb_lt.
    destruct (missingPatternsOf (Task.RequiredPatterns task) code) eqn:Hm; simpl; [|lia].
    exfalso. eapply elem_of_nil, Hin. eauto. }
  cbn in Hlen. follow_paths h H; in_trace; try congruence.
  eexists _, _. split; [reflexivity|].
  split_and!; try done. repeat constructor.
Qed.

(** C6: at the execute stage the two kinds of failure are kept apart.  When
    [Runner.Run] returns an error, [Check] returns that error, wrapped, in
    place of a result, after updating the submission with status error and
    the error's message as its stderr.  When [Runner.Run] returns a run
    without success, [Check] returns a result without success that carries
    the run's stdout and error string, after updating the submission with
    status error and the run's error string as its stderr.  In both cases the
    update is the last call: nothing of the later stages runs. *)
Theorem execute_stage_outcomes s taskID code out tr s' sub :
  run h (Check taskID code) s = (out, tr, s') →
  EvCreateSubmission (pendingSubmission taskID code) (None, sub) ∈ tr →
  (∀ err, EvRunnerRun code (Err err) ∈ tr →
     out = Err ("run code: " +:+ err)
     ∧ ∃ task ans,
         tr = [EvQueryTaskRow taskID (Scanned task);
               EvCreateSubmission (pendingSubmission taskID code) (None, sub);
               EvRunnerRun code (Err err);
               EvUpdateSubmission
                 (Submission.set_Stderr err (Submission.set_Status "error" sub)) ans])
  ∧ (∀ runResult, EvRunnerRun code (Ok runResult) ∈ tr →
     RunResult.Success runResult = false →
     out = Ok {| CheckResult.Success := false;
                 CheckResult.Output := RunResult.Stdout runResult;
                 CheckResult.Expected := "";
                 CheckResult.Error := RunResult.Error runResult;
                 CheckResult.Hints := [];
                 CheckResult.PointsAwarded := 0 |}
     ∧ ∃ task ans,
         tr = [EvQueryTaskRow taskID (Scanned task);
               EvCreateSubmission (pendingSubmission taskID code) (None, sub);
               EvRunnerRun code (Ok runResult);
               EvUpdateSubmission
                 (Submission.set_Stderr (RunResult.Error runResult)
                    (Submission.set_Status "error" sub)) ans]).
Proof.
  intros H Hc. split.
  - intros err Hrun. follow_paths h H; in_trace.
    all: split; [done | by eexists _, _].
  - intros runResult Hrun Hfail. follow_paths h H; in_trace;
      try (rewrite Hfail in *; done).
    all: split; [done | by eexists _, _].
Qed.

(** C9: errors of the ledger at the scoring stage are dropped.  When the
    query whether the task is already solved fails, answering false next to
    its error, [Check] goes on as for a task not yet solved: it credits the
    points and returns a successful result with the task's points.  When the
    crediting fails, [Check] still returns a successful result with the
    task's points.  In neither case does [Check] return an error. *)
Theorem ledger_errors_are_swallowed s taskID code out tr s' task :
  run h (Check taskID code) s = (out, tr, s') →
  EvQueryTaskRow taskID (Scanned task) ∈ tr →
  (∀ err, EvIsTaskSolvedSuccessfully taskID (false, Some err) ∈ tr →
     (∃ cr, out = Ok cr ∧ CheckResult.Success cr = true
            ∧ CheckResult.PointsAwarded cr = Task.Points task)
     ∧ ∃ ans, EvSetPracticeDone (Task.LessonID task) (Task.Points task) ans ∈ tr)
  ∧ (∀ lessonID points err, EvSetPracticeDone lessonID points (Some err) ∈ tr →
     ∃ cr, out = Ok cr ∧ CheckResult.Success cr = true
           ∧ CheckResult.PointsAwarded cr = Task.Points task).
Proof.
  intros H Hq. split.
  - intros err Hsolved. follow_paths h H; in_trace.
    all: split; [eauto|].
    all: eexists; repeat first [apply list_elem_of_here | apply list_elem_of_further].
  - intros lessonID points err Hcredit. follow_paths h H; in_trace.
    all: by eexists.
Qed.

End pipeline.

(** ** The pipeline against the stored state *)

(** C10: a call of [Check] that ends at the load stage because no row
    matches the task identifier, or at the mode gate because the task is
    manual, creates no submission and makes no call that writes to the
    ledger: the stored state after the call is the stored state before it. *)
Theorem early_exit_leaves_ledger_unchanged (env : Env) (taskID : Z) (code : string)
    (w w' : World) (out : result CheckResult.t) (tr : list Event) :
  serve (mkRequest env taskID code) w = (out, tr, w') →
  (EvQueryTaskRow taskID ErrNoRows ∈ tr
   ∨ ∃ task, EvQueryTaskRow taskID (Scanned task) ∈ tr
             ∧ strings.TrimSpace (Task.Mode task) = "manual") →
  w' = w
  ∧ submissions w' = submissions w
  ∧ credits w' = credits w
  ∧ Forall (λ e, is_ledger_write e = false) tr.
Proof.
  unfold serve; cbn [req_env req_taskID req_code]. intros H Hexit.
  destruct (Check_load_and_gate _ _ _ _ _ _ _ H) as (scan & tr' & -> & Hnoq & Hscan).
  simpl in Hscan.
  rewrite list.Forall_forall in Hnoq.
  assert (tr' = [] ∧ w' = w) as [-> ->].
  { destruct Hexit as [Hq|(task & Hq & Hmode)];
      (apply elem_of_cons in Hq as [Hq|Hq];
       [simplify_eq | by edestruct (Hnoq _ Hq)]).
    - by destruct Hscan as (_ & -> & ->).
    - by destruct (Hscan Hmode) as (_ & -> & ->). }
  split_and!; try done. by repeat constructor.
Qed.

(** Updating the submission that was created last writes to the last row. *)
Lemma terminal_row (rows : list Submission.t) (row : Submission.t)
    (f : Submission.t → Submission.t) :
  (if 1 <=? Z.of_nat (length rows) + 1
   then alter f (Z.to_nat (Z.of_nat (length rows) + 1 - 1)) (rows ++ [row])
   else rows ++ [row])
  = rows ++ [f row].
Proof.
  replace (1 <=? Z.of_nat (length rows) + 1) with true
    by (symmetry; apply Z.leb_le; lia).
  replace (Z.to_nat (Z.of_nat (length rows) + 1 - 1)) with (length rows + 0)%nat by lia.
  by rewrite alter_app_r.
Qed.

Lemma has_success_app (taskID : Z) (rows : list Submission.t) (row : Submission.t) :
  has_success taskID (rows ++ [row])
  = has_success taskID rows
    || ((Submission.TaskID row =? taskID) && String.eqb (Submission.Status row) "success").
Proof. unfold has_success. rewrite existsb_app. simpl. by rewrite orb_false_r. Qed.

(** One request served by a ledger that does not fail: the tasks are as
    before; a task has a recorded success afterwards exactly when it had one
    before or this request verified a solution of it; and a successful result
    carries the task's points when the task had no recorded success before,
    and none otherwise. *)
Lemma serve_sound (r : Request) (w w' : World) (out : result CheckResult.t)
    (tr : list Event) :
  ledger_sound (req_env r) →
  serve r w = (out, tr, w') →
  tasks w' = tasks w
  ∧ (∀ taskID, has_success taskID (submissions w')
               = has_success taskID (submissions w) || succeeded_for taskID (r, out))
  ∧ (∀ cr task,
       out = Ok cr → CheckResult.Success cr = true →
       find (λ t, Task.ID t =? req_taskID r) (tasks w) = Some task →
       CheckResult.PointsAwarded cr
       = if has_success (req_taskID r) (submissions w) then 0 else Task.Points task).
Proof.
  destruct r as [[runner tests qerr cerr uerr serr perr] taskID code].
  unfold ledger_sound; simpl. intros (-> & -> & -> & ->) H.
  unfold serve in H; simpl in H.
  follow_paths (world_handler (mkEnv runner tests qerr None None None None)) H.
  all: cbn [tasks submissions credits]; rewrite ?terminal_row.
  all: split; [done|]; split.
  all: try (intros tid; rewrite ?has_success_app; cbn;
            try destruct (negb (String.eqb (RunResult.Error _) ""));
            by rewrite ?andb_false_r, ?andb_true_r, ?orb_false_r).
  all: intros cr task ? Hs Hfind; simplify_eq/=.
  all: try (destruct (negb (String.eqb (RunResult.Error _) "")); done).
  all: unfold query_task_row in *; simpl in *; destruct qerr; simplify_eq.
  all: rewrite Hfind in *; simplify_eq.
  all: match goal with
       | Hq : negb (existsb _ (_ ++ [_])) = _ |- _ =>
         rewrite existsb_app in Hq; cbn in Hq; rewrite andb_false_r, orb_false_r in Hq
       end.
  all: unfold has_success; by destruct (existsb _ (submissions w)).
Qed.

(** By induction on the requests served: what a successful result carries is
    decided by whether the task had a recorded success before the first
    request or a request served earlier verified a solution of it. *)
Lemma serve_all_sound (rs : list Request) (w w' : World)
    (outs : list (Request * result CheckResult.t)) (taskID : Z) (task : Task.t) :
  Forall (λ r, ledger_sound (req_env r)) rs →
  find (λ t, Task.ID t =? taskID) (tasks w) = Some task →
  serve_all rs w = (outs, w') →
  ∀ i r cr,
    outs !! i = Some (r, Ok cr) → req_taskID r = taskID →
    CheckResult.Success cr = true →
    CheckResult.PointsAwarded cr
    = if has_success taskID (submissions w)
         || existsb (succeeded_for taskID) (take i outs)
      then 0 else Task.Points task.
Proof.
  intros Hsound. revert w outs.
  induction Hsound as [|r rs Hr _ IH]; intros w outs Hfind Hserve i r' cr Hi Htask Hs;
    simpl in Hserve.
  { simplify_eq. }
  destruct (serve r w) as [[out tr] w1] eqn:Hr1.
  destruct (serve_all rs w1) as [outs1 w2] eqn:Hrs. simplify_eq.
  destruct (serve_sound _ _ _ _ _ Hr Hr1) as (Htasks & Hsolved & Hpoints).
  destruct i as [|i]; simpl in *.
  - simplify_eq. rewrite orb_false_r. by apply Hpoints.
  - rewrite (IH w1 outs1) with (i := i) (r := r') by (rewrite ?Htasks; done).
    by rewrite Hsolved, orb_assoc.
Qed.

(** C1, as the code has it: when requests are served one after the other
    and no call of the ledger fails, a successful result for a task carries
    the task's points if the task had no recorded success before the first
    request and no earlier request verified a solution of it, and carries no
    points, while still successful, otherwise.  In particular, of two
    requests for a task without recorded success that both verify, the first
    carries the task's points and the second none, so that one of the two
    carries points above zero when the task is worth points above zero. *)
Theorem points_awarded_on_first_success (rs : list Request) (w w' : World)
    (outs : list (Request * result CheckResult.t)) (taskID : Z) (task : Task.t) :
  Forall (λ r, ledger_sound (req_env r)) rs →
  find (λ t, Task.ID t =? taskID) (tasks w) = Some task →
  serve_all rs w = (outs, w') →
  (∀ i r cr,
     outs !! i = Some (r, Ok cr) → req_taskID r = taskID →
     CheckResult.Success cr = true →
     CheckResult.PointsAwarded cr
     = if has_success taskID (submissions w)
          || existsb (succeeded_for taskID) (take i outs)
       then 0 else Task.Points task)
  ∧ (∀ r1 r2 cr1 cr2,
       outs = [(r1, Ok cr1); (r2, Ok cr2)] →
       has_success taskID (submissions w) = false →
       req_taskID r1 = taskID → req_taskID r2 = taskID →
       CheckResult.Success cr1 = true → CheckResult.Success cr2 = true →
       CheckResult.PointsAwarded cr1 = Task.Points task
       ∧ CheckResult.PointsAwarded cr2 = 0
       ∧ (0 < Task.Points task →
          0 < CheckResult.PointsAwarded cr1 ∧ ¬ 0 < CheckResult.PointsAwarded cr2)).
Proof.
  intros Hsound Hfind Hserve.
  pose proof (serve_all_sound rs w w' outs taskID task Hsound Hfind Hserve) as Hall.
  split; [done|].
  intros r1 r2 cr1 cr2 -> Hnew Hr1 Hr2 Hs1 Hs2.
  pose proof (Hall 0%nat r1 cr1 eq_refl Hr1 Hs1) as H1.
  pose proof (Hall 1%nat r2 cr2 eq_refl Hr2 Hs2) as H2.
  rewrite Hnew in H1, H2. simpl in H1, H2.
  rewrite Hr1, Z.eqb_refl, Hs1 in H2. simpl in H2.
  rewrite H1, H2. split_and!; [done | done | lia].
Qed.

(** ** Interleaved runs *)

(** A schedule that lets the first run make all its calls is the sequential
    run of it; likewise for the second. *)
Lemma interleave_first_to_completion {St A : Type} (h1 h2 : Handler St)
    (p1 p2 : Prog A) (s s' : St) (a : A) (tr : list Event) (schedule : list bool) :
  run h1 p1 s = (a, tr, s') →
  interleave h1 h2 (replicate (length tr) true ++ schedule) p1 p2 s
  = interleave h1 h2 schedule (Ret a) p2 s'.
Proof.
  revert s tr. induction p1 as [a0|X op k IH]; intros s tr Hrun; simpl in Hrun.
  - by simplify_eq.
  - destruct (h1 X op s) as [x s1] eqn:Hop.
    destruct (run h1 (k x) s1) as [[a' tr'] s2] eqn:Hk. simplify_eq.
    simpl. rewrite Hop. by apply IH.
Qed.

Lemma interleave_second_to_completion {St A : Type} (h1 h2 : Handler St)
    (p1 p2 : Prog A) (s s' : St) (a : A) (tr : list Event) (schedule : list bool) :
  run h2 p2 s = (a, tr, s') →
  interleave h1 h2 (replicate (length tr) false ++ schedule) p1 p2 s
  = interleave h1 h2 schedule p1 (Ret a) s'.
Proof.
  revert s tr. induction p2 as [a0|X op k IH]; intros s tr Hrun; simpl in Hrun.
  - by simplify_eq.
  - destruct (h2 X op s) as [x s1] eqn:Hop.
    destruct (run h2 (k x) s1) as [[a' tr'] s2] eqn:Hk. simplify_eq.
    simpl. rewrite Hop. by apply IH.
Qed.

(** Serving one request after the other is one of the interleavings. *)
Lemma interleave_sequential {St A : Type} (h1 h2 : Handler St)
    (p1 p2 : Prog A) (s s1 s2 : St) (a1 a2 : A) (tr1 tr2 : list Event) :
  run h1 p1 s = (a1, tr1, s1) →
  run h2 p2 s1 = (a2, tr2, s2) →
  interleave h1 h2 (replicate (length tr1) true ++ replicate (length tr2) false) p1 p2 s
  = (Ret a1, Ret a2, s2).
Proof.
  intros H1 H2.
  rewrite (interleave_first_to_completion _ _ _ _ _ _ _ _ _ H1).
  rewrite <- (app_nil_r (replicate (length tr2) false)).
  by rewrite (interleave_second_to_completion _ _ _ _ _ _ _ _ _ H2).
Qed.

(** C2, where the code falls short of it: two requests with a first correct
    solution of the same task, against a runner that always succeeds and a
    ledger that does not fail, interleaved so that both ask whether the task
    is solved before either records its success.  Both results carry the
    task's points, and the points are credited twice. *)
Theorem concurrent_first_successes_both_award :
  ∃ cr1 cr2 w',
    interleave (world_handler sound_env) (world_handler sound_env) racing_schedule
      (Check 1 loop_code) (Check 1 loop_code) sample_world
    = (Ret (Ok cr1), Ret (Ok cr2), w')
    ∧ has_success 1 (submissions sample_world) = false
    ∧ CheckResult.Success cr1 = true
    ∧ CheckResult.Success cr2 = true
    ∧ 0 < CheckResult.PointsAwarded cr1
    ∧ 0 < CheckResult.PointsAwarded cr2
    ∧ credits w' = [(7, 10); (7, 10)].
Proof.
  eexists _, _, _. split; [vm_compute; reflexivity|]. by vm_compute.
Qed.

(** ** The theorems at sample inputs *)

Ltac in_sample_trace :=
  vm_compute; repeat first [apply list_elem_of_here | apply list_elem_of_further].

(** C1 does not hold as stated.  Two passing calls in sequence for a task
    worth no points are both successful and neither carries points above
    zero; and when the query whether the task is solved fails during the
    second of two passing calls, the second carries the task's points
    again. *)
Lemma passing_twice_without_single_award :
  (∃ cr1 cr2,
     (serve_all [free_request; free_request] sample_world).1
     = [(free_request, Ok cr1); (free_request, Ok cr2)]
     ∧ CheckResult.Success cr1 = true ∧ CheckResult.Success cr2 = true
     ∧ ¬ 0 < CheckResult.PointsAwarded cr1
     ∧ ¬ 0 < CheckResult.PointsAwarded cr2)
  ∧ (∃ cr1 cr2,
       (serve_all [loop_request; query_failing_request] sample_world).1
       = [(loop_request, Ok cr1); (query_failing_request, Ok cr2)]
       ∧ CheckResult.Success cr1 = true ∧ CheckResult.Success cr2 = true
       ∧ CheckResult.PointsAwarded cr1 = 10
       ∧ CheckResult.PointsAwarded cr2 = 10).
Proof.
  split; eexists _, _; (split; [vm_compute; reflexivity|]); by vm_compute.
Qed.

Lemma points_awarded_on_first_success_witness :
  (∃ cr1 cr2,
     (serve_all [loop_request; loop_request] sample_world).1
     = [(loop_request, Ok cr1); (loop_request, Ok cr2)]
     ∧ CheckResult.PointsAwarded cr1 = 10
     ∧ CheckResult.PointsAwarded cr2 = 0
     ∧ (0 < 10 → 0 < CheckResult.PointsAwarded cr1 ∧ ¬ 0 < CheckResult.PointsAwarded cr2)).
Proof.
  eexists _, _. split; [vm_compute; reflexivity|].
  apply (proj2 (points_awarded_on_first_success
                  [loop_request; loop_request] sample_world
                  (serve_all [loop_request; loop_request] sample_world).2
                  (serve_all [loop_request; loop_request] sample_world).1
                  1 loop_task
                  ltac:(repeat constructor) eq_refl ltac:(vm_compute; reflexivity))
           loop_request loop_request);
    vm_compute; reflexivity.
Defined.

(** C7 does not hold as stated: the outcome for a task identifier that
    matches no task is a result without success and without error, as the
    outcome of a failed verification is.  For the first sample task, which
    exists, a run that fails with the message of the not-found result gives
    a result that agrees with the not-found result in every field, hints
    counted. *)
Lemma unknown_task_is_a_failed_result :
  find (λ t, Task.ID t =? 4) (tasks sample_world) = None
  ∧ (serve unknown_request sample_world).1.1 = Ok notFoundResult
  ∧ is_failed_result (serve unknown_request sample_world).1.1 = true
  ∧ is_failed_result (serve crash_request sample_world).1.1 = true
  ∧ find (λ t, Task.ID t =? 1) (tasks sample_world) = Some loop_task
  ∧ (serve lookalike_request sample_world).1.2
    = [EvQueryTaskRow 1 (Scanned loop_task);
       EvCreateSubmission (pendingSubmission 1 loop_code)
         (None, first_submission 1 loop_code);
       EvRunnerRun loop_code (Ok lookalike_run);
       EvUpdateSubmission
         (Submission.set_Stderr (RunResult.Error lookalike_run)
            (Submission.set_Status "error" (first_submission 1 loop_code))) None]
  ∧ ∃ cr,
      (serve lookalike_request sample_world).1.1 = Ok cr
      ∧ CheckResult.Success cr = CheckResult.Success notFoundResult
      ∧ CheckResult.Output cr = CheckResult.Output notFoundResult
      ∧ CheckResult.Expected cr = CheckResult.Expected notFoundResult
      ∧ CheckResult.Error cr = CheckResult.Error notFoundResult
      ∧ length (CheckResult.Hints cr) = length (CheckResult.Hints notFoundResult)
      ∧ CheckResult.PointsAwarded cr = CheckResult.PointsAwarded notFoundResult.
Proof.
  split_and!; [by vm_compute..|].
  eexists. split; [vm_compute; reflexivity|]. by vm_compute.
Qed.

Lemma unknown_task_outcome_witness :
  (serve lookalike_unknown_request sample_world).1.1 = Ok notFoundResult
  ∧ (serve lookalike_unknown_request sample_world).1.2 = [EvQueryTaskRow 4 ErrNoRows]
  ∧ is_system_error (serve lookalike_unknown_request sample_world).1.1 = false
  ∧ is_failed_result (serve lookalike_unknown_request sample_world).1.1 = true
  ∧ CheckResult.Error notFoundResult = "Задание не найдено"
  ∧ notFoundResult ≠ manualResult
  ∧ ∃ cr task,
      (serve lookalike_request sample_world).1.1 = Ok cr
      ∧ EvQueryTaskRow 1 (Scanned task) ∈ (serve lookalike_request sample_world).1.2
      ∧ is_failed_result (serve lookalike_request sample_world).1.1 = true
      ∧ CheckResult.Success cr = CheckResult.Success notFoundResult
      ∧ CheckResult.Output cr = CheckResult.Output notFoundResult
      ∧ CheckResult.Expected cr = CheckResult.Expected notFoundResult
      ∧ CheckResult.Error cr = CheckResult.Error notFoundResult
      ∧ length (CheckResult.Hints cr) = length (CheckResult.Hints notFoundResult)
      ∧ CheckResult.PointsAwarded cr = CheckResult.PointsAwarded notFoundResult.
Proof.
  destruct (unknown_task_outcome (world_handler lookalike_env) sample_world 4 loop_code
              (serve lookalike_unknown_request sample_world).1.1
              (serve lookalike_unknown_request sample_world).1.2
              (serve lookalike_unknown_request sample_world).2)
    as (H1 & H2 & H3 & H4 & H5 & H6 & Hlookalike).
  - vm_compute; reflexivity.
  - in_sample_trace.
  - repeat (split; [assumption|]).
    apply (Hlookalike sample_world 1 loop_code _ _
             (serve lookalike_request sample_world).2 lookalike_run).
    + vm_compute; reflexivity.
    + in_sample_trace.
    + reflexivity.
    + reflexivity.
    + reflexivity.
Defined.

Lemma manual_task_is_never_graded_witness :
  (serve manual_request sample_world).1.1 = Ok manualResult
  ∧ CheckResult.Success manualResult = false
  ∧ CheckResult.Error manualResult
    = "Это ручное задание. Выполните его в IDE и нажмите «Отметить выполненным»."
  ∧ (serve manual_request sample_world).1.2 = [EvQueryTaskRow 3 (Scanned manual_task)].
Proof.
  apply (manual_task_is_never_graded (world_handler sound_env) sample_world 3 loop_code
           _ _ (serve manual_request sample_world).2 manual_task).
  - vm_compute; reflexivity.
  - in_sample_trace.
  - vm_compute; reflexivity.
Defined.

Lemma submission_reaches_terminal_status_witness :
  ∃ tr0 sub' ans,
    (serve infra_request sample_world).1.2 = tr0 ++ [EvUpdateSubmission sub' ans]
    ∧ Forall (λ e, is_update_event e = false) tr0
    ∧ Submission.ID sub' = Submission.ID (first_submission 1 loop_code)
    ∧ Submission.TaskID sub' = Submission.TaskID (first_submission 1 loop_code)
    ∧ Submission.Code sub' = Submission.Code (first_submission 1 loop_code)
    ∧ Submission.Status sub'
      = (if is_success_result (serve infra_request sample_world).1.1
         then "success" else "error")
    ∧ Submission.Status sub' ≠ "pending".
Proof.
  apply (submission_reaches_terminal_status (world_handler infra_env) sample_world
           1 loop_code _ _ (serve infra_request sample_world).2).
  - vm_compute; reflexivity.
  - in_sample_trace.
Defined.

Lemma missing_patterns_stop_pipeline_witness :
  ∃ missing ans,
    (serve lazy_request sample_world).1.1
    = Ok {| CheckResult.Success := false;
            CheckResult.Output := "";
            CheckResult.Expected := "";
            CheckResult.Error := "В коде отсутствуют необходимые конструкции";
            CheckResult.Hints := ["Используйте: " +:+ strings.Join missing ", "];
            CheckResult.PointsAwarded := 0 |}
    ∧ (∀ p, p ∈ missing
            ↔ p ∈ pattern_entries (Task.RequiredPatterns loop_task)
              ∧ ¬ occurs_in p plain_code)
    ∧ sublist missing (pattern_entries (Task.RequiredPatterns loop_task))
    ∧ (serve lazy_request sample_world).1.2
      = [EvQueryTaskRow 1 (Scanned loop_task);
         EvCreateSubmission (pendingSubmission 1 plain_code)
           (None, first_submission 1 plain_code);
         EvUpdateSubmission
           (Submission.set_Status "error" (first_submission 1 plain_code)) ans]
    ∧ Forall (λ e, is_runner_event e = false) (serve lazy_request sample_world).1.2.
Proof.
  apply (missing_patterns_stop_pipeline (world_handler sound_env) sample_world
           1 plain_code _ _ (serve lazy_request sample_world).2).
  - vm_compute; reflexivity.
  - in_sample_trace.
  - in_sample_trace.
  - exists "for". split.
    + in_sample_trace.
    + rewrite <- Contains_spec. by vm_compute.
Defined.

(** The hint of the sample: both patterns of the task are missing. *)
Example missing_patterns_hint :
  (serve lazy_request sample_world).1.1
  = Ok {| CheckResult.Success := false;
          CheckResult.Output := "";
          CheckResult.Expected := "";
          CheckResult.Error := "В коде отсутствуют необходимые конструкции";
          CheckResult.Hints := ["Используйте: for, fmt.Println"];
          CheckResult.PointsAwarded := 0 |}.
Proof. by vm_compute. Qed.

Lemma execute_stage_outcomes_witness :
  ((serve infra_request sample_world).1.1 = Err ("run code: " +:+ "sandbox unavailable")
   ∧ ∃ task ans,
       (serve infra_request sample_world).1.2
       = [EvQueryTaskRow 1 (Scanned task);
          EvCreateSubmission (pendingSubmission 1 loop_code)
            (None, first_submission 1 loop_code);
          EvRunnerRun loop_code (Err "sandbox unavailable");
          EvUpdateSubmission
            (Submission.set_Stderr "sandbox unavailable"
               (Submission.set_Status "error" (first_submission 1 loop_code))) ans])
  ∧ ((serve crash_request sample_world).1.1
     = Ok {| CheckResult.Success := false;
             CheckResult.Output := RunResult.Stdout failing_run;
             CheckResult.Expected := "";
             CheckResult.Error := RunResult.Error failing_run;
             CheckResult.Hints := [];
             CheckResult.PointsAwarded := 0 |}
     ∧ ∃ task ans,
         (serve crash_request sample_world).1.2
         = [EvQueryTaskRow 1 (Scanned task);
            EvCreateSubmission (pendingSubmission 1 loop_code)
              (None, first_submission 1 loop_code);
            EvRunnerRun loop_code (Ok failing_run);
            EvUpdateSubmission
              (Submission.set_Stderr (RunResult.Error failing_run)
                 (Submission.set_Status "error" (first_submission 1 loop_code))) ans]).
Proof.
  split.
  - apply (proj1 (execute_stage_outcomes (world_handler infra_env) sample_world
                    1 loop_code _ _ (serve infra_request sample_world).2
                    (first_submission 1 loop_code)
                    ltac:(vm_compute; reflexivity) ltac:(in_sample_trace))).
    in_sample_trace.
  - apply (proj2 (execute_stage_outcomes (world_handler crash_env) sample_world
                    1 loop_code _ _ (serve crash_request sample_world).2
                    (first_submission 1 loop_code)
                    ltac:(vm_compute; reflexivity) ltac:(in_sample_trace))).
    + in_sample_trace.
    + reflexivity.
Defined.

Lemma ledger_errors_are_swallowed_witness :
  ((∃ cr, (serve query_failing_request sample_world).1.1 = Ok cr
          ∧ CheckResult.Success cr = true
          ∧ CheckResult.PointsAwarded cr = Task.Points loop_task)
   ∧ ∃ ans, EvSetPracticeDone (Task.LessonID loop_task) (Task.Points loop_task) ans
            ∈ (serve query_failing_request sample_world).1.2)
  ∧ (∃ cr, (serve credit_failing_request sample_world).1.1 = Ok cr
           ∧ CheckResult.Success cr = true
           ∧ CheckResult.PointsAwarded cr = Task.Points loop_task).
Proof.
  split.
  - apply (proj1 (ledger_errors_are_swallowed (world_handler query_failing_env)
                    sample_world 1 loop_code _ _
                    (serve query_failing_request sample_world).2 loop_task
                    ltac:(vm_compute; reflexivity) ltac:(in_sample_trace))
             "database is locked").
    in_sample_trace.
  - apply (proj2 (ledger_errors_are_swallowed (world_handler credit_failing_env)
                    sample_world 1 loop_code _ _
                    (serve credit_failing_request sample_world).2 loop_task
                    ltac:(vm_compute; reflexivity) ltac:(in_sample_trace))
             7 10 "database is locked").
    in_sample_trace.
Defined.

Lemma early_exit_leaves_ledger_unchanged_witness :
  ((serve unknown_request sample_world).2 = sample_world
   ∧ submissions (serve unknown_request sample_world).2 = submissions sample_world
   ∧ credits (serve unknown_request sample_world).2 = credits sample_world
   ∧ Forall (λ e, is_ledger_write e = false) (serve unknown_request sample_world).1.2)
  ∧ ((serve manual_request sample_world).2 = sample_world
     ∧ submissions (serve manual_request sample_world).2 = submissions sample_world
     ∧ credits (serve manual_request sample_world).2 = credits sample_world
     ∧ Forall (λ e, is_ledger_write e = false) (serve manual_request sample_world).1.2).
Proof.
  split.
  - apply (early_exit_leaves_ledger_unchanged sound_env 4 loop_code sample_world
             _ (serve unknown_request sample_world).1.1).
    + vm_compute; reflexivity.
    + left. in_sample_trace.
  - apply (early_exit_leaves_ledger_unchanged sound_env 3 loop_code sample_world
             _ (serve manual_request sample_world).1.1).
    + vm_compute; reflexivity.
    + right. exists manual_task. split; [in_sample_trace | vm_compute; reflexivity].
Defined.

(** ** More of the pipeline against arbitrary collaborators *)

Lemma no_missing_patterns (requiredPatterns code : string) :
  missingPatternsOf requiredPatterns code = []
  ↔ ∀ p, p ∈ pattern_entries requiredPatterns → occurs_in p code.
Proof.
  destruct (missingPatternsOf_spec requiredPatterns code) as [Hin _]. split.
  - intros Hnil p Hp. rewrite <- Contains_spec.
    destruct (strings.Contains code p) eqn:Hc; [done|].
    exfalso. eapply elem_of_nil. rewrite <- Hnil. apply Hin. split; [done|].
    rewrite <- Contains_spec. congruence.
  - intros Hall. destruct (missingPatternsOf requiredPatterns code) as [|p l] eqn:Hm; [done|].
    exfalso. destruct (proj1 (Hin p) (list_elem_of_here _ _)) as [Hp Hocc]. auto.
Qed.

(** The pattern stage as [Check] tests it lets the code through exactly when
    every entry of the pattern list occurs in it. *)
Lemma pattern_stage_passes (requiredPatterns code : string) :
  (negb (String.eqb requiredPatterns "")
   && (0 <? length (missingPatternsOf requiredPatterns code))%nat) = false
  ↔ ∀ p, p ∈ pattern_entries requiredPatterns → occurs_in p code.
Proof.
  rewrite <- no_missing_patterns. split.
  - intros H. apply andb_false_iff in H as [H|H].
    + apply negb_false_iff, String.eqb_eq in H. by subst.
    + apply Nat.ltb_ge in H. destruct (missingPatternsOf _ _); [done | simpl in H; lia].
  - intros ->. by rewrite andb_false_r.
Qed.

(** Membership in a trace that is written out, one event at a time; an
    event of another kind is dismissed at once. *)
Ltac locate_events :=
  repeat match goal with
         | H : _ ∈ [] |- _ => by apply elem_of_nil in H
         | H : _ ∈ _ :: _ |- _ =>
           apply elem_of_cons in H as [H|H]; [try discriminate H; simplify_eq|]
         end.

Section pipeline_paths.

Context {St : Type} (h : Handler St).
Implicit Types (s : St) (out : result CheckResult.t) (tr : list Event).

(** X1: when the query for the task fails, [Check] makes no further call and
    returns the error of the query, wrapped once by [GetTaskByID] and once
    by [Check]; no submission is created. *)
Theorem task_load_error_is_propagated s taskID code out tr s' err :
  run h (Check taskID code) s = (out, tr, s') →
  EvQueryTaskRow taskID (ScanErr err) ∈ tr →
  out = Err ("get task: " +:+ "get task by id: " +:+ err)
  ∧ tr = [EvQueryTaskRow taskID (ScanErr err)].
Proof.
  intros H Hq.
  destruct (Check_load_and_gate _ _ _ _ _ _ _ H) as (scan & tr' & -> & Hnoq & Hscan).
  apply elem_of_cons in Hq as [Hq|Hq].
  - simplify_eq. by destruct Hscan as (-> & -> & _).
  - rewrite list.Forall_forall in Hnoq. by edestruct (Hnoq _ Hq).
Qed.

(** X2: when the pending submission cannot be created, [Check] returns
    that error wrapped as a system error and stops: the task was read and is
    not manual, the submission asked for is the pending one, the runner is
    not called, and nothing is updated or credited. *)
Theorem create_submission_error_is_propagated s taskID code out tr s' sub0 sub err :
  run h (Check taskID code) s = (out, tr, s') →
  EvCreateSubmission sub0 (Some err, sub) ∈ tr →
  out = Err ("create submission: " +:+ err)
  ∧ sub0 = pendingSubmission taskID code
  ∧ ∃ task, tr = [EvQueryTaskRow taskID (Scanned task);
                   EvCreateSubmission (pendingSubmission taskID code) (Some err, sub)]
            ∧ strings.TrimSpace (Task.Mode task) ≠ "manual".
Proof.
  intros H Hc. follow_paths h H; locate_events.
  split_and!; [done..|]. eexists; split; [done|].
  by apply String.eqb_neq.
Qed.

(** X3: when the program ran with success, the task expects an output and
    [compareOutput] rejects the trimmed output, [Check] answers a result
    without success that carries the program's output, the trimmed expected
    text, the fixed message and the expected text as its one hint.  The
    submission is updated to error with the output captured, and neither the
    tests nor the scoring stage are reached. *)
Theorem output_mismatch_stops_pipeline s taskID code out tr s' task sub runResult :
  run h (Check taskID code) s = (out, tr, s') →
  EvQueryTaskRow taskID (Scanned task) ∈ tr →
  EvCreateSubmission (pendingSubmission taskID code) (None, sub) ∈ tr →
  EvRunnerRun code (Ok runResult) ∈ tr →
  RunResult.Success runResult = true →
  Task.ExpectedOutput task ≠ "" →
  compareOutput (strings.TrimSpace (RunResult.Stdout runResult))
    (strings.TrimSpace (Task.ExpectedOutput task)) = false →
  out = Ok {| CheckResult.Success := false;
              CheckResult.Output := RunResult.Stdout runResult;
              CheckResult.Expected := strings.TrimSpace (Task.ExpectedOutput task);
              CheckResult.Error := "Вывод программы не соответствует ожидаемому";
              CheckResult.Hints :=
                ["Ожидалось:" +:+ LF +:+ strings.TrimSpace (Task.ExpectedOutput task)];
              CheckResult.PointsAwarded := 0 |}
  ∧ ∃ ans,
      tr = [EvQueryTaskRow taskID (Scanned task);
            EvCreateSubmission (pendingSubmission taskID code) (None, sub);
            EvRunnerRun code (Ok runResult);
            EvUpdateSubmission
              (Submission.set_Status "error"
                 (Submission.set_Stdout (RunResult.Stdout runResult) sub)) ans].
Proof.
  intros H Hq Hc Hrun Hok Hexp Hcmp.
  apply eqb_empty_false in Hexp.
  follow_paths h H; locate_events.
  all: try (rewrite Hok in *; done).
  all: try congruence.
  all: try (rewrite Hcmp in *; done).
  all: split; [done | by eexists].
Qed.

(** X4: the test stage keeps the two kinds of failure apart.  When the
    runner's [Check] fails itself, [Check] returns that error wrapped as a
    system error and the submission is updated to error with the message as
    its stderr.  When the tests ran and failed, [Check] answers a result
    without success, with the fixed message and, as its only hint, the
    failure detail unless that is empty; the submission is updated to error
    with the detail as its stderr.  In both cases the tests ran on the
    task's test code after a successful run, and the ledger is not
    consulted for scoring. *)
Theorem test_stage_outcomes s taskID code out tr s' task sub :
  run h (Check taskID code) s = (out, tr, s') →
  EvQueryTaskRow taskID (Scanned task) ∈ tr →
  EvCreateSubmission (pendingSubmission taskID code) (None, sub) ∈ tr →
  (∀ testCode err, EvRunnerCheck code testCode (Err err) ∈ tr →
     out = Err ("run tests: " +:+ err)
     ∧ testCode = Task.TestsGo task
     ∧ ∃ runResult ans,
         tr = [EvQueryTaskRow taskID (Scanned task);
               EvCreateSubmission (pendingSubmission taskID code) (None, sub);
               EvRunnerRun code (Ok runResult);
               EvRunnerCheck code (Task.TestsGo task) (Err err);
               EvUpdateSubmission
                 (Submission.set_Stderr err
                    (Submission.set_Status "error"
                       (Submission.set_Stdout (RunResult.Stdout runResult) sub))) ans])
  ∧ (∀ testCode testResult, EvRunnerCheck code testCode (Ok testResult) ∈ tr →
     RunResult.Success testResult = false →
     testCode = Task.TestsGo task
     ∧ ∃ runResult ans,
         out = Ok {| CheckResult.Success := false;
                     CheckResult.Output := RunResult.Stdout runResult;
                     CheckResult.Expected :=
                       if String.eqb (Task.ExpectedOutput task) "" then ""
                       else strings.TrimSpace (Task.ExpectedOutput task);
                     CheckResult.Error := "Тесты не пройдены";
                     CheckResult.Hints :=
                       if String.eqb (RunResult.Error testResult) "" then []
                       else [RunResult.Error testResult];
                     CheckResult.PointsAwarded := 0 |}
         ∧ tr = [EvQueryTaskRow taskID (Scanned task);
                 EvCreateSubmission (pendingSubmission taskID code) (None, sub);
                 EvRunnerRun code (Ok runResult);
                 EvRunnerCheck code (Task.TestsGo task) (Ok testResult);
                 EvUpdateSubmission
                   (Submission.set_Stderr (RunResult.Error testResult)
                      (Submission.set_Status "error"
                         (Submission.set_Stdout (RunResult.Stdout runResult) sub))) ans]).
Proof.
  intros H Hq Hc. split.
  - intros testCode err Hrun. follow_paths h H; locate_events.
    all: split_and!; [done..|]; by eexists _, _.
  - intros testCode testResult Hrun Hfail. follow_paths h H; locate_events;
      try (rewrite Hfail in *; done).
    all: split; [done|]; eexists _, _; split; [|done].
    all: destruct (String.eqb (Task.ExpectedOutput _) "") eqn:?;
      destruct (String.eqb (RunResult.Error _) "") eqn:?; by simplify_eq/=.
Qed.

End pipeline_paths.


Section pipeline_verdicts.

Context {St : Type} (h : Handler St).
Implicit Types (s : St) (out : result CheckResult.t) (tr : list Event).

(** X5: scoring is all or nothing.  A result without success carries no
    points; points are credited only in a call that answers a successful
    result, to the lesson of the task read, in the amount of the task's
    points, which is also what the result carries; and one call credits at
    most once. *)
Theorem points_only_with_success s taskID code out tr s' :
  run h (Check taskID code) s = (out, tr, s') →
  (∀ cr, out = Ok cr → CheckResult.Success cr = false →
     CheckResult.PointsAwarded cr = 0)
  ∧ (∀ lessonID points ans, EvSetPracticeDone lessonID points ans ∈ tr →
     ∃ cr task,
       out = Ok cr ∧ CheckResult.Success cr = true
       ∧ CheckResult.PointsAwarded cr = points
       ∧ EvQueryTaskRow taskID (Scanned task) ∈ tr
       ∧ lessonID = Task.LessonID task ∧ points = Task.Points task)
  ∧ (length (List.filter is_credit_event tr) ≤ 1)%nat.
Proof.
  intros H. split_and!.
  - intros cr -> Hs. follow_paths h H; simplify_eq/=; try done.
    all: by destruct (negb (String.eqb (RunResult.Error _) "")).
  - intros lessonID points ans Hcredit. follow_paths h H; locate_events.
    all: eexists _, _; split_and!; try done; apply list_elem_of_here.
  - follow_paths h H; cbn; lia.
Qed.

(** X6: what [Check] asks of the runner is, in this order, nothing, or one
    run of the submitted code, or one run followed by one run of the tests;
    the tests run only on the submitted code with the test code of the task
    read, which is not empty, and only after a run that succeeded. *)
Theorem runner_is_called_in_order s taskID code out tr s' :
  run h (Check taskID code) s = (out, tr, s') →
  List.filter is_runner_event tr = []
  ∨ (∃ ans, List.filter is_runner_event tr = [EvRunnerRun code ans])
  ∨ (∃ task runResult ans,
       List.filter is_runner_event tr
       = [EvRunnerRun code (Ok runResult); EvRunnerCheck code (Task.TestsGo task) ans]
       ∧ RunResult.Success runResult = true
       ∧ EvQueryTaskRow taskID (Scanned task) ∈ tr
       ∧ Task.TestsGo task ≠ "").
Proof.
  intros H. follow_paths h H; cbn.
  all: first
    [ by left
    | by right; left; eexists
    | right; right; eexists _, _, _; split_and!;
      [ done
      | match goal with
        | Hs : negb (RunResult.Success ?a) = false |- RunResult.Success ?a = _ =>
          by rewrite negb_false_iff in Hs
        end
      | apply list_elem_of_here
      | by apply eqb_empty_false ] ].
Qed.

(** X7: a successful result means that every stage passed.  The task was
    read and is not manual, the pending submission was created, every entry
    of the pattern list occurs in the code, the program ran with success,
    its trimmed output compares equal to the expected one if one is
    expected, the tests passed if the task has tests; the result carries the
    program's output and no error or hint, and the last call updates the
    submission to success with the output captured. *)
Theorem success_means_every_stage_passed s taskID code cr tr s' :
  run h (Check taskID code) s = (Ok cr, tr, s') →
  CheckResult.Success cr = true →
  ∃ task sub runResult,
    EvQueryTaskRow taskID (Scanned task) ∈ tr
    ∧ strings.TrimSpace (Task.Mode task) ≠ "manual"
    ∧ EvCreateSubmission (pendingSubmission taskID code) (None, sub) ∈ tr
    ∧ (∀ p, p ∈ pattern_entries (Task.RequiredPatterns task) → occurs_in p code)
    ∧ EvRunnerRun code (Ok runResult) ∈ tr
    ∧ RunResult.Success runResult = true
    ∧ (Task.ExpectedOutput task ≠ "" →
       compareOutput (strings.TrimSpace (RunResult.Stdout runResult))
         (strings.TrimSpace (Task.ExpectedOutput task)) = true)
    ∧ (Task.TestsGo task ≠ "" →
       ∃ testResult,
         EvRunnerCheck code (Task.TestsGo task) (Ok testResult) ∈ tr
         ∧ RunResult.Success testResult = true)
    ∧ CheckResult.Output cr = RunResult.Stdout runResult
    ∧ CheckResult.Expected cr
      = (if String.eqb (Task.ExpectedOutput task) "" then ""
         else strings.TrimSpace (Task.ExpectedOutput task))
    ∧ CheckResult.Error cr = ""
    ∧ CheckResult.Hints cr = []
    ∧ ∃ tr0 ans,
        tr = tr0
             ++ [EvUpdateSubmission
                   (Submission.set_Status "success"
                      (Submission.set_Stdout (RunResult.Stdout runResult) sub)) ans].
Proof.
  intros H Hs. follow_paths h H; simplify_eq/=.
  all: try (destruct (negb (String.eqb (RunResult.Error _) "")); done).
  all: eexists _, _, _; split; [apply list_elem_of_here|].
  all: split; [by apply String.eqb_neq|].
  all: split; [apply list_elem_of_further, list_elem_of_here|].
  all: split;
    [ apply pattern_stage_passes;
      match goal with Hp : negb (String.eqb (Task.RequiredPatterns _) "") = _ |- _ =>
        rewrite Hp end; by cbn |].
  all: split; [apply list_elem_of_further, list_elem_of_further, list_elem_of_here|].
  all: split;
    [ match goal with
      | Hr : negb (RunResult.Success ?a) = false |- RunResult.Success ?a = true =>
        by rewrite negb_false_iff in Hr
      end |].
  all: rewrite ?negb_true_iff, ?negb_false_iff in *.
  all: split; [by intros ?%String.eqb_neq; congruence|].
  all: split;
    [ intros Ht%String.eqb_neq;
      first
        [ congruence
        | eexists; split;
          [ repeat first [apply list_elem_of_here | apply list_elem_of_further]
          | done ] ] |].
  all: repeat match goal with
              | Hb : String.eqb (Task.ExpectedOutput _) "" = _ |- _ => rewrite Hb
              end.
  all: split_and!; try done; eexists _, _; split_last.
Qed.

(** X8: conversely, when the task was read, the pending submission was
    created, every entry of the pattern list occurs in the code, the program
    ran with success, the output compares equal where one is expected and
    the tests passed where the task has tests, [Check] answers a successful
    result, whatever the ledger answers at the scoring stage. *)
Theorem every_stage_passed_means_success s taskID code out tr s' task sub runResult :
  run h (Check taskID code) s = (out, tr, s') →
  EvQueryTaskRow taskID (Scanned task) ∈ tr →
  EvCreateSubmission (pendingSubmission taskID code) (None, sub) ∈ tr →
  (∀ p, p ∈ pattern_entries (Task.RequiredPatterns task) → occurs_in p code) →
  EvRunnerRun code (Ok runResult) ∈ tr →
  RunResult.Success runResult = true →
  (Task.ExpectedOutput task = ""
   ∨ compareOutput (strings.TrimSpace (RunResult.Stdout runResult))
       (strings.TrimSpace (Task.ExpectedOutput task)) = true) →
  (Task.TestsGo task = ""
   ∨ ∃ testResult,
       EvRunnerCheck code (Task.TestsGo task) (Ok testResult) ∈ tr
       ∧ RunResult.Success testResult = true) →
  ∃ cr, out = Ok cr ∧ CheckResult.Success cr = true.
Proof.
  intros H Hq Hc Hpat%pattern_stage_passes Hrun Hok Hout Htests.
  cbn in Hpat.
  follow_paths h H; locate_events.
  all: try (rewrite Hok in *; done).
  all: try by eexists.
  all: try (match goal with Hp : negb (String.eqb (Task.RequiredPatterns _) "") = _ |- _ =>
              rewrite Hp in Hpat end; cbn in Hpat; congruence).
  all: try (destruct Hout as [Hout|Hout]; [rewrite Hout in *; done | congruence]).
  all: destruct Htests as [Ht|(testResult & Ht & Hts)];
    [ rewrite Ht in *; done | locate_events; rewrite Hts in *; done ].
Qed.

End pipeline_verdicts.


(** ** The comparison of outputs as a relation *)

Lemma Forall2_eq_map {A B : Type} (f : A → B) (l1 l2 : list A) :
  Forall2 (λ x y, f x = f y) l1 l2 ↔ map f l1 = map f l2.
Proof.
  revert l2. induction l1 as [|x l1 IH]; intros [|y l2]; simpl.
  - split; [done | constructor].
  - split; [inversion 1 | done].
  - split; [inversion 1 | done].
  - split.
    + inversion 1; subst. f_equal; [done | by apply IH].
    + intros [= Hxy Hl]. constructor; [done | by apply IH].
Qed.

Lemma compareOutput_true_iff (actual expected : string) :
  compareOutput actual expected = true
  ↔ map strings.TrimSpace (non_blank_lines (normalized actual))
    = map strings.TrimSpace (non_blank_lines (normalized expected)).
Proof.
  unfold compareOutput.
  rewrite !normalizeOutput_normalized, !nonEmptyLines_non_blank.
  destruct (String.eqb_spec (normalized actual) (normalized expected)) as [Heq|Hne].
  { rewrite Heq. done. }
  destruct (Nat.eqb_spec (length (non_blank_lines (normalized actual)))
              (length (non_blank_lines (normalized expected)))) as [Hlen|Hlen]; simpl.
  - rewrite linesMatch_Forall2 by done. apply Forall2_eq_map.
  - split; [done|]. intros Hmap. exfalso. apply Hlen.
    by rewrite <- (length_map strings.TrimSpace), Hmap, length_map.
Qed.

(** X9: the first tier of [compareOutput] adds nothing to the second.  What
    [compareOutput] answers is whether the two texts have the same trimmed
    non-blank lines after normalisation. *)
Theorem compareOutput_by_trimmed_lines (actual expected : string) :
  compareOutput actual expected
  = bool_decide (map strings.TrimSpace (non_blank_lines (normalized actual))
                 = map strings.TrimSpace (non_blank_lines (normalized expected))).
Proof.
  apply eq_true_iff_eq. by rewrite compareOutput_true_iff, bool_decide_eq_true.
Qed.

(** X10: [compareOutput] is an equivalence on texts: every text compares
    equal to itself, the answer does not depend on which text is the actual
    and which the expected one, and two texts that compare equal to a third
    compare equal to each other. *)
Theorem compareOutput_equivalence :
  (∀ a, compareOutput a a = true)
  ∧ (∀ a b, compareOutput a b = compareOutput b a)
  ∧ (∀ a b c, compareOutput a b = true → compareOutput b c = true →
              compareOutput a c = true).
Proof.
  split_and!.
  - intros a. by apply compareOutput_true_iff.
  - intros a b. apply eq_true_iff_eq.
    rewrite !compareOutput_true_iff. split; congruence.
  - intros a b c. rewrite !compareOutput_true_iff. congruence.
Qed.


(** ** The handlers *)

Lemma run_bind {St A B : Type} (h : Handler St) (p : Prog A) (f : A → Prog B) (s : St) :
  run h (bind p f) s
  = let '(a, tr1, s1) := run h p s in
    let '(b, tr2, s2) := run h (f a) s1 in
    (b, tr1 ++ tr2, s2).
Proof.
  revert s. induction p as [a|X op k IH]; intros s; simpl.
  - by destruct (run h (f a) s) as [[b tr2] s2].
  - destruct (h X op s) as [x s1]. rewrite IH.
    destruct (run h (k x) s1) as [[a tr1] s2].
    by destruct (run h (f a) s2) as [[b tr2] s3].
Qed.

Ltac unfold_handlers :=
  unfold handleCompleteTask, handleRun, Checker_Run, GetTaskByID,
    call, mbind, mret, Prog_bind, Prog_ret in *.

Ltac follow_handler h H :=
  unfold_handlers; cbn in H; repeat (advance h H; cbn in H); simplify_eq.

Section handlers.

Context {St : Type} (h : Handler St).
Implicit Types (s : St) (resp : Response) (tr : list Event).

(** X11: [handleCheck] validates the request before anything else.  A body
    that is no JSON, a task identifier of zero, or code that is blank is
    answered with status 400 and its own message, in this order of
    precedence, without any call to the storage or the runner; so any such
    call means the request was well-formed. *)
Theorem handleCheck_validates_first s body resp tr s' :
  run h (handleCheck body) s = (resp, tr, s') →
  (body = None → resp = BadRequest "Invalid JSON" ∧ tr = [] ∧ s' = s)
  ∧ (∀ code, body = Some (0, code) →
       resp = BadRequest "Task ID is required" ∧ tr = [] ∧ s' = s)
  ∧ (∀ taskID code, body = Some (taskID, code) → taskID ≠ 0 →
       strings.TrimSpace code = "" →
       resp = BadRequest "Code is empty" ∧ tr = [] ∧ s' = s)
  ∧ (tr ≠ [] →
     ∃ taskID code, body = Some (taskID, code) ∧ taskID ≠ 0
                    ∧ strings.TrimSpace code ≠ "").
Proof.
  intros H. split_and!.
  - intros ->. by simplify_eq/=.
  - intros code ->. by simplify_eq/=.
  - intros taskID code -> Hid Hcode. unfold handleCheck in H.
    apply Z.eqb_neq in Hid. rewrite Hid, Hcode in H. by simplify_eq/=.
  - intros Htr. destruct body as [[taskID code]|]; [|by simplify_eq/=].
    unfold handleCheck in H.
    destruct (Z.eqb_spec taskID 0); [by simplify_eq/=|].
    destruct (String.eqb_spec (strings.TrimSpace code) ""); [by simplify_eq/=|].
    eauto.
Qed.

(** X12: for a well-formed request [handleCheck] does what [Check] does and
    nothing more: the same calls with the same final state, the result of
    [Check] relayed as JSON, and an error of [Check] turned into status
    500. *)
Theorem handleCheck_relays_Check s taskID code resp tr s' :
  taskID ≠ 0 →
  strings.TrimSpace code ≠ "" →
  run h (handleCheck (Some (taskID, code))) s = (resp, tr, s')
  ↔ ∃ out,
      run h (Check taskID code) s = (out, tr, s')
      ∧ resp = match out with
               | Err err => InternalServerError err
               | Ok result => JSONCheckResult result
               end.
Proof.
  intros Hid%Z.eqb_neq Hcode%String.eqb_neq. unfold handleCheck.
  rewrite Hid, Hcode. unfold mbind, Prog_bind. rewrite run_bind.
  destruct (run h (Check taskID code) s) as [[out tr1] s1].
  destruct out as [result|err]; simpl; rewrite app_nil_r.
  - split; [intros [= <- <- <-]; eauto | intros (out & [= <- <- <-] & ->); done].
  - split; [intros [= <- <- <-]; eauto | intros (out & [= <- <- <-] & ->); done].
Qed.

(** X13: [handleRun] only runs code.  It answers status 400 to a body that
    is no JSON or to blank code without any call; otherwise its only call is
    one run of the code as sent, whose result it relays and whose error it
    turns into status 500.  It never reads a task and never writes to the
    ledger. *)
Theorem handleRun_only_runs s body resp tr s' :
  run h (handleRun body) s = (resp, tr, s') →
  (tr = [] ∧ s' = s
   ∧ (body = None ∧ resp = BadRequest "Invalid JSON"
      ∨ ∃ code, body = Some code ∧ strings.TrimSpace code = ""
                ∧ resp = BadRequest "Code is empty"))
  ∨ (∃ code ans,
       body = Some code ∧ strings.TrimSpace code ≠ ""
       ∧ tr = [EvRunnerRun code ans]
       ∧ resp = match ans with
                | Err err => InternalServerError err
                | Ok result => JSONRunResult result
                end).
Proof.
  intros H. destruct body as [code|]; [|left; simplify_eq/=; eauto].
  unfold handleRun in H.
  destruct (String.eqb_spec (strings.TrimSpace code) "") as [Hc|Hc].
  - left. simplify_eq/=. split_and!; [done..|]. right. eauto.
  - right. follow_handler h H; eexists _, _; split_and!; done.
Qed.

Lemma handleCompleteTask_gate s idStr resp tr s' taskID task :
  run h (handleCompleteTask idStr) s = (resp, tr, s') →
  EvQueryTaskRow taskID (Scanned task) ∈ tr →
  strings.TrimSpace (Task.Mode task) ≠ "manual" →
  resp = BadRequest "Task is not manual"
  ∧ tr = [EvQueryTaskRow taskID (Scanned task)].
Proof.
  intros H Hq Hmode%String.eqb_neq. unfold handleCompleteTask in H.
  destruct (strconv.ParseInt idStr) as [n [e|]]; [simplify_eq/=; locate_events|].
  destruct (n <=? 0); [simplify_eq/=; locate_events|].
  follow_handler h H; locate_events; try done.
  all: rewrite Hmode in *; done.
Qed.

(** X14: what [handleCompleteTask] refuses.  An identifier that is no
    number in range, or is not positive, is answered with status 400
    before any call; an unknown task with 404; a failed query with status
    500; and a task that is not manual with status 400.  In each case the
    query for the task is the only call at most, so the ledger is left
    alone. *)
Theorem handleCompleteTask_refusals s idStr resp tr s' :
  run h (handleCompleteTask idStr) s = (resp, tr, s') →
  ((strconv.ParseInt idStr).2 ≠ None ∨ (strconv.ParseInt idStr).1 ≤ 0 →
     resp = BadRequest "Invalid task ID" ∧ tr = [] ∧ s' = s)
  ∧ (∀ taskID, EvQueryTaskRow taskID ErrNoRows ∈ tr →
       resp = NotFound ∧ tr = [EvQueryTaskRow taskID ErrNoRows])
  ∧ (∀ taskID err, EvQueryTaskRow taskID (ScanErr err) ∈ tr →
       resp = InternalServerError ("get task by id: " +:+ err)
       ∧ tr = [EvQueryTaskRow taskID (ScanErr err)])
  ∧ (∀ taskID task, EvQueryTaskRow taskID (Scanned task) ∈ tr →
       strings.TrimSpace (Task.Mode task) ≠ "manual" →
       resp = BadRequest "Task is not manual"
       ∧ tr = [EvQueryTaskRow taskID (Scanned task)]).
Proof.
  intros H. split_and!.
  - unfold handleCompleteTask in H.
    destruct (strconv.ParseInt idStr) as [n [e|]]; simpl.
    + intros _. by simplify_eq/=.
    + intros [?|Hn%Z.leb_le]; [done|]. rewrite Hn in H. by simplify_eq/=.
  - intros taskID Hq. unfold handleCompleteTask in H.
    destruct (strconv.ParseInt idStr) as [n [e|]]; [simplify_eq/=; locate_events|].
    destruct (n <=? 0); [simplify_eq/=; locate_events|].
    follow_handler h H; locate_events. done.
  - intros taskID err Hq. unfold handleCompleteTask in H.
    destruct (strconv.ParseInt idStr) as [n [e|]]; [simplify_eq/=; locate_events|].
    destruct (n <=? 0); [simplify_eq/=; locate_events|].
    follow_handler h H; locate_events. done.
  - intros taskID task Hq Hmode. exact (handleCompleteTask_gate _ _ _ _ _ _ _ H Hq Hmode).
Qed.

(** X15: [handleCompleteTask] on a manual task.  The identifier parsed is
    positive and is the one queried.  When the ledger says the task is
    solved, the answer is success with no points and nothing is written;
    when it says it is not, a submission with status success and the code
    [[manual]] is created and the task's points are credited to its lesson,
    and the answer carries those points.  Unlike [Check], an error of any of
    the three ledger calls ends the request with status 500: after a failed
    query nothing is written, and after a failed credit the submission
    stays. *)
Theorem handleCompleteTask_awards_by_query s idStr resp tr s' taskID task :
  run h (handleCompleteTask idStr) s = (resp, tr, s') →
  EvQueryTaskRow taskID (Scanned task) ∈ tr →
  strings.TrimSpace (Task.Mode task) = "manual" →
  strconv.ParseInt idStr = (taskID, None) ∧ 0 < taskID
  ∧ ((∃ flag err,
        tr = [EvQueryTaskRow taskID (Scanned task);
              EvIsTaskSolvedSuccessfully taskID (flag, Some err)]
        ∧ resp = InternalServerError err)
     ∨ (tr = [EvQueryTaskRow taskID (Scanned task);
              EvIsTaskSolvedSuccessfully taskID (true, None)]
        ∧ resp = JSONCompleted true 0)
     ∨ (∃ err sub,
          tr = [EvQueryTaskRow taskID (Scanned task);
                EvIsTaskSolvedSuccessfully taskID (false, None);
                EvCreateSubmission (manualSubmission taskID) (Some err, sub)]
          ∧ resp = InternalServerError err)
     ∨ (∃ err sub,
          tr = [EvQueryTaskRow taskID (Scanned task);
                EvIsTaskSolvedSuccessfully taskID (false, None);
                EvCreateSubmission (manualSubmission taskID) (None, sub);
                EvSetPracticeDone (Task.LessonID task) (Task.Points task) (Some err)]
          ∧ resp = InternalServerError err)
     ∨ (∃ sub,
          tr = [EvQueryTaskRow taskID (Scanned task);
                EvIsTaskSolvedSuccessfully taskID (false, None);
                EvCreateSubmission (manualSubmission taskID) (None, sub);
                EvSetPracticeDone (Task.LessonID task) (Task.Points task) None]
          ∧ resp = JSONCompleted true (Task.Points task))).
Proof.
  intros H Hq Hmode. unfold handleCompleteTask in H.
  destruct (strconv.ParseInt idStr) as [n [e|]]; [simplify_eq/=; locate_events|].
  destruct (Z.leb_spec n 0); [simplify_eq/=; locate_events|].
  follow_handler h H; locate_events.
  all: try (rewrite Hmode in *; done).
  all: split_and!; [done | lia |].
  all: try match goal with Hb : negb ?b = _ |- _ => destruct b; simplify_eq/= end.
  all: first
    [ by left; eexists _, _
    | by right; left
    | by right; right; left; eexists _, _
    | by right; right; right; left; eexists _, _
    | by right; right; right; right; eexists ].
Qed.

End handlers.

(** X16: the two ways to earn points exclude each other.  For one and the
    same task row, [Check] and [handleCompleteTask] never both write to the
    ledger: a manual task is refused by the first, any other task by the
    second. *)
Theorem Check_and_handleCompleteTask_are_exclusive
    {St St' : Type} (h : Handler St) (h' : Handler St') (s s' : St) (s0 s0' : St')
    (taskID : Z) (code idStr : string) (out : result CheckResult.t) (resp : Response)
    (tr tr' : list Event) (task : Task.t) :
  run h (Check taskID code) s = (out, tr, s') →
  run h' (handleCompleteTask idStr) s0 = (resp, tr', s0') →
  EvQueryTaskRow taskID (Scanned task) ∈ tr →
  EvQueryTaskRow taskID (Scanned task) ∈ tr' →
  List.filter is_ledger_write tr = [] ∨ List.filter is_ledger_write tr' = [].
Proof.
  intros H H' Hq Hq'.
  destruct (String.eqb_spec (strings.TrimSpace (Task.Mode task)) "manual") as [Hm|Hm].
  - left.
    destruct (Check_load_and_gate _ _ _ _ _ _ _ H) as (scan & tr0 & -> & Hnoq & Hscan).
    apply elem_of_cons in Hq as [Hq|Hq].
    + simplify_eq. by destruct (Hscan Hm) as (_ & -> & _).
    + rewrite list.Forall_forall in Hnoq. by edestruct (Hnoq _ Hq).
  - right.
    by destruct (handleCompleteTask_gate _ _ _ _ _ _ _ _ H' Hq' Hm) as [_ ->].
Qed.


(** ** Generated criteria and created tasks *)

Lemma append_assoc (a b c : string) : (a +:+ b) +:+ c = a +:+ (b +:+ c).
Proof.
  induction a as [|x a IH]; [done|]. by rewrite !append_String, IH.
Qed.

Lemma append_empty_r (s : string) : s +:+ "" = s.
Proof. induction s as [|c s IH]; [done|]. by rewrite append_String, IH. Qed.

Lemma occurs_in_refl (x : string) : occurs_in x x.
Proof. exists "", "". by rewrite append_empty, append_empty_r. Qed.

Lemma occurs_in_append (x a b c : string) :
  occurs_in x b → occurs_in x (a +:+ b +:+ c).
Proof.
  intros (u & v & ->). exists (a +:+ u), (v +:+ c). by rewrite !append_assoc.
Qed.

Lemma occurs_in_prefix (x a b : string) : occurs_in x a → occurs_in x (a +:+ b).
Proof. intros H. apply (occurs_in_append x "" a b) in H. by rewrite append_empty in H. Qed.

Lemma occurs_in_suffix (x a b : string) : occurs_in x b → occurs_in x (a +:+ b).
Proof.
  intros (u & v & ->). exists (a +:+ u), v. by rewrite !append_assoc.
Qed.

(** What is in an element of a joined list is in the join. *)
Lemma occurs_in_Join (x y sep : string) (l : list string) :
  y ∈ l → occurs_in x y → occurs_in x (strings.Join l sep).
Proof.
  unfold strings.Join. intros Hy Hx.
  induction l as [|z l IH]; [by apply elem_of_nil in Hy|].
  apply elem_of_cons in Hy as [->|Hy].
  - destruct l; simpl; [done|]. by apply occurs_in_prefix.
  - destruct l as [|z' l]; [by apply elem_of_nil in Hy|].
    change (String.concat sep (z :: z' :: l))
      with (z +:+ sep +:+ String.concat sep (z' :: l)).
    apply occurs_in_suffix, occurs_in_suffix. by apply IH.
Qed.

Lemma foldl_append_map {A B : Type} (f : A → B) (acc : list B) (l : list A) :
  foldl (λ (acc : list B) (x : A), acc ++ [f x]) acc l = acc ++ map f l.
Proof.
  revert acc. induction l as [|x l IH]; intros acc; simpl.
  - by rewrite app_nil_r.
  - by rewrite IH, <- app_assoc.
Qed.

(** X17: the criteria generated for a task name every required pattern.
    Each non-empty, trimmed entry of the pattern list, the very entries
    [Check] looks for in the code, stands between backquotes in the text of
    [generateCriteria], whatever the expected output is. *)
Theorem generated_criteria_name_required_patterns
    (expectedOutput requiredPatterns p : string) :
  p ∈ pattern_entries requiredPatterns →
  occurs_in ("`" +:+ p +:+ "`") (generateCriteria expectedOutput requiredPatterns).
Proof.
  intros Hp. unfold generateCriteria.
  destruct (String.eqb_spec requiredPatterns "") as [->|Hne]; simpl.
  { rewrite pattern_entries_empty in Hp. by apply elem_of_nil in Hp. }
  unfold pattern_entries in Hp.
  apply list_elem_of_filter in Hp as [_ Hp].
  apply list_elem_of_fmap in Hp as (q & -> & Hq).
  set (head := [] ++ ["- Программа компилируется без ошибок"]).
  set (mid := if negb (String.eqb expectedOutput "") then _ else _).
  destruct (strings.Split requiredPatterns "|") as [|q0 [|q1 patterns]] eqn:Hsplit.
  - by apply elem_of_nil in Hq.
  - apply list_elem_of_singleton in Hq as ->.
    eapply occurs_in_Join.
    + apply elem_of_app. left. apply elem_of_app. right. apply list_elem_of_here.
    + exists "- В коде используется: ", "". by rewrite append_empty_r.
  - eapply occurs_in_Join.
    + apply elem_of_app. left. apply elem_of_app. right. apply list_elem_of_here.
    + apply occurs_in_suffix. rewrite (foldl_append_map (λ p, "`" +:+ strings.TrimSpace p +:+ "`")).
      eapply occurs_in_Join; [|apply occurs_in_refl].
      apply elem_of_app. right.
      apply (list_elem_of_fmap_2 (λ p, "`" +:+ strings.TrimSpace p +:+ "`")). done.
Qed.

Lemma find_app_last {A : Type} (f : A → bool) (l : list A) (x : A) :
  find f (l ++ [x])
  = match find f l with
    | Some y => Some y
    | None => if f x then Some x else None
    end.
Proof. induction l as [|y l IH]; simpl; [done|]. by destruct (f y). Qed.

(** The row that [CreateTask] inserted is the one [GetTaskByID] selects. *)
Lemma created_row_is_read (lastInsertID : Z) (t t' : Task.t) (w w' : World) (env : Env) :
  CreateTask None lastInsertID t w = (None, t', w') →
  Forall (λ row, Task.ID row ≠ lastInsertID) (tasks w) →
  tasks_error env = None →
  query_task_row env lastInsertID w' = Scanned t'.
Proof.
  unfold CreateTask. intros [= <- <-] Hfresh Herr.
  assert (find (λ r, Task.ID r =? lastInsertID) (tasks w) = None) as Hnone.
  { induction Hfresh as [|r l Hr _ IH]; simpl; [done|].
    apply Z.eqb_neq in Hr. by rewrite Hr. }
  unfold query_task_row. rewrite Herr. simpl.
  rewrite find_app_last, Hnone. simpl. by rewrite Z.eqb_refl.
Qed.

Lemma created_mode (exec_error : option error) (lastInsertID : Z) (t t' : Task.t)
    (w w' : World) (err : option error) :
  CreateTask exec_error lastInsertID t w = (err, t', w') →
  Task.Mode t'
  = (if String.eqb (strings.TrimSpace (Task.Mode t)) "" then "auto" else Task.Mode t).
Proof.
  unfold CreateTask. destruct exec_error; intros [= _ <- _];
    by destruct (String.eqb (strings.TrimSpace (Task.Mode t)) "").
Qed.

(** X18: a task that was created is found again.  After a successful
    [CreateTask] with an identifier that no row had, [GetTaskByID] of that
    identifier answers the task as the caller holds it: with the identifier,
    and with mode auto where the mode given was blank, so that the mode
    stored is never blank.  The rows of all other identifiers are read as
    before. *)
Theorem created_task_is_found (lastInsertID : Z) (t t' : Task.t) (w w' : World)
    (env : Env) :
  CreateTask None lastInsertID t w = (None, t', w') →
  Forall (λ row, Task.ID row ≠ lastInsertID) (tasks w) →
  tasks_error env = None →
  run (world_handler env) (GetTaskByID lastInsertID) w'
  = (Ok (Some t'), [EvQueryTaskRow lastInsertID (Scanned t')], w')
  ∧ Task.ID t' = lastInsertID
  ∧ Task.Mode t'
    = (if String.eqb (strings.TrimSpace (Task.Mode t)) "" then "auto" else Task.Mode t)
  ∧ strings.TrimSpace (Task.Mode t') ≠ ""
  ∧ (∀ id, id ≠ lastInsertID →
           query_task_row env id w' = query_task_row env id w).
Proof.
  intros Hcreate Hfresh Herr.
  pose proof (created_row_is_read _ _ _ _ _ env Hcreate Hfresh Herr) as Hread.
  pose proof (created_mode _ _ _ _ _ _ _ Hcreate) as Hmode.
  split_and!.
  - unfold GetTaskByID, call, mbind, Prog_bind. simpl. by rewrite Hread.
  - revert Hcreate. unfold CreateTask. by intros [= <- _].
  - done.
  - rewrite Hmode.
    destruct (String.eqb_spec (strings.TrimSpace (Task.Mode t)) ""); [by vm_compute | done].
  - revert Hcreate. unfold CreateTask. intros [= _ <-].
    intros id Hid. unfold query_task_row. rewrite Herr. simpl.
    rewrite find_app_last.
    simpl. apply Z.eqb_neq in Hid. rewrite (Z.eqb_sym lastInsertID id), Hid.
    by destruct (find (λ r, Task.ID r =? id) (tasks w)).
Qed.

(** The first two calls of [Check] for a task that is not manual. *)
Lemma Check_first_calls {St : Type} (h : Handler St) (s s' : St) (taskID : Z)
    (code : string) (out : result CheckResult.t) (tr : list Event) (task : Task.t) :
  run h (Check taskID code) s = (out, tr, s') →
  (h _ (QueryTaskRow taskID) s).1 = Scanned task →
  strings.TrimSpace (Task.Mode task) ≠ "manual" →
  ∃ ans tr',
    tr = EvQueryTaskRow taskID (Scanned task)
         :: EvCreateSubmission (pendingSubmission taskID code) ans :: tr'.
Proof.
  intros H Hq Hmode%String.eqb_neq.
  unfold Check, GetTaskByID, call, mbind, mret, Prog_bind, Prog_ret in H.
  cbn [bind run] in H.
  destruct (h _ (QueryTaskRow taskID) s) as [scan s1]. simpl in Hq. subst scan.
  cbn [bind run] in H. rewrite Hmode in H. cbn [bind run] in H.
  destruct (h _ (CreateSubmission (pendingSubmission taskID code)) s1) as [[err sub] s2].
  destruct (run h _ s2) as [[a tr2] s3].
  simplify_eq/=. by eexists _, _.
Qed.

(** X22: a task created with a blank mode, as the importers create every
    task, is checked by the pipeline and cannot be reported as done by
    hand.  Once it is stored, [handleCompleteTask] refuses its identifier
    as not manual after the one query and writes nothing, while [Check]
    passes the mode gate and opens a pending submission for whatever code
    is sent. *)
Theorem blank_mode_task_is_checked_not_self_reported
    (env : Env) (lastInsertID : Z) (t t' : Task.t) (w w' : World) :
  strings.TrimSpace (Task.Mode t) = "" →
  CreateTask None lastInsertID t w = (None, t', w') →
  Forall (λ row, Task.ID row ≠ lastInsertID) (tasks w) →
  tasks_error env = None →
  0 < lastInsertID →
  (∀ idStr, strconv.ParseInt idStr = (lastInsertID, None) →
     run (world_handler env) (handleCompleteTask idStr) w'
     = (BadRequest "Task is not manual",
        [EvQueryTaskRow lastInsertID (Scanned t')], w'))
  ∧ (∀ code out tr w'',
       run (world_handler env) (Check lastInsertID code) w' = (out, tr, w'') →
       ∃ ans tr',
         tr = EvQueryTaskRow lastInsertID (Scanned t')
              :: EvCreateSubmission (pendingSubmission lastInsertID code) ans :: tr').
Proof.
  intros Hblank Hcreate Hfresh Herr Hpos.
  pose proof (created_row_is_read _ _ _ _ _ env Hcreate Hfresh Herr) as Hread.
  pose proof (created_mode _ _ _ _ _ _ _ Hcreate) as Hmode.
  rewrite Hblank in Hmode. simpl in Hmode.
  split.
  - intros idStr Hparse. unfold handleCompleteTask. rewrite Hparse.
    apply Z.leb_gt in Hpos. rewrite Hpos.
    unfold GetTaskByID, call, mbind, mret, Prog_bind, Prog_ret.
    cbn [bind run world_handler]. rewrite Hread. cbn [bind run].
    by rewrite Hmode.
  - intros code out tr w'' H.
    apply (Check_first_calls _ _ _ _ _ _ _ t' H); [done|].
    rewrite Hmode. by vm_compute.
Qed.

(** ** Numbered names *)

Lemma digit_is_digit (c : ascii) :
  is_digit c = true ↔ ∃ d, strconv.digit c = Some d ∧ 0 ≤ d ≤ 9.
Proof.
  unfold is_digit, strconv.digit, utf8.byte.
  destruct ((48 <=? Z.of_nat (nat_of_ascii c)) && (Z.of_nat (nat_of_ascii c) <=? 57))
    eqn:Hd.
  - apply andb_true_iff in Hd as [?%Z.leb_le ?%Z.leb_le].
    split; [|done]. intros _. eexists. split; [done | lia].
  - split; [done | by intros (d & ? & _)].
Qed.

Lemma digits_step (acc : Z) (s : string) (n : Z) :
  0 ≤ acc → strconv.digits acc s = Some n →
  acc ≤ n ∧ Forall (λ c, is_digit c = true) (String.list_ascii_of_string s).
Proof.
  revert acc. induction s as [|c s IH]; intros acc Hacc; simpl.
  - intros [= <-]. split; [lia | constructor].
  - destruct (strconv.digit c) as [d|] eqn:Hd; [|done]. intros Hn.
    assert (is_digit c = true ∧ 0 ≤ d ≤ 9) as [Hc Hd9].
    { assert (is_digit c = true) as Hc
        by (unfold is_digit, utf8.byte; unfold strconv.digit in Hd;
            by destruct (_ && _)).
      split; [done|]. apply digit_is_digit in Hc as (d' & Hd' & ?). congruence. }
    destruct (IH (acc * 10 + d) ltac:(lia) Hn) as [Hle Hall].
    split; [lia | by constructor].
Qed.

Lemma digits_total (acc : Z) (s : string) :
  Forall (λ c, is_digit c = true) (String.list_ascii_of_string s) →
  ∃ n, strconv.digits acc s = Some n.
Proof.
  revert acc. induction s as [|c s IH]; intros acc; simpl; [by eexists|].
  inversion 1 as [|? ? Hc Hs]; subst.
  apply digit_is_digit in Hc as (d & -> & _). by apply IH.
Qed.

Lemma span_digits_digits (s ds rest : string) :
  span_digits s = (ds, rest) →
  Forall (λ c, is_digit c = true) (String.list_ascii_of_string ds) ∧ s = ds +:+ rest.
Proof.
  revert ds rest. induction s as [|c s IH]; intros ds rest; simpl.
  - intros [= <- <-]. split; [constructor | done].
  - destruct (is_digit c) eqn:Hc.
    + destruct (span_digits s) as [ds' rest']. intros [= <- <-].
      destruct (IH _ _ eq_refl) as [Hall ->]. split; [by constructor | done].
    + intros [= <- <-]. split; [constructor | done].
Qed.

Lemma span_digits_append (ds rest : string) :
  Forall (λ c, is_digit c = true) (String.list_ascii_of_string ds) →
  (∀ c rest', rest = String c rest' → is_digit c = false) →
  span_digits (ds +:+ rest) = (ds, rest).
Proof.
  intros Hds Hrest. induction ds as [|c ds IH]; simpl.
  - rewrite append_empty. destruct rest as [|c rest']; [done|]. simpl.
    by rewrite (Hrest c rest' eq_refl).
  - inversion Hds as [|? ? Hc Hall]; subst. rewrite ?append_String. simpl.
    by rewrite Hc, IH.
Qed.

(** What the loop of [ParseUint] makes of a run of digits: its value, or
    the largest number of 64 bits where that is less. *)
Lemma ParseUint_from_digits (n0 : Z) (s : string) (v : Z) :
  0 ≤ n0 ≤ 2 ^ 64 - 1 →
  strconv.digits n0 s = Some v →
  strconv.ParseUint_from n0 s
  = if 2 ^ 64 - 1 <? v then (2 ^ 64 - 1, Some strconv.ErrRange) else (v, None).
Proof.
  revert n0. induction s as [|c s IH]; intros n0 Hn0; simpl.
  - intros [= <-]. destruct (Z.ltb_spec (2 ^ 64 - 1) n0); [lia | done].
  - destruct (strconv.digit c) as [d|] eqn:Hd; [|done]. intros Hv.
    assert (0 ≤ d) as Hd0.
    { unfold strconv.digit in Hd. destruct (_ && _) eqn:Hr; [|done].
      apply andb_true_iff in Hr as [?%Z.leb_le _]. simplify_eq. lia. }
    destruct (digits_step (n0 * 10 + d) s v ltac:(lia) Hv) as [Hle _].
    destruct (Z.ltb_spec (2 ^ 64 - 1) (n0 * 10 + d)).
    + destruct (Z.ltb_spec (2 ^ 64 - 1) v); [done | lia].
    + apply IH; [lia | done].
Qed.

(** What [Atoi] makes of a run of digits: its value, or the largest [int]
    where that is less. *)
Lemma Atoi_digits (ds : string) (n : Z) :
  ds ≠ "" → strconv.digits 0 ds = Some n →
  strconv.Atoi ds = (Z.min n (2 ^ 63 - 1), if 2 ^ 63 <=? n then Some strconv.ErrRange else None)
  ∧ 0 ≤ n.
Proof.
  intros Hne Hn. destruct (digits_step 0 ds n ltac:(lia) Hn) as [Hpos Hall].
  split; [|done]. unfold strconv.Atoi, strconv.ParseInt.
  destruct ds as [|c ds]; [done|].
  inversion Hall as [|? ? Hc _]; subst.
  destruct (Ascii.eqb_spec c "+") as [->|_]; [done|].
  destruct (Ascii.eqb_spec c "-") as [->|_]; [done|].
  unfold strconv.ParseUint. rewrite (ParseUint_from_digits 0 _ n) by (done || lia).
  destruct (Z.ltb_spec (2 ^ 64 - 1) n); cbn [negb andb].
  - change (2 ^ 63 <=? 2 ^ 64 - 1) with true. cbv iota.
    destruct (Z.leb_spec (2 ^ 63) n); [f_equal; lia | lia].
  - destruct (Z.leb_spec (2 ^ 63) n); f_equal; lia.
Qed.

Lemma ReplaceAll_byte_gone (s : string) (c d : ascii) :
  c ≠ d →
  strings.Contains (strings.ReplaceAll s (String c "") (String d "")) (String c "") = false.
Proof.
  intros Hcd. unfold strings.ReplaceAll. induction s as [|x s IH]; [done|].
  cbn [strings.ReplaceAll_from strings.HasPrefix String.length Nat.sub].
  destruct (Ascii.eqb_spec x c) as [->|Hx].
  - rewrite append_String, append_empty. simpl.
    destruct (Ascii.eqb_spec d c); [congruence|]. apply IH.
  - simpl. destruct (Ascii.eqb_spec x c); [done|]. apply IH.
Qed.

Lemma match_numbered_inv (name ds title : string) :
  match_numbered name = Some (ds, title) →
  name = ds +:+ "_" +:+ title
  ∧ ds ≠ ""
  ∧ Forall (λ c, is_digit c = true) (String.list_ascii_of_string ds)
  ∧ title ≠ ""
  ∧ strings.Contains title LF = false.
Proof.
  unfold match_numbered.
  destruct (span_digits name) as [ds' rest] eqn:Hspan.
  apply span_digits_digits in Hspan as [Hall ->].
  destruct ds' as [|d ds']; [done|].
  destruct rest as [|c [|t title']]; [done..|].
  destruct (Ascii.eqb_spec c "_") as [->|]; [|done].
  destruct (strings.Contains (String t title') LF) eqn:Hlf; [done|].
  cbn [andb negb]. intros [= <- <-]. done.
Qed.

Lemma match_numbered_append (ds rest : string) :
  ds ≠ "" →
  Forall (λ c, is_digit c = true) (String.list_ascii_of_string ds) →
  rest ≠ "" →
  strings.Contains rest LF = false →
  match_numbered (ds +:+ "_" +:+ rest) = Some (ds, rest).
Proof.
  intros Hds Hall Hrest Hlf. unfold match_numbered.
  rewrite span_digits_append; [|done|by intros c rest' [= <- _]].
  destruct ds as [|d ds]; [done|]. destruct rest as [|t rest]; [done|].
  change ("_" +:+ String t rest) with (String "_" (String t rest)).
  cbv iota beta. by rewrite Hlf.
Qed.

(** X19: whatever the name of a directory or file is, the order that
    [parseNumberedName] reads off it is not negative and fits an [int], and
    the title has no underscore left. *)
Theorem parseNumberedName_order_and_title (name : string) :
  0 ≤ (parseNumberedName name).1 ≤ 2 ^ 63 - 1
  ∧ strings.Contains (parseNumberedName name).2 "_" = false.
Proof.
  assert (∀ s ds title, match_numbered s = Some (ds, title) →
            0 ≤ (strconv.Atoi ds).1 ≤ 2 ^ 63 - 1) as Horder.
  { intros s ds title (_ & Hne & Hall & _)%match_numbered_inv.
    destruct (digits_total 0 ds Hall) as [n Hn].
    destruct (Atoi_digits ds n Hne Hn) as [-> Hpos]. simpl. lia. }
  unfold parseNumberedName.
  destruct (match_numbered name) as [[ds title]|] eqn:H1.
  { split; [by eapply Horder | by apply ReplaceAll_byte_gone]. }
  unfold match_chapter.
  destruct (cut_prefix name "Глава_") as [numbered|].
  - destruct (match_numbered numbered) as [[ds title]|] eqn:H2.
    + split; [by eapply Horder | by apply ReplaceAll_byte_gone].
    + split; [simpl; lia | by apply ReplaceAll_byte_gone].
  - split; [simpl; lia | by apply ReplaceAll_byte_gone].
Qed.

(** X20: a name made of a number, an underscore and a text on one line is
    taken apart into the number and the text with spaces for underscores,
    with or without the chapter word in front.  Leading zeros do not count,
    and a number too large for an [int] becomes the largest [int], because
    the error of [Atoi] is dropped. *)
Theorem numbered_name_is_parsed (ds rest : string) (n : Z) :
  ds ≠ "" →
  strconv.digits 0 ds = Some n →
  rest ≠ "" →
  strings.Contains rest LF = false →
  parseNumberedName (ds +:+ "_" +:+ rest)
  = (Z.min n (2 ^ 63 - 1), strings.ReplaceAll rest "_" " ")
  ∧ parseNumberedName ("Глава_" +:+ ds +:+ "_" +:+ rest)
    = (Z.min n (2 ^ 63 - 1), strings.ReplaceAll rest "_" " ").
Proof.
  intros Hds Hn Hrest Hlf.
  destruct (digits_step 0 ds n ltac:(lia) Hn) as [_ Hall].
  destruct (Atoi_digits ds n Hds Hn) as [Hatoi _].
  unfold parseNumberedName. split.
  - rewrite match_numbered_append by done. by rewrite Hatoi.
  - replace (match_numbered ("Глава_" +:+ ds +:+ "_" +:+ rest)) with
      (@None (string * string)) by done.
    unfold match_chapter.
    replace (cut_prefix ("Глава_" +:+ ds +:+ "_" +:+ rest) "Глава_")
      with (Some (ds +:+ "_" +:+ rest)) by done.
    rewrite match_numbered_append by done. by rewrite Hatoi.
Qed.


(** ** Slugs *)

Lemma list_ascii_of_append (a b : string) : String.list_ascii_of_string (a +:+ b) = String.list_ascii_of_string a ++ String.list_ascii_of_string b.
Proof. induction a as [|c a IH]; [done|]. rewrite append_String. simpl. by rewrite IH. Qed.

Lemma length_append (a b : string) :
  String.length (a +:+ b) = (String.length a + String.length b)%nat.
Proof. induction a as [|c a IH]; [done|]. rewrite append_String. simpl. by rewrite IH. Qed.

Lemma byte_of_nat (n : nat) : (n < 256)%nat → utf8.byte (ascii_of_nat n) = Z.of_nat n.
Proof. intros Hn. unfold utf8.byte. by rewrite nat_ascii_embedding. Qed.

Lemma byte_bound (c : ascii) : 0 ≤ utf8.byte c < 256.
Proof. unfold utf8.byte. pose proof (nat_ascii_bounded c). lia. Qed.

Lemma byte_inj (c d : ascii) : utf8.byte c = utf8.byte d → c = d.
Proof.
  unfold utf8.byte. intros H%Nat2Z.inj.
  by rewrite <- (ascii_nat_embedding c), <- (ascii_nat_embedding d), H.
Qed.

Lemma translit_values :
  forallb (λ kv : string * string, forallb builder_byte (String.list_ascii_of_string kv.2)) translit = true.
Proof. by vm_compute. Qed.

Lemma slugify_rune_bytes (r : Z) :
  Forall (λ c, builder_byte c = true) (String.list_ascii_of_string (slugify_rune r)).
Proof.
  unfold slugify_rune, translit_lookup.
  destruct (find _ translit) as [[k t]|] eqn:Hfind; simpl.
  - apply find_some in Hfind as [Hin _].
    pose proof (proj1 (forallb_forall _ _) translit_values _ Hin) as Ht.
    apply list.Forall_forall. intros c Hc%list_elem_of_In.
    by apply (proj1 (forallb_forall _ _) Ht).
  - change (utf8.rune "a") with 97. change (utf8.rune "z") with 122.
    change (utf8.rune "A") with 65. change (utf8.rune "Z") with 90.
    change (utf8.rune "0") with 48. change (utf8.rune "9") with 57.
    change (utf8.rune " ") with 32. change (utf8.rune "-") with 45.
    change (utf8.rune "_") with 95.
    destruct ((97 <=? r) && (r <=? 122) || (65 <=? r) && (r <=? 90)
              || (48 <=? r) && (r <=? 57)) eqn:Halnum.
    + repeat constructor. unfold builder_byte.
      rewrite !orb_true_iff, !andb_true_iff, !Z.leb_le in Halnum.
      rewrite byte_of_nat by lia. rewrite Z2Nat.id by lia.
      rewrite !orb_true_iff, !andb_true_iff, !Z.leb_le. tauto.
    + destruct ((r =? 32) || (r =? 45) || (r =? 95)); simpl; [|constructor].
      constructor; [by vm_compute | constructor].
Qed.

Lemma builder_bytes (acc : string) (l : list Z) :
  Forall (λ c, builder_byte c = true) (String.list_ascii_of_string acc) →
  Forall (λ c, builder_byte c = true)
    (String.list_ascii_of_string (foldl (λ result r, result +:+ slugify_rune r) acc l)).
Proof.
  revert acc. induction l as [|r l IH]; intros acc Hacc; simpl; [done|].
  apply IH. rewrite list_ascii_of_append. apply Forall_app. split; [done|].
  apply slugify_rune_bytes.
Qed.

(** One round of the loop. *)
Lemma ReplaceAll_from_bytes (P : ascii → Prop) (old new : string) (skip : nat) (s : string) :
  Forall P (String.list_ascii_of_string new) → Forall P (String.list_ascii_of_string s) →
  Forall P (String.list_ascii_of_string (strings.ReplaceAll_from old new skip s)).
Proof.
  intros Hnew. revert skip. induction s as [|c s IH]; intros skip Hs; [done|].
  inversion Hs as [|? ? Hc Hs']; subst.
  cbn [strings.ReplaceAll_from]. destruct skip as [|k]; [|by apply IH].
  destruct (strings.HasPrefix (String c s) old).
  - rewrite list_ascii_of_append. apply Forall_app. split; [done | by apply IH].
  - simpl. constructor; [done | by apply IH].
Qed.

Lemma collapse_round_length (s : string) :
  (String.length (strings.ReplaceAll_from "--" "-" 0 s) ≤ String.length s)%nat
  ∧ (String.length (strings.ReplaceAll_from "--" "-" 1 s) ≤ String.length s - 1)%nat
  ∧ (strings.HasPrefix s "--" = true →
     String.length (strings.ReplaceAll_from "--" "-" 0 s) < String.length s)%nat.
Proof.
  induction s as [|c s (IH0 & IH1 & _)]; [by split_and!|].
  cbn [strings.ReplaceAll_from]. split_and!.
  - destruct (strings.HasPrefix (String c s) "--") eqn:Hp.
    + rewrite length_append.
      change (String.length "--" - 1)%nat with 1%nat.
      change (String.length "-") with 1%nat.
      destruct s as [|d s]; [done|]. simpl in *. lia.
    + simpl. lia.
  - simpl. lia.
  - intros Hp. rewrite Hp, length_append.
    change (String.length "--" - 1)%nat with 1%nat.
    change (String.length "-") with 1%nat.
    destruct s as [|d s]; [simpl in Hp; by destruct (Ascii.eqb c "-")|].
    simpl in *. lia.
Qed.

Lemma collapse_round_shortens (s : string) :
  strings.Contains s "--" = true →
  (String.length (strings.ReplaceAll s "--" "-") < String.length s)%nat.
Proof.
  unfold strings.ReplaceAll. induction s as [|c s IH]; [done|].
  intros Hc.
  destruct (strings.HasPrefix (String c s) "--") eqn:Hp.
  { by apply collapse_round_length. }
  assert (strings.Contains s "--" = true) as Hs.
  { revert Hc. cbn [strings.Contains]. by rewrite Hp. }
  cbn [strings.ReplaceAll_from]. rewrite Hp. simpl. specialize (IH Hs). lia.
Qed.

(** The loop ends: with as much fuel as the slug has bytes, no two hyphens
    in a row are left. *)
Lemma collapse_hyphens_done (fuel : nat) (s : string) :
  (String.length s ≤ fuel)%nat →
  strings.Contains (collapse_hyphens fuel s) "--" = false.
Proof.
  revert s. induction fuel as [|fuel IH]; intros s Hlen; simpl.
  - by destruct s; [|simpl in Hlen; lia].
  - destruct (strings.Contains s "--") eqn:Hc; [|done].
    apply IH. pose proof (collapse_round_shortens s Hc). lia.
Qed.

Lemma collapse_hyphens_bytes (P : ascii → Prop) (fuel : nat) (s : string) :
  P "-"%char → Forall P (String.list_ascii_of_string s) → Forall P (String.list_ascii_of_string (collapse_hyphens fuel s)).
Proof.
  intros Hh. revert s. induction fuel as [|fuel IH]; intros s Hs; simpl; [done|].
  destruct (strings.Contains s "--"); [|done].
  apply IH. apply ReplaceAll_from_bytes; [by repeat constructor | done].
Qed.

(** Trimming *)
Lemma TrimRight_prefix (s cutset : string) :
  ∃ v, s = strings.TrimRight s cutset +:+ v.
Proof.
  induction s as [|c s [v IH]]; [by exists ""|]. simpl.
  destruct (strings.TrimRight s cutset) as [|d r] eqn:Hr.
  - destruct (strings.in_cutset c cutset).
    + by exists (String c s).
    + exists v. rewrite append_String, append_empty. by rewrite append_empty in IH; subst.
  - exists v. rewrite append_String. by rewrite <- IH.
Qed.

Lemma append_eq_nil (a b : string) : a +:+ b = "" → a = "" ∧ b = "".
Proof. destruct a; [by rewrite append_empty | by rewrite append_String]. Qed.

Lemma TrimRight_no_trailing (s cutset start : string) (c : ascii) :
  strings.in_cutset c cutset = true →
  strings.TrimRight s cutset ≠ start +:+ String c "".
Proof.
  intros Hc. revert start. induction s as [|x s IH]; intros start; simpl.
  - intros H. symmetry in H. by apply append_eq_nil in H as [_ ?].
  - destruct (strings.TrimRight s cutset) as [|d r] eqn:Hr.
    + destruct (strings.in_cutset x cutset) eqn:Hx.
      * intros H. symmetry in H. by apply append_eq_nil in H as [_ ?].
      * destruct start as [|y start].
        -- rewrite append_empty. intros [= ->]. congruence.
        -- rewrite append_String. intros [= _ H]. symmetry in H.
           by apply append_eq_nil in H as [_ ?].
    + destruct start as [|y start].
      * rewrite append_empty. by intros [= _ ?].
      * rewrite append_String. intros [= _ H]. by apply (IH start).
Qed.

Lemma TrimLeft_suffix (s cutset : string) :
  ∃ u, s = u +:+ strings'.TrimLeft s cutset.
Proof.
  induction s as [|c s [u IH]]; [by exists ""|]. simpl.
  destruct (strings.in_cutset c cutset).
  - exists (String c u). rewrite append_String. by rewrite <- IH.
  - by exists "".
Qed.

Lemma TrimLeft_no_leading (s cutset rest : string) (c : ascii) :
  strings.in_cutset c cutset = true →
  strings'.TrimLeft s cutset ≠ String c rest.
Proof.
  intros Hc. induction s as [|x s IH]; simpl; [done|].
  destruct (strings.in_cutset x cutset) eqn:Hx; [done|].
  intros [= -> _]. congruence.
Qed.

Lemma Trim_factor (s cutset : string) :
  ∃ u v, s = u +:+ strings'.Trim s cutset +:+ v.
Proof.
  unfold strings'.Trim.
  destruct (TrimRight_prefix s cutset) as [v Hv].
  destruct (TrimLeft_suffix (strings.TrimRight s cutset) cutset) as [u Hu].
  exists u, v. by rewrite <- append_assoc, <- Hu.
Qed.

(** Lower case *)
Lemma lower_byte_hyphen (c : ascii) :
  strings'.lower_byte c = "-"%char ↔ c = "-"%char.
Proof.
  unfold strings'.lower_byte, strings'.byte.
  destruct (_ && _) eqn:Hup; [|done].
  apply andb_true_iff in Hup as [Hlo%Z.leb_le Hhi%Z.leb_le].
  split.
  - intros H. apply (f_equal nat_of_ascii) in H.
    rewrite nat_ascii_embedding in H by lia.
    change (nat_of_ascii "-") with 45%nat in H. lia.
  - intros ->. change (nat_of_ascii "-") with 45%nat in Hlo. lia.
Qed.

Lemma lower_ascii_String (c : ascii) (s : string) :
  strings'.lower_ascii (String c s)
  = String (strings'.lower_byte c) (strings'.lower_ascii s).
Proof. reflexivity. Qed.

Lemma lower_ascii_no_leading (s rest : string) :
  strings'.lower_ascii s = "-" +:+ rest → ∃ rest', s = "-" +:+ rest'.
Proof.
  destruct s as [|c s]; [done|]. rewrite lower_ascii_String, append_String.
  intros [= Hc _]. apply (proj1 (lower_byte_hyphen _)) in Hc. subst.
  exists s. reflexivity.
Qed.

Lemma lower_ascii_no_trailing (s start : string) :
  strings'.lower_ascii s = start +:+ "-" → ∃ start', s = start' +:+ "-".
Proof.
  revert start. induction s as [|c s IH]; intros start.
  - intros H. symmetry in H. by apply append_eq_nil in H as [_ ?].
  - rewrite lower_ascii_String. destruct start as [|y start].
    + rewrite append_empty. intros [= Hc Hs]. apply (proj1 (lower_byte_hyphen _)) in Hc. subst.
      destruct s; [exists ""; reflexivity | done].
    + rewrite append_String. intros [= _ Hs].
      destruct (IH _ Hs) as [start' ->]. exists (String c start'). reflexivity.
Qed.

Lemma lower_ascii_hyphens (s : string) :
  strings.Contains (strings'.lower_ascii s) "--" = strings.Contains s "--".
Proof.
  induction s as [|c s IH]; [done|].
  rewrite lower_ascii_String.
  cbn [strings.Contains]. rewrite IH. f_equal.
  cbn [strings.HasPrefix].
  assert (∀ x, Ascii.eqb (strings'.lower_byte x) "-" = Ascii.eqb x "-") as Heq.
  { intros x. destruct (Ascii.eqb_spec x "-") as [->|Hx]; [done|].
    apply Ascii.eqb_neq. by rewrite lower_byte_hyphen. }
  rewrite Heq. destruct (Ascii.eqb c "-"); [|done].
  destruct s as [|d s]; [done|]. rewrite lower_ascii_String. by rewrite Heq.
Qed.

Lemma lower_ascii_bytes (s : string) :
  Forall (λ c, builder_byte c = true) (String.list_ascii_of_string s) →
  Forall (λ c, slug_byte c = true)
    (String.list_ascii_of_string (strings'.lower_ascii s)).
Proof.
  induction s as [|c s IH]; [done|]. rewrite lower_ascii_String. simpl.
  inversion 1 as [|? ? Hc Hs]; subst. constructor; [|by apply IH].
  unfold builder_byte in Hc. unfold slug_byte, strings'.lower_byte, strings'.byte.
  fold (utf8.byte c).
  rewrite !orb_true_iff, !andb_true_iff, !Z.leb_le, Z.eqb_eq in Hc.
  destruct ((65 <=? utf8.byte c) && (utf8.byte c <=? 90)) eqn:Hup.
  - apply andb_true_iff in Hup as [Hlo%Z.leb_le Hhi%Z.leb_le].
    unfold utf8.byte in *. rewrite nat_ascii_embedding by lia.
    rewrite !orb_true_iff, !andb_true_iff, !Z.leb_le. lia.
  - rewrite andb_false_iff, !Z.leb_gt in Hup.
    rewrite !orb_true_iff, !andb_true_iff, !Z.leb_le, Z.eqb_eq. lia.
Qed.

Lemma builder_bytes_ascii (s : string) :
  Forall (λ c, builder_byte c = true) (String.list_ascii_of_string s) →
  strings'.isASCII s = true.
Proof.
  intros Hs. unfold strings'.isASCII. apply forallb_forall.
  intros c Hc%list_elem_of_In. rewrite list.Forall_forall in Hs.
  specialize (Hs c Hc). unfold builder_byte in Hs. apply Z.ltb_lt.
  change (strings'.byte c) with (utf8.byte c).
  rewrite !orb_true_iff, !andb_true_iff, !Z.leb_le, Z.eqb_eq in Hs. lia.
Qed.

(** X21: a slug is safe in a URL.  Whatever the title, [slugify] ends (the
    loop that collapses hyphens shortens the slug in every round) with a
    text of small Latin letters, digits and hyphens only, with no two
    hyphens in a row and no hyphen at either end.  What it builds is ASCII,
    so the Unicode branch of [strings.ToLower] is never taken. *)
Theorem slug_is_url_safe (Map_ToLower : string → string) (s : string) :
  Forall (λ c, slug_byte c = true)
    (String.list_ascii_of_string (slugify Map_ToLower s))
  ∧ ¬ occurs_in "--" (slugify Map_ToLower s)
  ∧ (∀ rest, slugify Map_ToLower s ≠ "-" +:+ rest)
  ∧ (∀ start, slugify Map_ToLower s ≠ start +:+ "-")
  ∧ (∀ f, slugify f s = slugify Map_ToLower s).
Proof.
  unfold slugify.
  set (result := foldl _ _ _).
  set (collapsed := collapse_hyphens _ result).
  set (trimmed := strings'.Trim collapsed "-").
  assert (Forall (λ c, builder_byte c = true) (String.list_ascii_of_string result))
    as Hresult by (by apply builder_bytes).
  assert (Forall (λ c, builder_byte c = true) (String.list_ascii_of_string collapsed))
    as Hcollapsed by (by apply collapse_hyphens_bytes).
  assert (strings.Contains collapsed "--" = false) as Hdone
    by (by apply collapse_hyphens_done).
  destruct (Trim_factor collapsed "-") as (u & v & Hfactor). fold trimmed in Hfactor.
  assert (Forall (λ c, builder_byte c = true) (String.list_ascii_of_string trimmed))
    as Htrimmed.
  { rewrite Hfactor, !list_ascii_of_append, !Forall_app in Hcollapsed. tauto. }
  assert (strings.Contains trimmed "--" = false) as Hnone.
  { destruct (strings.Contains trimmed "--") eqn:Hc; [|done].
    apply Contains_spec in Hc as (a & b & Hab).
    assert (strings.Contains collapsed "--" = true); [|congruence].
    apply Contains_spec. exists (u +:+ a), (b +:+ v).
    by rewrite Hfactor, Hab, !append_assoc. }
  assert (∀ f, strings'.ToLower f trimmed = strings'.lower_ascii trimmed) as Hlower.
  { intros f. unfold strings'.ToLower. by rewrite builder_bytes_ascii. }
  rewrite !Hlower. split_and!.
  - by apply lower_ascii_bytes.
  - rewrite <- Contains_spec, lower_ascii_hyphens. congruence.
  - intros rest [rest' H]%lower_ascii_no_leading.
    by apply (TrimLeft_no_leading (strings.TrimRight collapsed "-") "-" rest' "-").
  - intros start [start' H]%lower_ascii_no_trailing.
    destruct (TrimLeft_suffix (strings.TrimRight collapsed "-") "-") as [w Hw].
    fold (strings'.Trim collapsed "-") in Hw. fold trimmed in Hw.
    rewrite H, <- append_assoc in Hw.
    by apply TrimRight_no_trailing in Hw.
  - intros f. by rewrite Hlower.
Qed.


(** ** The further theorems at sample inputs *)

Lemma task_load_error_is_propagated_witness :
  (serve storage_down_request sample_world).1.1
  = Err ("get task: " +:+ "get task by id: " +:+ "database is locked")
  ∧ (serve storage_down_request sample_world).1.2
    = [EvQueryTaskRow 1 (ScanErr "database is locked")].
Proof.
  apply (task_load_error_is_propagated (world_handler storage_down_env) sample_world
           1 loop_code _ _ (serve storage_down_request sample_world).2).
  - vm_compute; reflexivity.
  - in_sample_trace.
Defined.

Lemma create_submission_error_is_propagated_witness :
  (serve create_failing_request sample_world).1.1
  = Err ("create submission: " +:+ "disk full")
  ∧ pendingSubmission 1 loop_code = pendingSubmission 1 loop_code
  ∧ ∃ task,
      (serve create_failing_request sample_world).1.2
      = [EvQueryTaskRow 1 (Scanned task);
         EvCreateSubmission (pendingSubmission 1 loop_code)
           (Some "disk full", pendingSubmission 1 loop_code)]
      ∧ strings.TrimSpace (Task.Mode task) ≠ "manual".
Proof.
  apply (create_submission_error_is_propagated (world_handler create_failing_env)
           sample_world 1 loop_code _ _ (serve create_failing_request sample_world).2).
  - vm_compute; reflexivity.
  - in_sample_trace.
Defined.

Lemma output_mismatch_stops_pipeline_witness :
  (serve wrong_output_request sample_world).1.1
  = Ok {| CheckResult.Success := false;
          CheckResult.Output := RunResult.Stdout wrong_run;
          CheckResult.Expected := strings.TrimSpace (Task.ExpectedOutput loop_task);
          CheckResult.Error := "Вывод программы не соответствует ожидаемому";
          CheckResult.Hints :=
            ["Ожидалось:" +:+ LF +:+ strings.TrimSpace (Task.ExpectedOutput loop_task)];
          CheckResult.PointsAwarded := 0 |}
  ∧ ∃ ans,
      (serve wrong_output_request sample_world).1.2
      = [EvQueryTaskRow 1 (Scanned loop_task);
         EvCreateSubmission (pendingSubmission 1 loop_code)
           (None, first_submission 1 loop_code);
         EvRunnerRun loop_code (Ok wrong_run);
         EvUpdateSubmission
           (Submission.set_Status "error"
              (Submission.set_Stdout (RunResult.Stdout wrong_run)
                 (first_submission 1 loop_code))) ans].
Proof.
  apply (output_mismatch_stops_pipeline (world_handler wrong_output_env) sample_world
           1 loop_code _ _ (serve wrong_output_request sample_world).2).
  - vm_compute; reflexivity.
  - in_sample_trace.
  - in_sample_trace.
  - in_sample_trace.
  - reflexivity.
  - by vm_compute.
  - vm_compute; reflexivity.
Defined.

Lemma test_stage_outcomes_witness :
  ((serve tests_infra_request exam_world).1.1
   = Err ("run tests: " +:+ "sandbox unavailable")
   ∧ Task.TestsGo tested_task = Task.TestsGo tested_task
   ∧ ∃ runResult ans,
       (serve tests_infra_request exam_world).1.2
       = [EvQueryTaskRow 5 (Scanned tested_task);
          EvCreateSubmission (pendingSubmission 5 plain_code)
            (None, first_submission 5 plain_code);
          EvRunnerRun plain_code (Ok runResult);
          EvRunnerCheck plain_code (Task.TestsGo tested_task)
            (Err "sandbox unavailable");
          EvUpdateSubmission
            (Submission.set_Stderr "sandbox unavailable"
               (Submission.set_Status "error"
                  (Submission.set_Stdout (RunResult.Stdout runResult)
                     (first_submission 5 plain_code)))) ans])
  ∧ (Task.TestsGo tested_task = Task.TestsGo tested_task
     ∧ ∃ runResult ans,
         (serve tests_failing_request exam_world).1.1
         = Ok {| CheckResult.Success := false;
                 CheckResult.Output := RunResult.Stdout runResult;
                 CheckResult.Expected :=
                   if String.eqb (Task.ExpectedOutput tested_task) "" then ""
                   else strings.TrimSpace (Task.ExpectedOutput tested_task);
                 CheckResult.Error := "Тесты не пройдены";
                 CheckResult.Hints :=
                   if String.eqb (RunResult.Error failing_tests) "" then []
                   else [RunResult.Error failing_tests];
                 CheckResult.PointsAwarded := 0 |}
         ∧ (serve tests_failing_request exam_world).1.2
           = [EvQueryTaskRow 5 (Scanned tested_task);
              EvCreateSubmission (pendingSubmission 5 plain_code)
                (None, first_submission 5 plain_code);
              EvRunnerRun plain_code (Ok runResult);
              EvRunnerCheck plain_code (Task.TestsGo tested_task) (Ok failing_tests);
              EvUpdateSubmission
                (Submission.set_Stderr (RunResult.Error failing_tests)
                   (Submission.set_Status "error"
                      (Submission.set_Stdout (RunResult.Stdout runResult)
                         (first_submission 5 plain_code)))) ans]).
Proof.
  split.
  - apply (proj1 (test_stage_outcomes (world_handler tests_infra_env) exam_world
                    5 plain_code _ _ (serve tests_infra_request exam_world).2
                    tested_task (first_submission 5 plain_code)
                    ltac:(vm_compute; reflexivity) ltac:(in_sample_trace)
                    ltac:(in_sample_trace))).
    in_sample_trace.
  - apply (proj2 (test_stage_outcomes (world_handler tests_failing_env) exam_world
                    5 plain_code _ _ (serve tests_failing_request exam_world).2
                    tested_task (first_submission 5 plain_code)
                    ltac:(vm_compute; reflexivity) ltac:(in_sample_trace)
                    ltac:(in_sample_trace))).
    + in_sample_trace.
    + reflexivity.
Defined.

Lemma points_only_with_success_witness :
  (∀ cr, (serve loop_request sample_world).1.1 = Ok cr →
         CheckResult.Success cr = false → CheckResult.PointsAwarded cr = 0)
  ∧ (∀ lessonID points ans,
       EvSetPracticeDone lessonID points ans ∈ (serve loop_request sample_world).1.2 →
       ∃ cr task,
         (serve loop_request sample_world).1.1 = Ok cr
         ∧ CheckResult.Success cr = true
         ∧ CheckResult.PointsAwarded cr = points
         ∧ EvQueryTaskRow 1 (Scanned task) ∈ (serve loop_request sample_world).1.2
         ∧ lessonID = Task.LessonID task ∧ points = Task.Points task)
  ∧ (length (List.filter is_credit_event (serve loop_request sample_world).1.2) ≤ 1)%nat.
Proof.
  apply (points_only_with_success (world_handler sound_env) sample_world
           1 loop_code _ _ (serve loop_request sample_world).2).
  vm_compute; reflexivity.
Defined.

Lemma runner_is_called_in_order_witness :
  List.filter is_runner_event (serve exam_request exam_world).1.2 = []
  ∨ (∃ ans, List.filter is_runner_event (serve exam_request exam_world).1.2
            = [EvRunnerRun plain_code ans])
  ∨ (∃ task runResult ans,
       List.filter is_runner_event (serve exam_request exam_world).1.2
       = [EvRunnerRun plain_code (Ok runResult);
          EvRunnerCheck plain_code (Task.TestsGo task) ans]
       ∧ RunResult.Success runResult = true
       ∧ EvQueryTaskRow 5 (Scanned task) ∈ (serve exam_request exam_world).1.2
       ∧ Task.TestsGo task ≠ "").
Proof.
  apply (runner_is_called_in_order (world_handler sound_env) exam_world
           5 plain_code (serve exam_request exam_world).1.1 _
           (serve exam_request exam_world).2).
  vm_compute; reflexivity.
Defined.

Lemma success_means_every_stage_passed_witness :
  ∃ task sub runResult,
    EvQueryTaskRow 5 (Scanned task) ∈ (serve exam_request exam_world).1.2
    ∧ strings.TrimSpace (Task.Mode task) ≠ "manual"
    ∧ EvCreateSubmission (pendingSubmission 5 plain_code) (None, sub)
      ∈ (serve exam_request exam_world).1.2
    ∧ (∀ p, p ∈ pattern_entries (Task.RequiredPatterns task) → occurs_in p plain_code)
    ∧ EvRunnerRun plain_code (Ok runResult) ∈ (serve exam_request exam_world).1.2
    ∧ RunResult.Success runResult = true
    ∧ (Task.ExpectedOutput task ≠ "" →
       compareOutput (strings.TrimSpace (RunResult.Stdout runResult))
         (strings.TrimSpace (Task.ExpectedOutput task)) = true)
    ∧ (Task.TestsGo task ≠ "" →
       ∃ testResult,
         EvRunnerCheck plain_code (Task.TestsGo task) (Ok testResult)
         ∈ (serve exam_request exam_world).1.2
         ∧ RunResult.Success testResult = true)
    ∧ CheckResult.Output exam_result = RunResult.Stdout runResult
    ∧ CheckResult.Expected exam_result
      = (if String.eqb (Task.ExpectedOutput task) "" then ""
         else strings.TrimSpace (Task.ExpectedOutput task))
    ∧ CheckResult.Error exam_result = ""
    ∧ CheckResult.Hints exam_result = []
    ∧ ∃ tr0 ans,
        (serve exam_request exam_world).1.2
        = tr0
          ++ [EvUpdateSubmission
                (Submission.set_Status "success"
                   (Submission.set_Stdout (RunResult.Stdout runResult) sub)) ans].
Proof.
  apply (success_means_every_stage_passed (world_handler sound_env) exam_world
           5 plain_code exam_result _ (serve exam_request exam_world).2).
  - vm_compute; reflexivity.
  - reflexivity.
Defined.

Lemma every_stage_passed_means_success_witness :
  ∃ cr, (serve exam_request exam_world).1.1 = Ok cr ∧ CheckResult.Success cr = true.
Proof.
  apply (every_stage_passed_means_success (world_handler sound_env) exam_world
           5 plain_code _ (serve exam_request exam_world).1.2
           (serve exam_request exam_world).2
           tested_task (first_submission 5 plain_code) passing_run).
  - vm_compute; reflexivity.
  - in_sample_trace.
  - in_sample_trace.
  - intros p Hp. vm_compute in Hp. by apply elem_of_nil in Hp.
  - in_sample_trace.
  - reflexivity.
  - right. vm_compute; reflexivity.
  - right. exists passing_run. split; [in_sample_trace | reflexivity].
Defined.

Lemma handleCheck_validates_first_witness :
  (Some (0, loop_code) = None →
   (run (world_handler sound_env) (handleCheck (Some (0, loop_code))) sample_world).1.1
   = BadRequest "Invalid JSON"
   ∧ (run (world_handler sound_env) (handleCheck (Some (0, loop_code))) sample_world).1.2
     = []
   ∧ (run (world_handler sound_env) (handleCheck (Some (0, loop_code))) sample_world).2
     = sample_world)
  ∧ (∀ code, Some (0, loop_code) = Some (0, code) →
       (run (world_handler sound_env) (handleCheck (Some (0, loop_code))) sample_world).1.1
       = BadRequest "Task ID is required"
       ∧ (run (world_handler sound_env) (handleCheck (Some (0, loop_code)))
            sample_world).1.2 = []
       ∧ (run (world_handler sound_env) (handleCheck (Some (0, loop_code)))
            sample_world).2 = sample_world)
  ∧ (∀ taskID code, Some (0, loop_code) = Some (taskID, code) → taskID ≠ 0 →
       strings.TrimSpace code = "" →
       (run (world_handler sound_env) (handleCheck (Some (0, loop_code))) sample_world).1.1
       = BadRequest "Code is empty"
       ∧ (run (world_handler sound_env) (handleCheck (Some (0, loop_code)))
            sample_world).1.2 = []
       ∧ (run (world_handler sound_env) (handleCheck (Some (0, loop_code)))
            sample_world).2 = sample_world)
  ∧ ((run (world_handler sound_env) (handleCheck (Some (0, loop_code))) sample_world).1.2
     ≠ [] →
     ∃ taskID code, Some (0, loop_code) = Some (taskID, code) ∧ taskID ≠ 0
                    ∧ strings.TrimSpace code ≠ "").
Proof.
  apply (handleCheck_validates_first (world_handler sound_env) sample_world
           (Some (0, loop_code))).
  vm_compute; reflexivity.
Defined.

Lemma handleCheck_relays_Check_witness :
  run (world_handler sound_env) (handleCheck (Some (1, plain_code))) sample_world
  = ((run (world_handler sound_env) (handleCheck (Some (1, plain_code))) sample_world).1.1,
     (serve lazy_request sample_world).1.2,
     (serve lazy_request sample_world).2)
  ↔ ∃ out,
      run (world_handler sound_env) (Check 1 plain_code) sample_world
      = (out, (serve lazy_request sample_world).1.2, (serve lazy_request sample_world).2)
      ∧ (run (world_handler sound_env) (handleCheck (Some (1, plain_code)))
           sample_world).1.1
        = match out with
          | Err err => InternalServerError err
          | Ok result => JSONCheckResult result
          end.
Proof.
  apply (handleCheck_relays_Check (world_handler sound_env) sample_world 1 plain_code).
  - lia.
  - by vm_compute.
Defined.

Lemma handleRun_only_runs_witness :
  ((run (world_handler crash_env) (handleRun (Some plain_code)) sample_world).1.2 = []
   ∧ (run (world_handler crash_env) (handleRun (Some plain_code)) sample_world).2
     = sample_world
   ∧ (Some plain_code = None
      ∧ (run (world_handler crash_env) (handleRun (Some plain_code)) sample_world).1.1
        = BadRequest "Invalid JSON"
      ∨ ∃ code, Some plain_code = Some code ∧ strings.TrimSpace code = ""
                ∧ (run (world_handler crash_env) (handleRun (Some plain_code))
                     sample_world).1.1 = BadRequest "Code is empty"))
  ∨ (∃ code ans,
       Some plain_code = Some code ∧ strings.TrimSpace code ≠ ""
       ∧ (run (world_handler crash_env) (handleRun (Some plain_code)) sample_world).1.2
         = [EvRunnerRun code ans]
       ∧ (run (world_handler crash_env) (handleRun (Some plain_code)) sample_world).1.1
         = match ans with
           | Err err => InternalServerError err
           | Ok result => JSONRunResult result
           end).
Proof.
  apply (handleRun_only_runs (world_handler crash_env) sample_world (Some plain_code)).
  vm_compute; reflexivity.
Defined.

Lemma handleCompleteTask_refusals_witness :
  (run (world_handler sound_env) (handleCompleteTask "1") sample_world).1.1
  = BadRequest "Task is not manual"
  ∧ (run (world_handler sound_env) (handleCompleteTask "1") sample_world).1.2
    = [EvQueryTaskRow 1 (Scanned loop_task)].
Proof.
  apply (handleCompleteTask_refusals (world_handler sound_env) sample_world "1"
           _ _ (run (world_handler sound_env) (handleCompleteTask "1") sample_world).2
           ltac:(vm_compute; reflexivity)).
  - in_sample_trace.
  - by vm_compute.
Defined.

Lemma handleCompleteTask_awards_by_query_witness :
  strconv.ParseInt "3" = (3, None) ∧ 0 < 3
  ∧ ((∃ flag err,
        (run (world_handler sound_env) (handleCompleteTask "3") sample_world).1.2
        = [EvQueryTaskRow 3 (Scanned manual_task);
           EvIsTaskSolvedSuccessfully 3 (flag, Some err)]
        ∧ (run (world_handler sound_env) (handleCompleteTask "3") sample_world).1.1
          = InternalServerError err)
     ∨ ((run (world_handler sound_env) (handleCompleteTask "3") sample_world).1.2
        = [EvQueryTaskRow 3 (Scanned manual_task);
           EvIsTaskSolvedSuccessfully 3 (true, None)]
        ∧ (run (world_handler sound_env) (handleCompleteTask "3") sample_world).1.1
          = JSONCompleted true 0)
     ∨ (∃ err sub,
          (run (world_handler sound_env) (handleCompleteTask "3") sample_world).1.2
          = [EvQueryTaskRow 3 (Scanned manual_task);
             EvIsTaskSolvedSuccessfully 3 (false, None);
             EvCreateSubmission (manualSubmission 3) (Some err, sub)]
          ∧ (run (world_handler sound_env) (handleCompleteTask "3") sample_world).1.1
            = InternalServerError err)
     ∨ (∃ err sub,
          (run (world_handler sound_env) (handleCompleteTask "3") sample_world).1.2
          = [EvQueryTaskRow 3 (Scanned manual_task);
             EvIsTaskSolvedSuccessfully 3 (false, None);
             EvCreateSubmission (manualSubmission 3) (None, sub);
             EvSetPracticeDone (Task.LessonID manual_task) (Task.Points manual_task)
               (Some err)]
          ∧ (run (world_handler sound_env) (handleCompleteTask "3") sample_world).1.1
            = InternalServerError err)
     ∨ (∃ sub,
          (run (world_handler sound_env) (handleCompleteTask "3") sample_world).1.2
          = [EvQueryTaskRow 3 (Scanned manual_task);
             EvIsTaskSolvedSuccessfully 3 (false, None);
             EvCreateSubmission (manualSubmission 3) (None, sub);
             EvSetPracticeDone (Task.LessonID manual_task) (Task.Points manual_task)
               None]
          ∧ (run (world_handler sound_env) (handleCompleteTask "3") sample_world).1.1
            = JSONCompleted true (Task.Points manual_task))).
Proof.
  apply (handleCompleteTask_awards_by_query (world_handler sound_env) sample_world "3"
           _ _ (run (world_handler sound_env) (handleCompleteTask "3") sample_world).2).
  - vm_compute; reflexivity.
  - in_sample_trace.
  - vm_compute; reflexivity.
Defined.

Lemma Check_and_handleCompleteTask_are_exclusive_witness :
  List.filter is_ledger_write (serve manual_request sample_world).1.2 = []
  ∨ List.filter is_ledger_write
      (run (world_handler sound_env) (handleCompleteTask "3") sample_world).1.2 = [].
Proof.
  apply (Check_and_handleCompleteTask_are_exclusive
           (world_handler sound_env) (world_handler sound_env)
           sample_world (serve manual_request sample_world).2
           sample_world
           (run (world_handler sound_env) (handleCompleteTask "3") sample_world).2
           3 loop_code "3"
           (serve manual_request sample_world).1.1
           (run (world_handler sound_env) (handleCompleteTask "3") sample_world).1.1
           _ _ manual_task).
  - vm_compute; reflexivity.
  - vm_compute; reflexivity.
  - in_sample_trace.
  - in_sample_trace.
Defined.

Lemma generated_criteria_name_required_patterns_witness :
  occurs_in ("`" +:+ "fmt.Println" +:+ "`")
    (generateCriteria "hi" "for | fmt.Println").
Proof.
  apply (generated_criteria_name_required_patterns "hi" "for | fmt.Println" "fmt.Println").
  in_sample_trace.
Defined.

Lemma created_task_is_found_witness :
  run (world_handler sound_env) (GetTaskByID 4)
    (CreateTask None 4 draft_task sample_world).2
  = (Ok (Some (CreateTask None 4 draft_task sample_world).1.2),
     [EvQueryTaskRow 4 (Scanned (CreateTask None 4 draft_task sample_world).1.2)],
     (CreateTask None 4 draft_task sample_world).2)
  ∧ Task.ID (CreateTask None 4 draft_task sample_world).1.2 = 4
  ∧ Task.Mode (CreateTask None 4 draft_task sample_world).1.2
    = (if String.eqb (strings.TrimSpace (Task.Mode draft_task)) "" then "auto"
       else Task.Mode draft_task)
  ∧ strings.TrimSpace (Task.Mode (CreateTask None 4 draft_task sample_world).1.2) ≠ ""
  ∧ (∀ id, id ≠ 4 →
           query_task_row sound_env id (CreateTask None 4 draft_task sample_world).2
           = query_task_row sound_env id sample_world).
Proof.
  apply (created_task_is_found 4 draft_task _ sample_world _ sound_env).
  - vm_compute; reflexivity.
  - repeat (constructor; [by vm_compute|]). constructor.
  - reflexivity.
Defined.

Lemma numbered_name_is_parsed_witness :
  parseNumberedName ("01" +:+ "_" +:+ "Hello_World")
  = (Z.min 1 (2 ^ 63 - 1), strings.ReplaceAll "Hello_World" "_" " ")
  ∧ parseNumberedName ("Глава_" +:+ "01" +:+ "_" +:+ "Hello_World")
    = (Z.min 1 (2 ^ 63 - 1), strings.ReplaceAll "Hello_World" "_" " ").
Proof.
  apply (numbered_name_is_parsed "01" "Hello_World" 1).
  - by vm_compute.
  - reflexivity.
  - by vm_compute.
  - reflexivity.
Defined.

Lemma blank_mode_task_is_checked_not_self_reported_witness :
  (∀ idStr, strconv.ParseInt idStr = (4, None) →
     run (world_handler sound_env) (handleCompleteTask idStr)
       (CreateTask None 4 draft_task sample_world).2
     = (BadRequest "Task is not manual",
        [EvQueryTaskRow 4 (Scanned (CreateTask None 4 draft_task sample_world).1.2)],
        (CreateTask None 4 draft_task sample_world).2))
  ∧ (∀ code out tr w'',
       run (world_handler sound_env) (Check 4 code)
         (CreateTask None 4 draft_task sample_world).2 = (out, tr, w'') →
       ∃ ans tr',
         tr = EvQueryTaskRow 4 (Scanned (CreateTask None 4 draft_task sample_world).1.2)
              :: EvCreateSubmission (pendingSubmission 4 code) ans :: tr').
Proof.
  apply (blank_mode_task_is_checked_not_self_reported sound_env 4 draft_task _
           sample_world _).
  - vm_compute; reflexivity.
  - vm_compute; reflexivity.
  - repeat (constructor; [by vm_compute|]). constructor.
  - reflexivity.
  - lia.
Defined.
